(** * habi-tracker-server: the habit store and the toggle reconciler

    A shallow embedding of [src/index.js], the Express server of the habit
    tracker, and the properties of its handlers.

    Conventions of the embedding.
    - A JavaScript string is the list of its UTF-16 code units.
    - An array is a list; indices are integers, [-1] meaning "not found",
      as [indexOf] and [findIndex] report it.
    - Numbers that the handlers compute with (the id counter, weekdays,
      array indices, timestamps in milliseconds) are integers, which
      JavaScript numbers represent exactly below 2^53.
    - The clock ([new Date()]), the random source ([Math.random()]) and the
      outcome of every call that leaves the process (the Mongoose driver,
      the HTTPS request) are inputs of the handlers. *)

From Stdlib Require Import String Ascii.
From Stdlib Require Import ZArith NArith QArith List Bool Lia.
From Stdlib Require Import Sorted Permutation.
Import ListNotations.
Local Open Scope Z_scope.

Set Implicit Arguments.
Set Warnings "-register-all".

(** ** JavaScript values used by the handlers *)

Module JS.

(** Strict equality [===] on the types stored in arrays. *)
Class StrictEq (A : Type) := {
  strict_eqb : A -> A -> bool;
  strict_eqb_eq : forall x y, strict_eqb x y = true <-> x = y
}.

Definition jsstring := list N.

(** The code units of an ASCII literal. *)
Definition str (s : string) : jsstring :=
  map N_of_ascii (list_ascii_of_string s).

Fixpoint jsstring_eqb (s t : jsstring) : bool :=
  match s, t with
  | [], [] => true
  | c :: s', d :: t' => N.eqb c d && jsstring_eqb s' t'
  | _, _ => false
  end.

Lemma jsstring_eqb_eq (s t : jsstring) : jsstring_eqb s t = true <-> s = t.
Proof.
  revert t; induction s as [|c s IH]; intros [|d t]; simpl;
    try (split; [discriminate | discriminate]); try tauto.
  rewrite andb_true_iff, N.eqb_eq, IH.
  split; [intros [-> ->]; reflexivity | intros E; injection E; auto].
Qed.

#[export] Instance StrictEq_Z : StrictEq Z :=
  {| strict_eqb := Z.eqb; strict_eqb_eq := Z.eqb_eq |}.

#[export] Instance StrictEq_jsstring : StrictEq jsstring :=
  {| strict_eqb := jsstring_eqb; strict_eqb_eq := jsstring_eqb_eq |}.

(** *** Arrays *)

Section Arrays.
Context {A : Type}.

(** [arr.push(x)] *)
Definition push (arr : list A) (x : A) : list A := arr ++ [x].

(** [arr.splice(start, deleteCount)]: the array after the call.  The
    start index is clamped as ECMAScript does (a negative one counts from
    the end). *)
Definition splice (arr : list A) (start deleteCount : Z) : list A :=
  let len := Z.of_nat (length arr) in
  let actualStart :=
    if start <? 0 then Z.max (len + start) 0 else Z.min start len in
  let actualDeleteCount := Z.min (Z.max deleteCount 0) (len - actualStart) in
  firstn (Z.to_nat actualStart) arr
    ++ skipn (Z.to_nat (actualStart + actualDeleteCount)) arr.

(** [arr.findIndex(p)] *)
Fixpoint findIndex_from (p : A -> bool) (arr : list A) (i : Z) : Z :=
  match arr with
  | [] => -1
  | y :: arr' => if p y then i else findIndex_from p arr' (i + 1)
  end.

Definition findIndex (p : A -> bool) (arr : list A) : Z :=
  findIndex_from p arr 0.

(** [arr.find(p)] *)
Definition find (p : A -> bool) (arr : list A) : option A :=
  List.find p arr.

Context `{StrictEq A}.

(** [arr.indexOf(x)] *)
Definition indexOf (arr : list A) (x : A) : Z :=
  findIndex (fun y => strict_eqb y x) arr.

(** [arr.includes(x)] *)
Definition includes (arr : list A) (x : A) : bool :=
  existsb (fun y => strict_eqb y x) arr.

End Arrays.

(** *** Strings: [String.prototype.trim] *)

(** ECMAScript WhiteSpace and LineTerminator code points. *)
Definition isWhiteSpace (c : N) : bool :=
  let c := Z.of_N c in
  (c =? 0x09) || (c =? 0x0A) || (c =? 0x0B) || (c =? 0x0C) || (c =? 0x0D)
  || (c =? 0x20) || (c =? 0xA0) || (c =? 0x1680)
  || ((0x2000 <=? c) && (c <=? 0x200A))
  || (c =? 0x2028) || (c =? 0x2029) || (c =? 0x202F) || (c =? 0x205F)
  || (c =? 0x3000) || (c =? 0xFEFF).

Fixpoint trimStart (s : jsstring) : jsstring :=
  match s with
  | c :: s' => if isWhiteSpace c then trimStart s' else s
  | [] => []
  end.

Definition trimEnd (s : jsstring) : jsstring := rev (trimStart (rev s)).

Definition trim (s : jsstring) : jsstring := trimEnd (trimStart s).

(** *** JSON values, as [JSON.parse] yields them *)

Inductive json : Type :=
| JNull
| JBool (b : bool)
| JNumber (x : Q)
| JString (s : jsstring)
| JArray (elems : list json)
| JObject (props : list (jsstring * json)).

End JS.

Import JS.

(** ** The data model *)

(** A habit record; [I] is the type of its [_id]: a number in the in-memory
    list, an ObjectId in the database. *)
Record habit (I : Type) : Type := Habit {
  _id : I;
  title : jsstring;
  days : list Z;
  history : list jsstring;
  createdAt : Z
}.

Arguments Habit {I}.
Arguments _id {I}.
Arguments title {I}.
Arguments days {I}.
Arguments history {I}.
Arguments createdAt {I}.

(** ** The toggle reconciler

    The body shared by both branches of [PATCH /api/habits/:id/toggle]
    (lines 105-113 and 121-128), as a function of the habit it mutates. *)

Definition toggle {I} (today : jsstring) (dayOfWeek : Z) (h : habit I)
  : habit I :=
  let todayIndex := indexOf (history h) today in
  if todayIndex =? -1 then
    let history1 := push (history h) today in
    let days1 :=
      if negb (includes (days h) dayOfWeek)
      then push (days h) dayOfWeek else days h in
    Habit (_id h) (title h) days1 history1 (createdAt h)
  else
    let history1 := splice (history h) todayIndex 1 in
    let dayIndex := indexOf (days h) dayOfWeek in
    let days1 :=
      if negb (dayIndex =? -1)
      then splice (days h) dayIndex 1 else days h in
    Habit (_id h) (title h) days1 history1 (createdAt h).

(** ** The server *)

(** Outcome of an awaited driver call. *)
Inductive outcome (A : Type) : Type :=
| Resolved (a : A)
| Rejected.

Arguments Rejected {A}.

(** The Mongoose calls of the handlers, over a collection of type [DB]
    whose documents carry ids of type [O].  Mongoose is not part of the
    repository: the handlers are modelled against this interface, and a
    call that writes also returns the collection as the driver left it. *)
Record Mongoose (DB O : Type) : Type := {
  (* Habit.find().sort({ createdAt: -1 }) *)
  find_sort_createdAt_desc : DB -> outcome (list (habit O));
  (* new Habit(newHabit).save() *)
  model_save : habit unit -> DB -> outcome (habit O) * DB;
  (* Habit.findById(id) *)
  findById : jsstring -> DB -> outcome (option (habit O));
  (* habit.save() *)
  document_save : habit O -> DB -> outcome (habit O) * DB;
  (* Habit.findByIdAndDelete(id) *)
  findByIdAndDelete : jsstring -> DB -> outcome (option (habit O)) * DB
}.

(** The module-level state: lines 16, 17 and 20, and the collection. *)
Record server (DB : Type) : Type := Server {
  isConnected : bool;
  habits : list (habit Z);
  habitId : Z;
  db : DB
}.

Arguments Server {DB}.

(** What [res.json] sends.  A habit carries a number ([inl]) or an
    ObjectId ([inr]) as its [_id]. *)
Inductive payload (O : Type) : Type :=
| Habits (l : list (habit (Z + O)))
| OneHabit (h : habit (Z + O))
| ErrorBody (error : string)
| MessageBody (message : string).

Arguments ErrorBody {O}.
Arguments MessageBody {O}.

Record response (O : Type) : Type := Response {
  status : Z;
  body : payload O
}.

Definition with_id {I J} (f : I -> J) (h : habit I) : habit J :=
  Habit (f (_id h)) (title h) (days h) (history h) (createdAt h).

(** Completion of a [try] block: a value, or an exception with the state
    reached when it was thrown. *)
Inductive completion (A S : Type) : Type :=
| Normal (a : A)
| Throw (s : S).

Arguments Normal {A S}.
Arguments Throw {A S}.

(** The array element that [habits.find(p)] returns is mutated in place:
    the first element satisfying [p] is replaced by its image. *)
Fixpoint mutate_first {A} (p : A -> bool) (f : A -> A) (arr : list A)
  : list A :=
  match arr with
  | [] => []
  | y :: arr' => if p y then f y :: arr' else y :: mutate_first p f arr'
  end.

(** ToBoolean of [title], a property of the parsed body ([None] when the
    property is absent). *)
Definition truthy (v : option json) : bool :=
  match v with
  | None => false
  | Some JNull => false
  | Some (JBool b) => b
  | Some (JNumber x) => negb (Qnum x =? 0)
  | Some (JString s) => negb (jsstring_eqb s [])
  | Some (JArray _) => true
  | Some (JObject _) => true
  end.

(** [req.body] as [express.json()] leaves it: [undefined] when no body was
    parsed (Express 5; Express 4 leaves an empty object instead, which is
    [Body None]), or the parsed object or array, of which the handler
    reads the property [title] only ([None] when it has none). *)
Inductive req_body : Type :=
| NoBody
| Body (title : option json).

Inductive request : Type :=
| GET_habits
| POST_habits (body : req_body) (now : Z)
| PATCH_toggle (id : jsstring) (today : jsstring) (dayOfWeek : Z)
| DELETE_habit (id : jsstring).

Section Handlers.
Context {DB O : Type}.
Variable M : Mongoose DB O.

(** The number a route parameter converts to under [==] against a
    number, when that number is an integer; [None] otherwise (NaN, a
    fraction, an infinity), in which case no counter value equals it. *)
Variable ToNumber : jsstring -> option Z.

(** [h._id == id] (lines 118 and 148). *)
Definition id_matches (id : jsstring) (h : habit Z) : bool :=
  match ToNumber id with
  | Some n => _id h =? n
  | None => false
  end.

Definition set_db (s : server DB) (d : DB) : server DB :=
  Server (isConnected s) (habits s) (habitId s) d.

Definition catch (error : string)
  (c : completion (response O * server DB) (server DB))
  : response O * server DB :=
  match c with
  | Normal r => r
  | Throw s => (Response 500 (ErrorBody error), s)
  end.

(** [GET /api/habits] *)
Definition get_habits (s : server DB) : response O * server DB :=
  catch "Failed to fetch habits"
    (if isConnected s then
       match find_sort_createdAt_desc M (db s) with
       | Resolved dbHabits =>
           Normal (Response 200 (Habits (map (with_id inr) dbHabits)), s)
       | Rejected => Throw s
       end
     else
       Normal (Response 200 (Habits (map (with_id inl) (habits s))), s)).

(** [POST /api/habits] *)
Definition post_habits (body : req_body) (now : Z) (s : server DB)
  : response O * server DB :=
  catch "Failed to create habit"
    (match body with
     | NoBody => Throw s  (* line 68: undefined cannot be destructured *)
     | Body title =>
         if negb (truthy title) then
           Normal (Response 400 (ErrorBody "Title is required"), s)
         else
           match title with
           | Some (JString t) =>
               if jsstring_eqb (trim t) [] then
                 Normal (Response 400 (ErrorBody "Title is required"), s)
               else
                 let newHabit := Habit tt (trim t) [] [] now in
                 if isConnected s then
                   match model_save M newHabit (db s) with
                   | (Resolved savedHabit, d) =>
                       Normal
                         (Response 201 (OneHabit (with_id inr savedHabit)),
                          set_db s d)
                   | (Rejected, d) => Throw (set_db s d)
                   end
                 else
                   let newHabit := with_id (fun _ => habitId s) newHabit in
                   Normal (Response 201 (OneHabit (with_id inl newHabit)),
                           Server (isConnected s) (push (habits s) newHabit)
                             (habitId s + 1) (db s))
           | _ => Throw s  (* title.trim is not a function *)
           end
     end).

(** [PATCH /api/habits/:id/toggle] *)
Definition patch_toggle (id today : jsstring) (dayOfWeek : Z) (s : server DB)
  : response O * server DB :=
  catch "Failed to toggle habit"
    (if isConnected s then
       match findById M id (db s) with
       | Rejected => Throw s
       | Resolved None =>
           Normal (Response 404 (ErrorBody "Habit not found"), s)
       | Resolved (Some habit) =>
           match document_save M (toggle today dayOfWeek habit) (db s) with
           | (Resolved updatedHabit, d) =>
               Normal (Response 200 (OneHabit (with_id inr updatedHabit)),
                       set_db s d)
           | (Rejected, d) => Throw (set_db s d)
           end
       end
     else
       match find (id_matches id) (habits s) with
       | None => Normal (Response 404 (ErrorBody "Habit not found"), s)
       | Some habit =>
           Normal (Response 200
                     (OneHabit (with_id inl (toggle today dayOfWeek habit))),
                   Server (isConnected s)
                     (mutate_first (id_matches id)
                        (toggle today dayOfWeek) (habits s))
                     (habitId s) (db s))
       end).

(** [DELETE /api/habits/:id] *)
Definition delete_habit (id : jsstring) (s : server DB)
  : response O * server DB :=
  catch "Failed to delete habit"
    (if isConnected s then
       match findByIdAndDelete M id (db s) with
       | (Rejected, d) => Throw (set_db s d)
       | (Resolved None, d) =>
           Normal (Response 404 (ErrorBody "Habit not found"), set_db s d)
       | (Resolved (Some _), d) =>
           Normal (Response 200 (MessageBody "Habit deleted successfully"),
                   set_db s d)
       end
     else
       let habitIndex := findIndex (id_matches id) (habits s) in
       if habitIndex =? -1 then
         Normal (Response 404 (ErrorBody "Habit not found"), s)
       else
         Normal (Response 200 (MessageBody "Habit deleted successfully"),
                 Server (isConnected s) (splice (habits s) habitIndex 1)
                   (habitId s) (db s))).

Definition handle (r : request) (s : server DB) : response O * server DB :=
  match r with
  | GET_habits => get_habits s
  | POST_habits body now => post_habits body now s
  | PATCH_toggle id today dayOfWeek => patch_toggle id today dayOfWeek s
  | DELETE_habit id => delete_habit id s
  end.

(** What happens to the process: a request is served, or the pending
    [mongoose.connect] resolves (line 25). *)
Inductive event : Type :=
| Serve (r : request)
| Connected.

Definition step (e : event) (s : server DB) : server DB :=
  match e with
  | Serve r => snd (handle r s)
  | Connected => Server true (habits s) (habitId s) (db s)
  end.

Definition run (es : list event) (s : server DB) : server DB :=
  fold_left (fun s e => step e s) es s.

(** The state at startup (lines 16, 17, 20). *)
Definition startup (d : DB) : server DB := Server false [] 1 d.

End Handlers.

(** ** [GET /api/motivation] *)

(** *** The random index

    [Math.random()] returns a double of [0, 1), and the product
    [random * length] is rounded to a double before [Math.floor] sees
    it.  A double of [0, 1) is [mant / 2^expo] with a mantissa of at most
    53 bits and an exponent of at most 1074; its product with an array
    length is a multiple of 2^-1074 and is kept as its numerator over
    2^1074. *)

Record unit_double : Type := UnitDouble {
  mant : Z;
  expo : Z
}.

Definition is_unit_double (r : unit_double) : Prop :=
  0 <= mant r < 2 ^ 53 /\ 0 <= expo r <= 1074 /\ mant r < 2 ^ expo r.

(** Rounding to 53 significant bits, to nearest, ties to even. *)
Definition round53 (x : Z) : Z :=
  if x <? 2 ^ 53 then x
  else
    let s := Z.log2 x - 52 in
    let q := x / 2 ^ s in
    let r := x mod 2 ^ s in
    let half := 2 ^ (s - 1) in
    if (half <? r) || ((r =? half) && Z.odd q)
    then (q + 1) * 2 ^ s else q * 2 ^ s.

(** [Math.floor(random * n)], for an array or string length [n]. *)
Definition random_index (random : unit_double) (n : Z) : Z :=
  round53 (mant random * n * 2 ^ (1074 - expo random)) / 2 ^ 1074.

(** [arr[Math.floor(random * arr.length)]]; [None] is [undefined]. *)
Definition random_element {A} (random : unit_double) (arr : list A)
  : option A :=
  let i := random_index random (Z.of_nat (length arr)) in
  if i <? 0 then None else nth_error arr (Z.to_nat i).

(** Own property of a parsed object. *)
Fixpoint get_prop (name : jsstring) (props : list (jsstring * json))
  : option json :=
  match props with
  | [] => None
  | (k, v) :: props' =>
      if jsstring_eqb k name then Some v else get_prop name props'
  end.

(** *** The handler *)

(** How the outbound request of [getQuotes] ends: the body parsed, to
    whatever JSON value it holds, or one of the three rejections (lines
    178, 183, 186). *)
Inductive fetched : Type :=
| Parsed (quotes : json)
| ParseFailure
| RequestError
| RequestTimeout.

(** [await getQuotes()]: the resolved value, or [None] for a rejection. *)
Definition getQuotes (f : fetched) : option json :=
  match f with
  | Parsed quotes => Some quotes
  | ParseFailure | RequestError | RequestTimeout => None
  end.

Definition quote (text author : string) : json :=
  JObject [(str "text", JString (str text));
           (str "author", JString (str author))].

Definition fallbackQuotes : list json :=
  [ quote "The only way to do great work is to love what you do."
      "Steve Jobs";
    quote "Believe you can and you're halfway there." "Theodore Roosevelt";
    quote "It always seems impossible until it's done." "Nelson Mandela" ].

Section Motivation.

(** For an object that has a property [length], of value [v]: the
    property key that [Math.floor(random * v)] becomes.  It goes through
    the conversions of the runtime (the value to a number, the floor to a
    string), which are not modelled. *)
Variable index_key : json -> unit_double -> jsstring.

(** [quotes[Math.floor(random * quotes.length)]]: the value, [Some None]
    when it is [undefined], or [None] when the evaluation throws.
    [null] has no properties (TypeError); a boolean or a number has no
    [length], so the index is NaN and the value [undefined]; so has an
    object without a [length], of which the property [NaN] is read. *)
Definition random_quote (quotes : json) (random : unit_double)
  : option (option json) :=
  match quotes with
  | JNull => None
  | JBool _ | JNumber _ => Some None
  | JString s =>
      Some (option_map (fun c => JString [c]) (random_element random s))
  | JArray elems => Some (random_element random elems)
  | JObject props =>
      match get_prop (str "length") props with
      | None => Some (get_prop (str "NaN") props)
      | Some v => Some (get_prop (index_key v random) props)
      end
  end.

(** The handler: the status and the value given to [res.json].  [random]
    is what [Math.random()] returns in the [try] block, [fallbackRandom]
    what it returns in the [catch] block. *)
Definition get_motivation (f : fetched) (random fallbackRandom : unit_double)
  : Z * option json :=
  match getQuotes f with
  | Some quotes =>
      match random_quote quotes random with
      | Some randomQuote => (200, randomQuote)
      | None => (200, random_element fallbackRandom fallbackQuotes)
      end
  | None => (200, random_element fallbackRandom fallbackQuotes)
  end.

End Motivation.

(** ** Vocabulary of the specification *)

Section ArrayVocabulary.
Context {A : Type}.

(** Removal of the first element satisfying [p]: what
    [arr.splice(arr.findIndex(p), 1)] leaves when an element is found. *)
Fixpoint drop_first (p : A -> bool) (arr : list A) : list A :=
  match arr with
  | [] => []
  | y :: arr' => if p y then arr' else y :: drop_first p arr'
  end.

Context `{StrictEq A}.

(** Removal of the first occurrence of [x]. *)
Definition remove_first (x : A) (arr : list A) : list A :=
  drop_first (fun y => strict_eqb y x) arr.

End ArrayVocabulary.

(** The contract of a toggle step, between the habit before ([h]) and
    after ([h']). *)
Definition toggle_contract {I} (today : jsstring) (weekday : Z)
  (h h' : habit I) : Prop :=
  _id h' = _id h /\ title h' = title h /\ createdAt h' = createdAt h /\
  (~ In today (history h) ->
     history h' = history h ++ [today] /\
     (~ In weekday (days h) -> days h' = days h ++ [weekday]) /\
     (In weekday (days h) -> days h' = days h)) /\
  (In today (history h) ->
     (exists l1 l2,
        history h = l1 ++ today :: l2 /\ ~ In today l1 /\
        history h' = l1 ++ l2) /\
     (NoDup (history h) -> ~ In today (history h')) /\
     (In weekday (days h) ->
        (exists d1 d2,
           days h = d1 ++ weekday :: d2 /\ ~ In weekday d1 /\
           days h' = d1 ++ d2) /\
        (NoDup (days h) -> ~ In weekday (days h'))) /\
     (~ In weekday (days h) -> days h' = days h)).

(** Habits reachable from creation by toggle steps. *)
Inductive toggled_from_creation {I} : habit I -> Prop :=
| tfc_created (id : I) (title : jsstring) (createdAt : Z) :
    toggled_from_creation (Habit id title [] [] createdAt)
| tfc_toggled (today : jsstring) (dayOfWeek : Z) (h : habit I) :
    toggled_from_creation h ->
    toggled_from_creation (toggle today dayOfWeek h).

(** The weekday/history invariant of the data model, for a calendar
    [weekdayOf] giving the weekday on which a date falls. *)
Definition days_match_history {I} (weekdayOf : jsstring -> Z) (h : habit I)
  : Prop :=
  forall w, In w (days h) <-> exists d, In d (history h) /\ weekdayOf d = w.

(** One half of it: every weekday in [days] has a date in [history]. *)
Definition days_within_history {I} (weekdayOf : jsstring -> Z) (h : habit I)
  : Prop :=
  forall w, In w (days h) -> exists d, In d (history h) /\ weekdayOf d = w.

(** The value of a decimal digit. *)
Definition digit (c : N) : Z := Z.of_N c - 48.

(** The Gregorian weekday (0 is Sunday, as [getDay] counts) of a date
    written [YYYY-MM-DD], the format of [getTodayString]. *)
Definition isoWeekday (date : jsstring) : Z :=
  match date with
  | [y1; y2; y3; y4; _; m1; m2; _; d1; d2] =>
      let y := 1000 * digit y1 + 100 * digit y2 + 10 * digit y3 + digit y4 in
      let m := 10 * digit m1 + digit m2 in
      let d := 10 * digit d1 + digit d2 in
      let t := nth (Z.to_nat (m - 1)) [0; 3; 2; 5; 0; 3; 5; 1; 4; 6; 2; 4] 0 in
      let y := if m <? 3 then y - 1 else y in
      (y + y / 4 - y / 100 + y / 400 + t + d) mod 7
  | _ => 0
  end.

(** Newest-created-first order. *)
Definition newest_first {I} (l : list (habit I)) : Prop :=
  StronglySorted (fun a b => createdAt b <= createdAt a) l.

(** A title that is absent, or empty after trimming. *)
Definition title_absent_or_empty (title : option json) : Prop :=
  title = None \/ title = Some JNull \/
  exists t, title = Some (JString t) /\ trim t = [].

(** A title that is absent or falsy ([null], [false], zero), or a string
    that is empty after trimming. *)
Definition title_falsy_or_empty (title : option json) : Prop :=
  match title with
  | None | Some JNull | Some (JBool false) => True
  | Some (JNumber x) => Qnum x = 0
  | Some (JString t) => trim t = []
  | _ => False
  end.

Definition nonempty_string (v : option json) : bool :=
  match v with
  | Some (JString (_ :: _)) => true
  | _ => false
  end.

(** A quote object with non-empty [text] and [author]. *)
Definition is_quote (v : option json) : bool :=
  match v with
  | Some (JObject props) =>
      nonempty_string (get_prop (str "text") props)
      && nonempty_string (get_prop (str "author") props)
  | _ => false
  end.

(** ** A stand-in for the driver

    A collection kept as a list, with the ObjectIds the driver is going to
    generate; it runs the database branch of the handlers on examples. *)

Module Double.

Record collection : Type := Collection {
  docs : list (habit jsstring);
  ids : list jsstring
}.

Fixpoint insert_desc (h : habit jsstring) (l : list (habit jsstring))
  : list (habit jsstring) :=
  match l with
  | [] => [h]
  | x :: l' =>
      if createdAt x <? createdAt h then h :: l else x :: insert_desc h l'
  end.

Definition sort_desc (l : list (habit jsstring)) : list (habit jsstring) :=
  fold_right insert_desc [] l.

Definition has_id (id : jsstring) (h : habit jsstring) : bool :=
  jsstring_eqb (_id h) id.

Definition mongoose : Mongoose collection jsstring := {|
  find_sort_createdAt_desc := fun c => Resolved (sort_desc (docs c));
  model_save := fun n c =>
    match ids c with
    | [] => (Rejected, c)
    | o :: rest =>
        let h := with_id (fun _ => o) n in
        (Resolved h, Collection (docs c ++ [h]) rest)
    end;
  findById := fun id c => Resolved (List.find (has_id id) (docs c));
  document_save := fun h c =>
    (Resolved h,
     Collection (mutate_first (has_id (_id h)) (fun _ => h) (docs c)) (ids c));
  findByIdAndDelete := fun id c =>
    (Resolved (List.find (has_id id) (docs c)),
     Collection (drop_first (has_id id) (docs c)) (ids c))
|}.

(** Route parameters written in decimal digits. *)
Fixpoint decimal_from (acc : Z) (s : jsstring) : option Z :=
  match s with
  | [] => Some acc
  | c :: s' =>
      if (48 <=? Z.of_N c) && (Z.of_N c <=? 57)
      then decimal_from (10 * acc + digit c) s' else None
  end.

Definition decimal (s : jsstring) : option Z :=
  match s with
  | [] => None
  | _ => decimal_from 0 s
  end.

End Double.

(** ** Invariant of the in-memory store *)

(** The counter is ahead of every id handed out, no id is handed out
    twice, and every habit of the list came from a creation followed by
    toggles. *)
Definition store_ok {DB} (s : server DB) : Prop :=
  1 <= habitId s /\
  Forall (fun h => 1 <= _id h < habitId s) (habits s) /\
  NoDup (map _id (habits s)) /\
  Forall toggled_from_creation (habits s).


(** ** The responses of a run *)

(** The response to each request of a run, in order. *)
Fixpoint trace {DB O : Type} (M : Mongoose DB O)
  (ToNumber : jsstring -> option Z) (es : list event) (s : server DB)
  : list (response O) :=
  match es with
  | [] => []
  | Serve r :: es' =>
      fst (handle M ToNumber r s)
        :: trace M ToNumber es' (step M ToNumber (Serve r) s)
  | Connected :: es' => trace M ToNumber es' (step M ToNumber Connected s)
  end.

(** A 2xx status. *)
Definition succeeded {O : Type} (r : response O) : bool :=
  (200 <=? status r) && (status r <? 300).

(** What a habit keeps for life: its id, title and creation time. *)
Definition identity {I : Type} (h : habit I) : I * jsstring * Z :=
  (_id h, title h, createdAt h).

(** A [DELETE] whose id matches the number [k]. *)
Definition deletes (ToNumber : jsstring -> option Z) (k : Z) (e : event)
  : Prop :=
  match e with
  | Serve (DELETE_habit id) => ToNumber id = Some k
  | _ => False
  end.

(** A string none of whose ends is white space. *)
Definition trimmed (s : jsstring) : Prop :=
  match s with
  | [] => True
  | c :: _ => isWhiteSpace c = false /\ isWhiteSpace (last s c) = false
  end.

(** A toggle whose weekday is one [getDay] can return. *)
Definition weekday_in_range (e : event) : Prop :=
  match e with
  | Serve (PATCH_toggle _ _ dayOfWeek) => 0 <= dayOfWeek <= 6
  | _ => True
  end.

(** ** The clock helpers (lines 46-47)

    A time value is the number of milliseconds since 1970-01-01T00:00Z.
    The functions of [Date] are those of ECMAScript's Date objects, on
    integers. *)

Module Date.

Definition msPerDay : Z := 86400000.

Definition Day (t : Z) : Z := t / msPerDay.

Definition DaysInYear (y : Z) : Z :=
  if negb (y mod 4 =? 0) then 365
  else if negb (y mod 100 =? 0) then 366
  else if negb (y mod 400 =? 0) then 365
  else 366.

Definition DayFromYear (y : Z) : Z :=
  365 * (y - 1970) + (y - 1969) / 4 - (y - 1901) / 100 + (y - 1601) / 400.

(** The largest year that starts on or before the day of [t], looked for
    downwards from one above the year in which the day would fall if every
    year had 146097/400 days. *)
Definition YearFromTime (t : Z) : Z :=
  let y := 1970 + (400 * Day t) / 146097 + 1 in
  if DayFromYear y <=? Day t then y
  else if DayFromYear (y - 1) <=? Day t then y - 1
  else y - 2.

Definition InLeapYear (t : Z) : Z :=
  if DaysInYear (YearFromTime t) =? 365 then 0 else 1.

Definition DayWithinYear (t : Z) : Z := Day t - DayFromYear (YearFromTime t).

Definition MonthFromTime (t : Z) : Z :=
  let d := DayWithinYear t in
  let leap := InLeapYear t in
  if d <? 31 then 0
  else if d <? 59 + leap then 1
  else if d <? 90 + leap then 2
  else if d <? 120 + leap then 3
  else if d <? 151 + leap then 4
  else if d <? 181 + leap then 5
  else if d <? 212 + leap then 6
  else if d <? 243 + leap then 7
  else if d <? 273 + leap then 8
  else if d <? 304 + leap then 9
  else if d <? 334 + leap then 10
  else 11.

Definition DateFromTime (t : Z) : Z :=
  let d := DayWithinYear t in
  let leap := InLeapYear t in
  match MonthFromTime t with
  | 0 => d + 1
  | 1 => d - 30
  | 2 => d - 58 - leap
  | 3 => d - 89 - leap
  | 4 => d - 119 - leap
  | 5 => d - 150 - leap
  | 6 => d - 180 - leap
  | 7 => d - 211 - leap
  | 8 => d - 242 - leap
  | 9 => d - 272 - leap
  | 10 => d - 303 - leap
  | _ => d - 333 - leap
  end.

Definition WeekDay (t : Z) : Z := (Day t + 4) mod 7.

Definition HourFromTime (t : Z) : Z := (t / 3600000) mod 24.
Definition MinFromTime (t : Z) : Z := (t / 60000) mod 60.
Definition SecFromTime (t : Z) : Z := (t / 1000) mod 60.
Definition msFromTime (t : Z) : Z := t mod 1000.

(** The last [n] decimal digits of [x], the most significant first. *)
Fixpoint pad (n : nat) (x : Z) : jsstring :=
  match n with
  | O => []
  | S n' => pad n' (x / 10) ++ [Z.to_N (48 + x mod 10)]
  end.

(** [toISOString]: [YYYY-MM-DDTHH:mm:ss.sssZ], the year with a sign and
    six digits when it is not within 0 to 9999. *)
Definition toISOString (t : Z) : jsstring :=
  let y := YearFromTime t in
  (if (0 <=? y) && (y <=? 9999) then pad 4 y
   else str (if y <? 0 then "-" else "+") ++ pad 6 (Z.abs y))
  ++ str "-" ++ pad 2 (MonthFromTime t + 1)
  ++ str "-" ++ pad 2 (DateFromTime t)
  ++ str "T" ++ pad 2 (HourFromTime t)
  ++ str ":" ++ pad 2 (MinFromTime t)
  ++ str ":" ++ pad 2 (SecFromTime t)
  ++ str "." ++ pad 3 (msFromTime t) ++ str "Z".

End Date.

(** [s.split(sep)[0]] for a one-character separator: what comes before
    its first occurrence, or all of [s]. *)
Fixpoint split_head (sep : N) (s : jsstring) : jsstring :=
  match s with
  | [] => []
  | c :: s' => if N.eqb c sep then [] else c :: split_head sep s'
  end.

(** [getTodayString], at time [now]. *)
Definition getTodayString (now : Z) : jsstring :=
  split_head 84 (Date.toISOString now).

(** [getDayOfWeek], at time [now] in a zone whose local time is
    [localTZA] milliseconds ahead of UTC. *)
Definition getDayOfWeek (now localTZA : Z) : Z :=
  Date.WeekDay (now + localTZA).

(** [GET /api/health]: the three fields of the answer. *)
Definition get_health {DB : Type} (now : Z) (s : server DB)
  : string * string * jsstring :=
  ("OK"%string,
   (if isConnected s then "MongoDB" else "In-Memory")%string,
   Date.toISOString now).

(** The day of the year on which month [m] (0 is January) starts, in a
    common year ([leap] 0) or a leap year ([leap] 1). *)
Definition monthStart (m leap : Z) : Z :=
  match m with
  | 0 => 0
  | 1 => 31
  | 2 => 59 + leap
  | 3 => 90 + leap
  | 4 => 120 + leap
  | 5 => 151 + leap
  | 6 => 181 + leap
  | 7 => 212 + leap
  | 8 => 243 + leap
  | 9 => 273 + leap
  | 10 => 304 + leap
  | _ => 334 + leap
  end.

(** The time values whose year [toISOString] writes with four digits:
    from 0000-01-01T00:00Z to the end of 9999. *)
Definition four_digit_year (t : Z) : Prop :=
  -62167219200000 <= t < 253402300800000.

(** A driver none of whose calls gets through. *)
Definition offline : Mongoose Double.collection jsstring := {|
  find_sort_createdAt_desc := fun _ => Rejected;
  model_save := fun _ c => (Rejected, c);
  findById := fun _ _ => Rejected;
  document_save := fun _ c => (Rejected, c);
  findByIdAndDelete := fun _ c => (Rejected, c)
|}.

(** The toggle of lines 98-99 and 105-113, at time [now] in a zone
    [localTZA] milliseconds ahead of UTC. *)
Definition toggle_at {I} (now localTZA : Z) (h : habit I) : habit I :=
  toggle (getTodayString now) (getDayOfWeek now localTZA) h.
(** ** Facts about the array operations *)

Unset Implicit Arguments.

Section ArrayFacts.
Context {A : Type}.

Lemma findIndex_from_none (p : A -> bool) (arr : list A) (i : Z) :
  0 <= i ->
  (findIndex_from p arr i = -1 <-> forall y, In y arr -> p y = false).
Proof.
  revert i; induction arr as [|y arr IH]; intros i Hi; simpl.
  - split; [intros _ y [] | reflexivity].
  - destruct (p y) eqn:Ey.
    + split; [lia | intros Hall; specialize (Hall y (or_introl eq_refl));
                    congruence].
    + rewrite IH by lia. split.
      * intros Hall z [<- | Hz]; auto.
      * intros Hall z Hz; auto.
Qed.

Lemma findIndex_none (p : A -> bool) (arr : list A) :
  findIndex p arr = -1 <-> forall y, In y arr -> p y = false.
Proof. apply findIndex_from_none; lia. Qed.

(** When an element is found, the array splits around it. *)
Lemma findIndex_from_some (p : A -> bool) (arr : list A) (i : Z) :
  0 <= i ->
  findIndex_from p arr i <> -1 ->
  exists l1 x l2,
    arr = l1 ++ x :: l2 /\ p x = true /\
    (forall y, In y l1 -> p y = false) /\
    findIndex_from p arr i = i + Z.of_nat (length l1).
Proof.
  revert i; induction arr as [|y arr IH]; intros i Hi; simpl; [congruence|].
  destruct (p y) eqn:Ey; intros Hne.
  - exists [], y, arr; simpl; repeat split; auto; try lia.
  - destruct (IH (i + 1)) as (l1 & x & l2 & -> & Hx & Hl1 & E); [lia|auto|].
    exists (y :: l1), x, l2; simpl; repeat split; auto.
    + intros z [<- | Hz]; auto.
    + rewrite E; lia.
Qed.

Lemma findIndex_some (p : A -> bool) (arr : list A) :
  findIndex p arr <> -1 ->
  exists l1 x l2,
    arr = l1 ++ x :: l2 /\ p x = true /\
    (forall y, In y l1 -> p y = false) /\
    findIndex p arr = Z.of_nat (length l1).
Proof. intros Hne; apply (findIndex_from_some p arr 0); [lia|auto]. Qed.

Lemma splice_at (l1 l2 : list A) (x : A) :
  splice (l1 ++ x :: l2) (Z.of_nat (length l1)) 1 = l1 ++ l2.
Proof.
  unfold splice. rewrite length_app; simpl length.
  replace (Z.of_nat (length l1) <? 0) with false by (symmetry; apply Z.ltb_ge; lia).
  rewrite Z.min_l by lia.
  rewrite (Z.max_l 1 0) by lia.
  rewrite (Z.min_l 1) by lia.
  rewrite Nat2Z.id.
  replace (Z.to_nat (Z.of_nat (length l1) + 1)) with (length l1 + 1)%nat by lia.
  rewrite firstn_app, Nat.sub_diag, firstn_all; simpl; rewrite app_nil_r.
  rewrite skipn_app, skipn_all2 by lia; simpl.
  replace (length l1 + 1 - length l1)%nat with 1%nat by lia.
  reflexivity.
Qed.

Lemma drop_first_split (p : A -> bool) (l1 l2 : list A) (x : A) :
  p x = true -> (forall y, In y l1 -> p y = false) ->
  drop_first p (l1 ++ x :: l2) = l1 ++ l2.
Proof.
  intros Hx; induction l1 as [|y l1 IH]; intros Hl1; simpl.
  - now rewrite Hx.
  - rewrite (Hl1 y (or_introl eq_refl)), IH; auto.
    intros z Hz; apply Hl1; now right.
Qed.

Lemma drop_first_none (p : A -> bool) (arr : list A) :
  (forall y, In y arr -> p y = false) -> drop_first p arr = arr.
Proof.
  induction arr as [|y arr IH]; intros Hall; simpl; auto.
  rewrite (Hall y (or_introl eq_refl)), IH; auto.
  intros z Hz; apply Hall; now right.
Qed.

(** [splice] at the index [findIndex] reports removes the first match. *)
Lemma splice_findIndex (p : A -> bool) (arr : list A) :
  findIndex p arr <> -1 ->
  splice arr (findIndex p arr) 1 = drop_first p arr.
Proof.
  intros Hne. destruct (findIndex_some p arr Hne) as (l1 & x & l2 & E & Hx & Hl1 & Ei).
  rewrite Ei, E, splice_at, drop_first_split; auto.
Qed.

Lemma drop_first_incl (p : A -> bool) (arr : list A) (y : A) :
  In y (drop_first p arr) -> In y arr.
Proof.
  induction arr as [|z arr IH]; simpl; auto.
  destruct (p z); simpl; intuition.
Qed.

Lemma drop_first_keeps (p : A -> bool) (arr : list A) (y : A) :
  In y arr -> p y = false -> In y (drop_first p arr).
Proof.
  induction arr as [|z arr IH]; simpl; auto.
  intros [-> | Hy] Hp.
  - rewrite Hp; now left.
  - destruct (p z); [auto | right; auto].
Qed.

Lemma drop_first_NoDup (p : A -> bool) (arr : list A) :
  NoDup arr -> NoDup (drop_first p arr).
Proof.
  induction 1 as [|z arr Hz Hnd IH]; simpl; [constructor|].
  destruct (p z); auto.
  constructor; auto. intros Hin; apply Hz; eapply drop_first_incl; eauto.
Qed.

Lemma drop_first_length (p : A -> bool) (arr : list A) :
  (length (drop_first p arr) <= length arr)%nat.
Proof.
  induction arr as [|z arr IH]; simpl; auto.
  destruct (p z); simpl; lia.
Qed.

Context `{StrictEq A}.

Lemma includes_In (arr : list A) (x : A) :
  includes arr x = true <-> In x arr.
Proof.
  unfold includes. rewrite existsb_exists. split.
  - intros (y & Hy & E). apply strict_eqb_eq in E. now subst.
  - intros Hx. exists x; split; auto. now apply strict_eqb_eq.
Qed.

Lemma indexOf_none (arr : list A) (x : A) :
  indexOf arr x = -1 <-> ~ In x arr.
Proof.
  unfold indexOf. rewrite findIndex_none. split.
  - intros Hall Hx. specialize (Hall x Hx).
    assert (strict_eqb x x = true) by now apply strict_eqb_eq. congruence.
  - intros Hx y Hy. destruct (strict_eqb y x) eqn:E; auto.
    apply strict_eqb_eq in E. now subst.
Qed.

(** [indexOf] and [includes] agree on presence. *)
Lemma includes_indexOf (arr : list A) (x : A) :
  includes arr x = negb (indexOf arr x =? -1).
Proof.
  destruct (includes arr x) eqn:Ei; destruct (indexOf arr x =? -1) eqn:Ex;
    auto; exfalso.
  - apply Z.eqb_eq, indexOf_none in Ex. apply includes_In in Ei. auto.
  - apply Z.eqb_neq in Ex. rewrite indexOf_none in Ex.
    assert (includes arr x <> true) as Hn by congruence.
    rewrite includes_In in Hn. auto.
Qed.

Lemma splice_indexOf (arr : list A) (x : A) :
  indexOf arr x <> -1 ->
  splice arr (indexOf arr x) 1 = remove_first x arr.
Proof. apply splice_findIndex. Qed.

Lemma remove_first_split (arr : list A) (x : A) :
  In x arr ->
  exists l1 l2, arr = l1 ++ x :: l2 /\ ~ In x l1 /\
                remove_first x arr = l1 ++ l2.
Proof.
  intros Hx.
  assert (indexOf arr x <> -1) as Hne by (rewrite indexOf_none; tauto).
  destruct (findIndex_some _ arr Hne) as (l1 & z & l2 & E & Hz & Hl1 & _).
  apply strict_eqb_eq in Hz; subst z.
  exists l1, l2; repeat split; auto.
  - intros Hin. specialize (Hl1 x Hin).
    assert (strict_eqb x x = true) by now apply strict_eqb_eq. congruence.
  - unfold remove_first. rewrite E. apply drop_first_split; auto.
    now apply strict_eqb_eq.
Qed.

Lemma remove_first_absent (arr : list A) (x : A) :
  ~ In x arr -> remove_first x arr = arr.
Proof.
  intros Hx. apply drop_first_none. intros y Hy.
  destruct (strict_eqb y x) eqn:E; auto.
  apply strict_eqb_eq in E; now subst.
Qed.

Lemma remove_first_In_other (arr : list A) (x y : A) :
  y <> x -> (In y (remove_first x arr) <-> In y arr).
Proof.
  intros Hyx; split; [apply drop_first_incl|].
  intros Hy. apply drop_first_keeps; auto.
  destruct (strict_eqb y x) eqn:E; auto.
  apply strict_eqb_eq in E; contradiction.
Qed.

Lemma remove_first_NoDup_absent (arr : list A) (x : A) :
  NoDup arr -> ~ In x (remove_first x arr).
Proof.
  intros Hnd Hin.
  assert (In x arr) as Hx by (eapply drop_first_incl; eauto).
  destruct (remove_first_split arr x Hx) as (l1 & l2 & E & Hl1 & Er).
  rewrite Er in Hin. rewrite E in Hnd.
  apply NoDup_remove_2 in Hnd. contradiction.
Qed.

End ArrayFacts.

(** ** The operations on small inputs *)

Example trim_example : trim (str "  Read ") = str "Read".
Proof. reflexivity. Qed.

Example trim_blank_example : trim (str "  ") = [].
Proof. reflexivity. Qed.

Example indexOf_example : indexOf [3; 5; 3] 3 = 0 /\ indexOf [3; 5] 4 = -1.
Proof. split; reflexivity. Qed.

Example splice_example :
  splice [3; 5; 7] 1 1 = [3; 7] /\ splice [3; 5; 7] (-1) 1 = [3; 5] /\
  splice [3; 5; 7] 9 1 = [3; 5; 7].
Proof. repeat split; reflexivity. Qed.

Example isoWeekday_example :
  isoWeekday (str "2024-01-01") = 1 /\ isoWeekday (str "2024-02-29") = 4 /\
  isoWeekday (str "2000-01-01") = 6.
Proof. repeat split; reflexivity. Qed.

Example toggle_example :
  let h := Habit 1 (str "Read") [] [] 0 in
  toggle (str "2024-01-01") 1 h =
    Habit 1 (str "Read") [1] [str "2024-01-01"] 0 /\
  toggle (str "2024-01-01") 1 (toggle (str "2024-01-01") 1 h) = h.
Proof. split; reflexivity. Qed.

(** With the stand-in for the driver, the database branch lists the newer
    of two habits first. *)
Example database_list_example :
  let s := run Double.mongoose Double.decimal
             [Connected;
              Serve (POST_habits (Body (Some (JString (str "Read")))) 1000);
              Serve (POST_habits (Body (Some (JString (str "Run")))) 2000)]
             (startup (Double.Collection [] [str "65a1"; str "65a2"])) in
  fst (get_habits Double.mongoose s) =
    Response 200
      (Habits [Habit (inr (str "65a2")) (str "Run") [] [] 2000;
               Habit (inr (str "65a1")) (str "Read") [] [] 1000]).
Proof. reflexivity. Qed.

(** ** The toggle reconciler *)

Section ToggleFacts.
Context {I : Type}.
Variables (today : jsstring) (dayOfWeek : Z).

(** The branch that marks today done. *)
Lemma toggle_add (h : habit I) :
  ~ In today (history h) ->
  toggle today dayOfWeek h =
    Habit (_id h) (title h)
      (if includes (days h) dayOfWeek then days h
       else days h ++ [dayOfWeek])
      (history h ++ [today]) (createdAt h).
Proof.
  intros Hn. unfold toggle.
  apply indexOf_none in Hn. rewrite Hn. simpl.
  destruct (includes (days h) dayOfWeek); reflexivity.
Qed.

(** The branch that takes today back. *)
Lemma toggle_remove (h : habit I) :
  In today (history h) ->
  toggle today dayOfWeek h =
    Habit (_id h) (title h) (remove_first dayOfWeek (days h))
      (remove_first today (history h)) (createdAt h).
Proof.
  intros Hin. unfold toggle.
  assert (indexOf (history h) today <> -1) as Hne
    by (rewrite indexOf_none; tauto).
  destruct (indexOf (history h) today =? -1) eqn:E;
    [apply Z.eqb_eq in E; contradiction|].
  rewrite (splice_indexOf (history h) today) by assumption.
  destruct (indexOf (days h) dayOfWeek =? -1) eqn:Ed; simpl.
  - apply Z.eqb_eq in Ed. apply indexOf_none in Ed.
    rewrite (remove_first_absent (days h) dayOfWeek Ed). reflexivity.
  - apply Z.eqb_neq in Ed.
    rewrite (splice_indexOf (days h) dayOfWeek Ed). reflexivity.
Qed.

Lemma toggle_NoDup (h : habit I) :
  NoDup (days h) /\ NoDup (history h) ->
  NoDup (days (toggle today dayOfWeek h)) /\
  NoDup (history (toggle today dayOfWeek h)).
Proof.
  intros [Hd Hh].
  destruct (in_dec (list_eq_dec N.eq_dec) today (history h)) as [Hin | Hn].
  - rewrite toggle_remove by assumption; simpl.
    split; apply drop_first_NoDup; assumption.
  - rewrite toggle_add by assumption; simpl. split.
    + destruct (includes (days h) dayOfWeek) eqn:Ei; auto.
      apply NoDup_app; auto.
      * constructor; [intros [] | constructor].
      * intros x Hx [<- | []].
        apply includes_In in Hx. congruence.
    + apply NoDup_app; auto.
      * constructor; [intros [] | constructor].
      * intros x Hx [<- | []]. contradiction.
Qed.

End ToggleFacts.

(** *** In-memory lookup *)

Lemma find_mutate_first {A} (p : A -> bool) (f : A -> A) (arr : list A)
  (x : A) :
  find p arr = Some x ->
  exists l1 l2,
    arr = l1 ++ x :: l2 /\ (forall y, In y l1 -> p y = false) /\
    p x = true /\ mutate_first p f arr = l1 ++ f x :: l2.
Proof.
  unfold find. induction arr as [|y arr IH]; simpl; [discriminate|].
  destruct (p y) eqn:Ey.
  - intros [= ->]. exists [], arr; simpl; repeat split; auto. intros ? [].
  - intros Hf. destruct (IH Hf) as (l1 & l2 & -> & Hl1 & Hx & Em).
    exists (y :: l1), l2; simpl; repeat split; auto.
    + intros z [<- | Hz]; auto.
    + now rewrite Em.
Qed.

Section ToggleTwice.
Context {I : Type} {A : Type} `{StrictEq A}.

Lemma remove_first_last (arr : list A) (x : A) :
  ~ In x arr -> remove_first x (arr ++ [x]) = arr.
Proof.
  intros Hx. unfold remove_first.
  rewrite drop_first_split, app_nil_r; auto.
  - now apply strict_eqb_eq.
  - intros y Hy. destruct (strict_eqb y x) eqn:E; auto.
    apply strict_eqb_eq in E; now subst.
Qed.

Lemma remove_first_length (arr : list A) (x : A) :
  In x arr -> S (length (remove_first x arr)) = length arr.
Proof.
  intros Hx. destruct (remove_first_split arr x Hx) as (l1 & l2 & E & _ & Er).
  rewrite Er, E, !length_app; simpl; lia.
Qed.

Lemma remove_first_neq (arr : list A) (x : A) :
  In x arr -> remove_first x arr <> arr.
Proof.
  intros Hx E. apply remove_first_length in Hx. rewrite E in Hx. lia.
Qed.

Lemma remove_first_twice_neq (arr : list A) (x : A) :
  In x arr -> remove_first x (remove_first x arr) <> arr.
Proof.
  intros Hx E. apply remove_first_length in Hx.
  pose proof (drop_first_length (fun y => strict_eqb y x)
                (remove_first x arr)) as L.
  fold (remove_first x (remove_first x arr)) in L. rewrite E in L. lia.
Qed.

(** Taking the first [x] out and pushing [x] gives the array back exactly
    when [x] was its last element and occurred once. *)
Lemma remove_first_push_back (arr : list A) (x : A) :
  ~ In x (remove_first x arr) ->
  (remove_first x arr ++ [x] = arr <->
   exists l, arr = l ++ [x] /\ ~ In x l).
Proof.
  intros Hx. split.
  - intros E. exists (remove_first x arr). split; [now symmetry | assumption].
  - intros (l & -> & Hl). now rewrite remove_first_last.
Qed.

End ToggleTwice.

(** ** C1: the contract of a toggle step *)

Lemma toggle_meets_contract {I} (today : jsstring) (dayOfWeek : Z)
  (h : habit I) :
  toggle_contract today dayOfWeek h (toggle today dayOfWeek h).
Proof.
  unfold toggle_contract.
  destruct (in_dec (list_eq_dec N.eq_dec) today (history h)) as [Hin | Hn].
  - rewrite toggle_remove by assumption; simpl.
    do 3 (split; [reflexivity|]). split; [intros Hn; contradiction|].
    intros _. split; [|split; [|split]].
    + destruct (remove_first_split _ _ Hin) as (l1 & l2 & E & Hl1 & Er).
      exists l1, l2; auto.
    + apply remove_first_NoDup_absent.
    + intros Hd. split.
      * destruct (remove_first_split _ _ Hd) as (d1 & d2 & E & Hd1 & Er).
        exists d1, d2; auto.
      * apply remove_first_NoDup_absent.
    + apply remove_first_absent.
  - rewrite toggle_add by assumption; simpl.
    do 3 (split; [reflexivity|]). split; [|intros Hin; contradiction].
    intros _. split; [reflexivity|]. split.
    + intros Hd. destruct (includes (days h) dayOfWeek) eqn:Ei; auto.
      apply includes_In in Ei. contradiction.
    + intros Hd. apply includes_In in Hd. now rewrite Hd.
Qed.

(** C1. Toggle step contract: when today is not in the habit's history,
    toggle appends today to history and appends the current weekday to
    days unless it is already there; when today is in history, toggle
    removes it (its first occurrence) from history and removes the current
    weekday from days when present.  The handler answers 200 with the
    mutated habit: the in-memory branch mutates the first habit whose
    [_id] matches, in place; the database branch saves the mutated document
    and sends what the save resolves to. *)
Theorem toggle_step_contract :
  (forall (I : Type) (today : jsstring) (dayOfWeek : Z) (h : habit I),
     toggle_contract today dayOfWeek h (toggle today dayOfWeek h)) /\
  (forall (DB O : Type) (M : Mongoose DB O) (ToNumber : jsstring -> option Z)
          (s : server DB) (id today : jsstring) (dayOfWeek : Z)
          (h : habit Z),
     isConnected s = false ->
     find (id_matches ToNumber id) (habits s) = Some h ->
     exists l1 l2,
       habits s = l1 ++ h :: l2 /\
       (forall y, In y l1 -> id_matches ToNumber id y = false) /\
       patch_toggle M ToNumber id today dayOfWeek s =
         (Response 200 (OneHabit (with_id inl (toggle today dayOfWeek h))),
          Server false (l1 ++ toggle today dayOfWeek h :: l2)
            (habitId s) (db s))) /\
  (forall (DB O : Type) (M : Mongoose DB O) (ToNumber : jsstring -> option Z)
          (s : server DB) (id today : jsstring) (dayOfWeek : Z)
          (h u : habit O) (d : DB),
     isConnected s = true ->
     findById M id (db s) = Resolved (Some h) ->
     document_save M (toggle today dayOfWeek h) (db s) = (Resolved u, d) ->
     patch_toggle M ToNumber id today dayOfWeek s =
       (Response 200 (OneHabit (with_id inr u)), set_db s d)).
Proof.
  split; [|split].
  - intros; apply toggle_meets_contract.
  - intros DB O M ToNumber s id today dayOfWeek h Hc Hf.
    destruct (find_mutate_first _ (toggle today dayOfWeek) _ _ Hf)
      as (l1 & l2 & E & Hl1 & _ & Em).
    exists l1, l2. repeat split; auto.
    unfold patch_toggle. rewrite Hc, Hf, Em. reflexivity.
  - intros DB O M ToNumber s id today dayOfWeek h u d Hc Hf Hs.
    unfold patch_toggle. rewrite Hc, Hf, Hs. reflexivity.
Qed.

(** ** C2: toggling twice on the same day *)

(** A habit done on Monday 2024-01-01, toggled twice on Monday 2024-01-08:
    history comes back, the weekday does not. *)
Lemma toggle_twice_drops_weekday :
  let created := Habit 1 (str "Read") [] [] 0 in
  let h := toggle (str "2024-01-01") 1 created in
  let h2 := toggle (str "2024-01-08") 1 (toggle (str "2024-01-08") 1 h) in
  toggled_from_creation h /\
  history h = [str "2024-01-01"] /\ days h = [1] /\
  history h2 = history h /\ days h2 = [] /\
  ~ (history h2 = history h /\ days h2 = days h).
Proof.
  cbv zeta. split; [apply tfc_toggled, tfc_created|].
  repeat split; try reflexivity.
  intros [_ E]. vm_compute in E. discriminate E.
Qed.

(** C2 (amended). Applying toggle twice with the same date and weekday
    gives history and days back exactly when either today is absent from
    history and the weekday is absent from days (a freshly created habit,
    for one), or today is the last entry of history and occurs there once
    and the weekday is the last entry of days and occurs there once (the
    state a toggle of the first kind leaves). *)
Theorem toggle_twice_identity_iff (I : Type) (today : jsstring)
  (dayOfWeek : Z) (h : habit I) :
  let h2 := toggle today dayOfWeek (toggle today dayOfWeek h) in
  (history h2 = history h /\ days h2 = days h) <->
  (~ In today (history h) /\ ~ In dayOfWeek (days h)) \/
  (exists l d,
     history h = l ++ [today] /\ ~ In today l /\
     days h = d ++ [dayOfWeek] /\ ~ In dayOfWeek d).
Proof.
  cbv zeta.
  destruct (in_dec (list_eq_dec N.eq_dec) today (history h)) as [Hin | Hn].
  - (* today is taken back first *)
    rewrite (toggle_remove today dayOfWeek h Hin).
    set (H1 := remove_first today (history h)).
    set (D1 := remove_first dayOfWeek (days h)).
    destruct (in_dec (list_eq_dec N.eq_dec) today H1) as [Hin1 | Hn1].
    + (* a second occurrence: it is taken back too *)
      rewrite toggle_remove by exact Hin1. cbn [history days]. split.
      * intros [E _]. exfalso.
        apply (remove_first_twice_neq _ _ Hin). exact E.
      * intros [[Hn _] | (l & d & E & Hl & _)]; [contradiction|].
        exfalso. unfold H1 in Hin1. rewrite E in Hin1.
        rewrite remove_first_last in Hin1; auto.
    + rewrite toggle_add by exact Hn1. cbn [history days].
      destruct (includes D1 dayOfWeek) eqn:Ei.
      * (* the weekday occurs twice in days *)
        apply includes_In in Ei. split.
        -- intros [_ E]. exfalso.
           assert (In dayOfWeek (days h)) as Hd
             by (eapply drop_first_incl; exact Ei).
           apply (remove_first_neq _ _ Hd). exact E.
        -- intros [[Hn _] | (l & d & _ & _ & E & Hd)]; [contradiction|].
           exfalso. unfold D1 in Ei. rewrite E in Ei.
           rewrite remove_first_last in Ei; auto.
      * assert (~ In dayOfWeek D1) as Hd1.
        { intros Hd. apply includes_In in Hd. congruence. }
        unfold H1 in *. unfold D1 in *.
        rewrite (remove_first_push_back _ _ Hn1).
        rewrite (remove_first_push_back _ _ Hd1).
        split.
        -- intros [(l & El & Hl) (d & Ed & Hd)]. right. exists l, d; auto.
        -- intros [[Hn _] | (l & d & El & Hl & Ed & Hd)]; [contradiction|].
           split; [exists l | exists d]; auto.
  - (* today is added first, then taken back *)
    rewrite (toggle_add today dayOfWeek h Hn).
    rewrite toggle_remove by (simpl; apply in_or_app; right; now left).
    cbn [history days]. rewrite (remove_first_last _ _ Hn).
    destruct (includes (days h) dayOfWeek) eqn:Ei.
    + apply includes_In in Ei. split.
      * intros [_ E]. exfalso. apply (remove_first_neq _ _ Ei). exact E.
      * intros [[_ Hd] | (l & d & E & _)]; [contradiction|].
        exfalso. apply Hn. rewrite E. apply in_or_app; right; now left.
    + assert (~ In dayOfWeek (days h)) as Hd.
      { intros Hd. apply includes_In in Hd. congruence. }
      rewrite (remove_first_last _ _ Hd). split; auto.
Qed.

(** ** The in-memory store *)

Section ListFacts.
Context {A B : Type}.

Lemma mutate_first_map (p : A -> bool) (f : A -> A) (g : A -> B)
  (arr : list A) :
  (forall x, g (f x) = g x) -> map g (mutate_first p f arr) = map g arr.
Proof.
  intros Hg. induction arr as [|y arr IH]; simpl; auto.
  destruct (p y); simpl; congruence.
Qed.

Lemma mutate_first_Forall (P : A -> Prop) (p : A -> bool) (f : A -> A)
  (arr : list A) :
  (forall x, P x -> P (f x)) -> Forall P arr -> Forall P (mutate_first p f arr).
Proof.
  intros Hf. induction 1 as [|y arr Hy Harr IH]; simpl; auto.
  destruct (p y); constructor; auto.
Qed.

Lemma drop_first_Forall (P : A -> Prop) (p : A -> bool) (arr : list A) :
  Forall P arr -> Forall P (drop_first p arr).
Proof.
  induction 1 as [|y arr Hy Harr IH]; simpl; auto.
  destruct (p y); auto.
Qed.

Lemma drop_first_map_incl (p : A -> bool) (g : A -> B) (arr : list A)
  (b : B) :
  In b (map g (drop_first p arr)) -> In b (map g arr).
Proof.
  rewrite !in_map_iff. intros (x & E & Hx).
  exists x; split; auto. eapply drop_first_incl; eauto.
Qed.

Lemma drop_first_map_NoDup (p : A -> bool) (g : A -> B) (arr : list A) :
  NoDup (map g arr) -> NoDup (map g (drop_first p arr)).
Proof.
  induction arr as [|y arr IH]; simpl; auto.
  intros Hnd. inversion Hnd as [|? ? Hy Hrest]; subst.
  destruct (p y); simpl; auto.
  constructor; auto. intros Hin. apply Hy.
  eapply drop_first_map_incl; eauto.
Qed.

(** With distinct keys, a predicate that pins the key selects at most
    one element. *)
Lemma filter_key_unique (p : A -> bool) (g : A -> B) (k : B)
  (arr : list A) :
  NoDup (map g arr) -> (forall x, p x = true -> g x = k) ->
  (length (filter p arr) <= 1)%nat.
Proof.
  intros Hnd Hp. induction arr as [|y arr IH]; simpl; auto.
  inversion Hnd as [|? ? Hy Hrest]; subst.
  destruct (p y) eqn:Ey; auto. simpl.
  assert (filter p arr = []) as ->; [|simpl; lia].
  destruct (filter p arr) as [|z l] eqn:Ef; auto.
  exfalso. apply Hy.
  assert (In z (filter p arr)) as Hz by (rewrite Ef; now left).
  apply filter_In in Hz. destruct Hz as [Hz Pz].
  apply in_map_iff. exists z. split; auto.
  rewrite (Hp _ Pz), (Hp _ Ey). reflexivity.
Qed.

End ListFacts.

Lemma toggle_id {I} (today : jsstring) (dayOfWeek : Z) (h : habit I) :
  _id (toggle today dayOfWeek h) = _id h.
Proof. unfold toggle. destruct (_ =? _); reflexivity. Qed.

Section StoreInvariant.
Context {DB O : Type}.
Variable M : Mongoose DB O.
Variable ToNumber : jsstring -> option Z.

Lemma post_habits_ok (body : req_body) (now : Z) (s : server DB) :
  store_ok s -> store_ok (snd (post_habits M body now s)).
Proof.
  intros Hs. unfold post_habits.
  destruct body as [|title]; [exact Hs|]. cbv beta iota.
  destruct (truthy title); simpl; auto.
  destruct title as [[| | |t| |]|]; simpl; auto.
  destruct (jsstring_eqb (trim t) []); simpl; auto.
  destruct (isConnected s) eqn:Ec.
  - destruct (model_save M _ (db s)) as [[u|] d]; simpl; exact Hs.
  - simpl. destruct Hs as (H1 & Hb & Hnd & Ht).
    unfold store_ok, push; simpl. repeat split.
    + lia.
    + apply Forall_app. split.
      * eapply Forall_impl; [|exact Hb]. simpl. intros; lia.
      * constructor; [simpl; lia | constructor].
    + rewrite map_app. apply NoDup_app; auto.
      * simpl. constructor; [intros [] | constructor].
      * intros a Ha [<- | []]. apply in_map_iff in Ha.
        destruct Ha as (x & E & Hx).
        rewrite Forall_forall in Hb. specialize (Hb x Hx). simpl in E. lia.
    + apply Forall_app. split; auto.
      constructor; [|constructor]. apply tfc_created.
Qed.

Lemma patch_toggle_ok (id today : jsstring) (dayOfWeek : Z) (s : server DB) :
  store_ok s -> store_ok (snd (patch_toggle M ToNumber id today dayOfWeek s)).
Proof.
  intros Hs. unfold patch_toggle.
  destruct (isConnected s) eqn:Ec.
  - destruct (findById M id (db s)) as [[h|]|]; simpl; auto.
    destruct (document_save M _ (db s)) as [[u|] d]; simpl; exact Hs.
  - destruct (find (id_matches ToNumber id) (habits s)); simpl; auto.
    destruct Hs as (H1 & Hb & Hnd & Ht).
    unfold store_ok; simpl. repeat split; auto.
    + apply mutate_first_Forall; auto.
      intros x Hx. now rewrite toggle_id.
    + rewrite mutate_first_map; auto. intros x; apply toggle_id.
    + apply mutate_first_Forall; auto.
      intros x Hx. now apply tfc_toggled.
Qed.

Lemma delete_habit_ok (id : jsstring) (s : server DB) :
  store_ok s -> store_ok (snd (delete_habit M ToNumber id s)).
Proof.
  intros Hs. unfold delete_habit.
  destruct (isConnected s) eqn:Ec.
  - destruct (findByIdAndDelete M id (db s)) as [[[h|]|] d]; simpl; exact Hs.
  - destruct (findIndex (id_matches ToNumber id) (habits s) =? -1) eqn:Ei;
      simpl; auto.
    apply Z.eqb_neq in Ei. rewrite splice_findIndex by assumption.
    destruct Hs as (H1 & Hb & Hnd & Ht).
    unfold store_ok; simpl. repeat split; auto.
    + now apply drop_first_Forall.
    + now apply drop_first_map_NoDup.
    + now apply drop_first_Forall.
Qed.

Lemma get_habits_state (s : server DB) : snd (get_habits M s) = s.
Proof.
  unfold get_habits. destruct (isConnected s); simpl; auto.
  destruct (find_sort_createdAt_desc M (db s)); reflexivity.
Qed.

Lemma step_ok (e : event) (s : server DB) :
  store_ok s -> store_ok (step M ToNumber e s).
Proof.
  intros Hs. destruct e as [[|title now|id today dayOfWeek|id]|]; simpl.
  - now rewrite get_habits_state.
  - now apply post_habits_ok.
  - now apply patch_toggle_ok.
  - now apply delete_habit_ok.
  - exact Hs.
Qed.

Lemma run_ok (es : list event) (s : server DB) :
  store_ok s -> store_ok (run M ToNumber es s).
Proof.
  revert s. induction es as [|e es IH]; intros s Hs; simpl; auto.
  apply IH, step_ok, Hs.
Qed.

Lemma startup_ok (d : DB) : store_ok (startup d).
Proof.
  unfold store_ok, startup; simpl.
  repeat split; try constructor; lia.
Qed.

Lemma step_counter_mono (e : event) (s : server DB) :
  habitId s <= habitId (step M ToNumber e s).
Proof.
  destruct e as [[|[|title] now|id today dayOfWeek|id]|]; simpl; try lia.
  - rewrite get_habits_state; lia.
  - unfold post_habits. destruct (truthy title); simpl; try lia.
    destruct title as [[| | |t| |]|]; simpl; try lia.
    destruct (jsstring_eqb (trim t) []); simpl; try lia.
    destruct (isConnected s); simpl; try lia.
    destruct (model_save M _ (db s)) as [[u|] d]; simpl; lia.
  - unfold patch_toggle. destruct (isConnected s).
    + destruct (findById M id (db s)) as [[h|]|]; simpl; try lia.
      destruct (document_save M _ (db s)) as [[u|] d]; simpl; lia.
    + destruct (find _ (habits s)); simpl; lia.
  - unfold delete_habit. destruct (isConnected s).
    + destruct (findByIdAndDelete M id (db s)) as [[[h|]|] d]; simpl; lia.
    + destruct (_ =? -1); simpl; lia.
Qed.

Lemma step_counter_step (e : event) (s : server DB) :
  habitId (step M ToNumber e s) <= habitId s + 1.
Proof.
  destruct e as [[|[|title] now|id today dayOfWeek|id]|]; simpl; try lia.
  - rewrite get_habits_state; lia.
  - unfold post_habits. destruct (truthy title); simpl; try lia.
    destruct title as [[| | |t| |]|]; simpl; try lia.
    destruct (jsstring_eqb (trim t) []); simpl; try lia.
    destruct (isConnected s); simpl; try lia.
    destruct (model_save M _ (db s)) as [[u|] d]; simpl; lia.
  - unfold patch_toggle. destruct (isConnected s).
    + destruct (findById M id (db s)) as [[h|]|]; simpl; try lia.
      destruct (document_save M _ (db s)) as [[u|] d]; simpl; lia.
    + destruct (find _ (habits s)); simpl; lia.
  - unfold delete_habit. destruct (isConnected s).
    + destruct (findByIdAndDelete M id (db s)) as [[[h|]|] d]; simpl; lia.
    + destruct (_ =? -1); simpl; lia.
Qed.

(** The counter grows by at most one per event: a run of fewer than
    2^53 - 1 events keeps it where numbers are exact. *)
Lemma run_counter_bound (es : list event) (s : server DB) :
  habitId (run M ToNumber es s) <= habitId s + Z.of_nat (length es).
Proof.
  revert s. induction es as [|e es IH]; intros s; [simpl; lia|].
  change (run M ToNumber (e :: es) s)
    with (run M ToNumber es (step M ToNumber e s)).
  specialize (IH (step M ToNumber e s)).
  pose proof (step_counter_step e s). simpl length. lia.
Qed.

End StoreInvariant.

(** ** C4: no duplicates *)

Section ToggleLengths.
Context {I : Type}.
Variables (today : jsstring) (dayOfWeek : Z).

Lemma toggle_grows_by_one (h : habit I) :
  (length (history (toggle today dayOfWeek h)) <= length (history h) + 1)%nat
  /\ (length (days (toggle today dayOfWeek h)) <= length (days h) + 1)%nat.
Proof.
  destruct (in_dec (list_eq_dec N.eq_dec) today (history h)) as [Hin | Hn].
  - rewrite toggle_remove by assumption; simpl.
    pose proof (drop_first_length (fun y => strict_eqb y today) (history h)).
    pose proof (drop_first_length (fun y => strict_eqb y dayOfWeek) (days h)).
    unfold remove_first; split; lia.
  - rewrite toggle_add by assumption; simpl.
    rewrite length_app; simpl. split; [lia|].
    destruct (includes (days h) dayOfWeek); [lia|].
    rewrite length_app; simpl; lia.
Qed.

Lemma toggle_remove_shrinks (h : habit I) :
  In today (history h) ->
  (length (history (toggle today dayOfWeek h)) <= length (history h))%nat
  /\ (length (days (toggle today dayOfWeek h)) <= length (days h))%nat.
Proof.
  intros Hin. rewrite toggle_remove by assumption; simpl.
  split; apply drop_first_length.
Qed.

Lemma toggle_add_marks (h : habit I) :
  ~ In today (history h) -> In today (history (toggle today dayOfWeek h)).
Proof.
  intros Hn. rewrite toggle_add by assumption; simpl.
  apply in_or_app; right; now left.
Qed.

Lemma toggle_twice_lengths (h : habit I) :
  let h2 := toggle today dayOfWeek (toggle today dayOfWeek h) in
  (length (history h2) <= length (history h) + 1)%nat /\
  (length (days h2) <= length (days h) + 1)%nat.
Proof.
  cbv zeta.
  destruct (in_dec (list_eq_dec N.eq_dec) today (history h)) as [Hin | Hn].
  - destruct (toggle_remove_shrinks h Hin) as [L1 L2].
    destruct (toggle_grows_by_one (toggle today dayOfWeek h)) as [L3 L4].
    split; lia.
  - destruct (toggle_grows_by_one h) as [L1 L2].
    destruct (toggle_remove_shrinks _ (toggle_add_marks h Hn)) as [L3 L4].
    split; lia.
Qed.

End ToggleLengths.

Lemma toggled_from_creation_NoDup {I} (h : habit I) :
  toggled_from_creation h -> NoDup (days h) /\ NoDup (history h).
Proof.
  induction 1 as [id title createdAt | today dayOfWeek h Hh IH].
  - simpl; split; constructor.
  - now apply toggle_NoDup.
Qed.

(** C4. No-duplicates invariant: a habit reached from creation by toggle
    steps has no duplicate weekday in days and no duplicate date in history
    (and so has every habit in the in-memory list, whatever events the
    server went through); two toggles on the same day leave history and
    days at most one entry longer than they were, without duplicates. *)
Theorem toggle_no_duplicates :
  (forall (I : Type) (h : habit I),
     toggled_from_creation h -> NoDup (days h) /\ NoDup (history h)) /\
  (forall (I : Type) (today : jsstring) (dayOfWeek : Z) (h : habit I),
     let h2 := toggle today dayOfWeek (toggle today dayOfWeek h) in
     (length (history h2) <= length (history h) + 1)%nat /\
     (length (days h2) <= length (days h) + 1)%nat /\
     (toggled_from_creation h -> NoDup (days h2) /\ NoDup (history h2))) /\
  (forall (DB O : Type) (M : Mongoose DB O) (ToNumber : jsstring -> option Z)
          (es : list event) (d : DB) (h : habit Z),
     In h (habits (run M ToNumber es (startup d))) ->
     toggled_from_creation h /\ NoDup (days h) /\ NoDup (history h)).
Proof.
  split; [|split].
  - intros I h. apply toggled_from_creation_NoDup.
  - intros I today dayOfWeek h. cbv zeta.
    destruct (toggle_twice_lengths today dayOfWeek h) as [L1 L2].
    split; [exact L1 | split; [exact L2 | intros Ht]].
    apply toggled_from_creation_NoDup. do 2 apply tfc_toggled. exact Ht.
  - intros DB O M ToNumber es d h Hin.
    destruct (run_ok M ToNumber es _ (startup_ok d)) as (_ & _ & _ & Ht).
    rewrite Forall_forall in Ht. specialize (Ht h Hin).
    split; auto. now apply toggled_from_creation_NoDup.
Qed.

(** ** C10: ids of the in-memory list *)

Lemma id_matches_pins (ToNumber : jsstring -> option Z) (id : jsstring) :
  forall k, ToNumber id = Some k ->
  forall h, id_matches ToNumber id h = true -> _id h = k.
Proof.
  intros k Ek h. unfold id_matches. rewrite Ek. apply Z.eqb_eq.
Qed.

(** C10. In the in-memory backend the counter starts at 1, never decreases,
    and stays ahead of every id in the list; after any sequence of events
    the habits of the list have pairwise distinct ids, so a lookup or a
    delete by id matches at most one habit. *)
Theorem memory_ids_distinct (DB O : Type) (M : Mongoose DB O)
  (ToNumber : jsstring -> option Z) (es : list event) (d : DB) :
  let s := run M ToNumber es (startup d) in
  habitId (startup d) = 1 /\
  (forall e s', habitId s' <= habitId (step M ToNumber e s')) /\
  Forall (fun h => 1 <= _id h < habitId s) (habits s) /\
  NoDup (map _id (habits s)) /\
  (forall id, (length (filter (id_matches ToNumber id) (habits s)) <= 1)%nat).
Proof.
  cbv zeta.
  destruct (run_ok M ToNumber es _ (startup_ok d)) as (_ & Hb & Hnd & _).
  repeat split; auto.
  - apply step_counter_mono.
  - intros id. destruct (ToNumber id) as [k|] eqn:Ek.
    + eapply filter_key_unique; [exact Hnd|].
      apply (id_matches_pins ToNumber id k Ek).
    + assert (filter (id_matches ToNumber id)
                (habits (run M ToNumber es (startup d))) = []) as ->;
        [|simpl; lia].
      assert (forall h, id_matches ToNumber id h = false) as Hno
        by (intros h; unfold id_matches; now rewrite Ek).
      clear Hb Hnd.
      induction (habits _) as [|y l IH]; simpl; auto.
      now rewrite Hno.
Qed.

(** ** C3: the weekday/history invariant *)

(** A habit done on two Mondays, 2024-01-01 and 2024-01-08: taking the
    second one back removes Monday from days although the first one stays
    in history. *)
Lemma toggle_breaks_days_match_history :
  let created := Habit 1 (str "Read") [] [] 0 in
  let h := Habit 1 (str "Read") [1] [str "2024-01-01"; str "2024-01-08"] 0 in
  let today := str "2024-01-08" in
  h = toggle (str "2024-01-08") 1 (toggle (str "2024-01-01") 1 created) /\
  isoWeekday today = 1 /\
  days_match_history isoWeekday h /\
  toggle today (isoWeekday today) h =
    Habit 1 (str "Read") [] [str "2024-01-01"] 0 /\
  ~ days_match_history isoWeekday (toggle today (isoWeekday today) h).
Proof.
  cbv zeta.
  assert (toggle (str "2024-01-08") (isoWeekday (str "2024-01-08"))
            (Habit 1 (str "Read") [1]
               [str "2024-01-01"; str "2024-01-08"] 0)
          = Habit 1 (str "Read") [] [str "2024-01-01"] 0) as E
    by (vm_compute; reflexivity).
  split; [vm_compute; reflexivity|].
  split; [vm_compute; reflexivity|]. split; [|split; [exact E|]].
  - intros w; cbn [days history]. split.
    + intros [<- | []]. exists (str "2024-01-01").
      split; [left; reflexivity | vm_compute; reflexivity].
    + intros (d & [<- | [<- | []]] & <-); left; vm_compute; reflexivity.
  - rewrite E. intros Hinv. specialize (Hinv 1). destruct Hinv as [_ Hinv].
    cbn [days history] in Hinv. apply Hinv.
    exists (str "2024-01-01").
    split; [left; reflexivity | vm_compute; reflexivity].
Qed.

(** C3 (amended). For a habit whose days and history have no duplicates
    and satisfy the invariant, a toggle with the weekday of today's date
    keeps every weekday of days backed by a date of history; and it keeps
    the whole invariant when it adds today, or when today is the only date
    of history that falls on that weekday. *)
Theorem toggle_preserves_days_match_history (weekdayOf : jsstring -> Z)
  (I : Type) (today : jsstring) (h : habit I) :
  days_match_history weekdayOf h ->
  NoDup (days h) -> NoDup (history h) ->
  days_within_history weekdayOf (toggle today (weekdayOf today) h) /\
  ((~ In today (history h) \/
    (forall d, In d (history h) -> weekdayOf d = weekdayOf today ->
               d = today)) ->
   days_match_history weekdayOf (toggle today (weekdayOf today) h)).
Proof.
  intros Hinv Hd Hh.
  destruct (in_dec (list_eq_dec N.eq_dec) today (history h)) as [Hin | Hn].
  - rewrite toggle_remove by assumption.
    assert (forall w, In w (remove_first (weekdayOf today) (days h)) ->
              exists d, In d (remove_first today (history h)) /\
                        weekdayOf d = w) as Hfwd.
    { intros w Hw.
      assert (w <> weekdayOf today) as Hne.
      { intros ->. now apply (remove_first_NoDup_absent (days h)) in Hw. }
      apply remove_first_In_other in Hw; [|exact Hne].
      apply Hinv in Hw. destruct Hw as (d & Hdin & Ed).
      exists d. split; [|exact Ed].
      apply remove_first_In_other; [|exact Hdin].
      intros ->. apply Hne. now symmetry. }
    split; [exact Hfwd|].
    intros [Hn | Honly]; [contradiction|].
    intros w; split; [apply Hfwd|]. simpl.
    intros (d & Hdin & Ed).
    assert (In d (history h)) as Hdh by (eapply drop_first_incl; exact Hdin).
    assert (w <> weekdayOf today) as Hne.
    { intros ->. apply Honly in Ed; [|exact Hdh]. subst d.
      now apply (remove_first_NoDup_absent (history h)) in Hdin. }
    apply remove_first_In_other; [exact Hne|].
    apply Hinv. exists d; auto.
  - rewrite toggle_add by assumption.
    assert (days_match_history weekdayOf
              (Habit (_id h) (title h)
                 (if includes (days h) (weekdayOf today) then days h
                  else days h ++ [weekdayOf today])
                 (history h ++ [today]) (createdAt h))) as Hfull.
    { intros w; simpl. split.
      - intros Hw.
        assert (In w (days h) \/ w = weekdayOf today) as [Hw' | ->].
        { destruct (includes (days h) (weekdayOf today)); auto.
          apply in_app_or in Hw. destruct Hw as [Hw | [<- | []]]; auto. }
        + apply Hinv in Hw'. destruct Hw' as (d & Hdin & Ed).
          exists d; split; auto. apply in_or_app; now left.
        + exists today; split; auto. apply in_or_app; right; now left.
      - intros (d & Hdin & Ed). apply in_app_or in Hdin.
        assert (In w (days h) \/ w = weekdayOf today) as Hcase.
        { destruct Hdin as [Hdin | [<- | []]]; auto.
          left. apply Hinv. exists d; auto. }
        destruct (includes (days h) (weekdayOf today)) eqn:Ei.
        + destruct Hcase as [Hw | ->]; auto. now apply includes_In.
        + apply in_or_app. destruct Hcase as [Hw | ->]; auto.
          right; now left. }
    split; [|intros _; exact Hfull].
    intros w Hw. now apply Hfull.
Qed.

Lemma toggle_preserves_days_match_history_witness :
  let h := Habit 1 (str "Read") [1] [str "2024-01-01"] 0 in
  let today := str "2024-01-02" in
  days_within_history isoWeekday (toggle today (isoWeekday today) h) /\
  days_match_history isoWeekday (toggle today (isoWeekday today) h).
Proof.
  cbv zeta.
  assert (days_match_history isoWeekday
            (Habit 1 (str "Read") [1] [str "2024-01-01"] 0)) as Hinv.
  { intros w; cbn [days history]. split.
    - intros [<- | []]. exists (str "2024-01-01").
      split; [left; reflexivity | vm_compute; reflexivity].
    - intros (d & [<- | []] & <-); left; vm_compute; reflexivity. }
  assert (NoDup [1]) as Hd by (constructor; [intros [] | constructor]).
  assert (NoDup [str "2024-01-01"]) as Hh
    by (constructor; [intros [] | constructor]).
  destruct (toggle_preserves_days_match_history isoWeekday Z
              (str "2024-01-02") _ Hinv Hd Hh) as [Hw Hm].
  split; [exact Hw|]. apply Hm. left.
  intros [E | []]. vm_compute in E. discriminate E.
Defined.

(** ** C5: order of the listing *)

Lemma get_habits_memory {DB O : Type} (M : Mongoose DB O) (s : server DB) :
  isConnected s = false ->
  get_habits M s = (Response 200 (Habits (map (with_id inl) (habits s))), s).
Proof. intros Hc. unfold get_habits. now rewrite Hc. Qed.

(** The database branch sends what the sorted query resolved to. *)
Lemma get_habits_database {DB O : Type} (M : Mongoose DB O) (s : server DB)
  (dbHabits : list (habit O)) :
  isConnected s = true ->
  find_sort_createdAt_desc M (db s) = Resolved dbHabits ->
  get_habits M s = (Response 200 (Habits (map (with_id inr) dbHabits)), s).
Proof. intros Hc Hq. unfold get_habits. now rewrite Hc, Hq. Qed.

(** C5. On the in-memory backend two habits created at times 1000 and
    2000 are listed in the order of their creation, the older one first:
    the listing is not newest-first. *)
Theorem memory_list_is_oldest_first (DB O : Type) (M : Mongoose DB O)
  (ToNumber : jsstring -> option Z) (d : DB) :
  let s := run M ToNumber
             [Serve (POST_habits (Body (Some (JString (str "Read")))) 1000);
              Serve (POST_habits (Body (Some (JString (str "Run")))) 2000)]
             (startup d) in
  let older := Habit (inl 1) (str "Read") [] [] 1000 in
  let newer := Habit (inl 2) (str "Run") [] [] 2000 in
  fst (get_habits M s) = Response 200 (Habits [older; newer]) /\
  ~ newest_first [older; newer].
Proof.
  cbv zeta. split; [reflexivity|].
  intros Hs. inversion Hs as [|? ? _ Hall]; subst.
  inversion Hall as [|? ? Hle _]; subst. simpl in Hle. lia.
Qed.

(** ** C6: validation of the title *)

Lemma trim_nil : trim [] = [].
Proof. reflexivity. Qed.

Lemma jsstring_eqb_nil (s : jsstring) : jsstring_eqb s [] = true <-> s = [].
Proof. apply jsstring_eqb_eq. Qed.

(** [false] is a title that is present and not a string; it is rejected
    with 400. *)
Lemma post_habits_rejects_false :
  let s := startup (Double.Collection [] []) in
  let body := Body (Some (JBool false)) in
  status (fst (post_habits Double.mongoose body 0 s)) = 400 /\
  ~ title_absent_or_empty (Some (JBool false)) /\
  ~ (status (fst (post_habits Double.mongoose body 0 s)) = 400
     <-> title_absent_or_empty (Some (JBool false))).
Proof.
  cbv zeta.
  assert (~ title_absent_or_empty (Some (JBool false))) as Hn.
  { intros [E | [E | (t & E & _)]]; discriminate E. }
  split; [reflexivity|]. split; [exact Hn|].
  intros [Hto _]. apply Hn, Hto. reflexivity.
Qed.

Lemma post_habits_400_state {DB O : Type} (M : Mongoose DB O)
  (body : req_body) (now : Z) (s : server DB) :
  status (fst (post_habits M body now s)) = 400 ->
  snd (post_habits M body now s) = s.
Proof.
  unfold post_habits. destruct body as [|title]; [reflexivity|].
  cbv beta iota.
  destruct (truthy title); simpl; auto.
  destruct title as [[| | |t| |]|]; simpl; auto.
  destruct (jsstring_eqb (trim t) []); simpl; auto.
  destruct (isConnected s); simpl; [|discriminate].
  destruct (model_save M _ (db s)) as [[u|] d]; simpl; discriminate.
Qed.

Lemma post_habits_400_iff {DB O : Type} (M : Mongoose DB O)
  (title : option json) (now : Z) (s : server DB) :
  status (fst (post_habits M (Body title) now s)) = 400 <->
  title_falsy_or_empty title.
Proof.
  unfold post_habits, title_falsy_or_empty.
  destruct title as [[|[|]|x|t| |]|]; simpl;
    try (split; [discriminate | contradiction]);
    try (split; [reflexivity | intros _; reflexivity]); try tauto.
  - (* a number *)
    destruct (Qnum x =? 0) eqn:Ex; simpl.
    + apply Z.eqb_eq in Ex. tauto.
    + apply Z.eqb_neq in Ex. split; [discriminate | contradiction].
  - (* a string *)
    destruct (jsstring_eqb t []) eqn:Et; simpl.
    + apply jsstring_eqb_nil in Et. subst t. tauto.
    + destruct (jsstring_eqb (trim t) []) eqn:Ett; simpl.
      * apply jsstring_eqb_nil in Ett. tauto.
      * assert (trim t <> []) as Hne.
        { intros E. apply jsstring_eqb_nil in E. congruence. }
        destruct (isConnected s); simpl;
          [destruct (model_save M _ (db s)) as [[u|] d]; simpl|];
          (split; [discriminate | contradiction]).
Qed.

(** Line 68 throws on a request without a parsed body, line 69 on a
    truthy title that has no [trim]: the [catch] block answers 500. *)
Lemma post_habits_throws {DB O : Type} (M : Mongoose DB O)
  (body : req_body) (now : Z) (s : server DB) :
  body = NoBody \/
  (exists title, body = Body title /\ truthy title = true /\
                 forall t, title <> Some (JString t)) ->
  post_habits M body now s =
    (Response 500 (ErrorBody "Failed to create habit"), s).
Proof.
  intros [-> | (title & -> & Ht & Hns)]; [reflexivity|].
  unfold post_habits. rewrite Ht. cbv beta iota. simpl negb. cbv iota.
  destruct title as [[| | |t| |]|]; try reflexivity.
  exfalso. now apply (Hns t).
Qed.

(** C6 (amended). [POST /api/habits] answers 400 exactly when the request
    has a parsed body whose title is absent or falsy ([null], [false],
    zero, the empty string) or is a string that is empty after trimming;
    the state is then unchanged, and so is the listing that follows.  A
    request without a parsed body, and one whose title is truthy and not a
    string, is answered 500 with the error [Failed to create habit], the
    state and the listing that follows unchanged as well. *)
Theorem create_validation (DB O : Type) (M : Mongoose DB O)
  (body : req_body) (now : Z) (s : server DB) :
  (status (fst (post_habits M body now s)) = 400 <->
   exists title, body = Body title /\ title_falsy_or_empty title) /\
  (status (fst (post_habits M body now s)) = 400 ->
   snd (post_habits M body now s) = s /\
   fst (get_habits M (snd (post_habits M body now s))) =
     fst (get_habits M s)) /\
  (body = NoBody \/
   (exists title, body = Body title /\ truthy title = true /\
                  forall t, title <> Some (JString t)) ->
   post_habits M body now s =
     (Response 500 (ErrorBody "Failed to create habit"), s) /\
   fst (get_habits M (snd (post_habits M body now s))) =
     fst (get_habits M s)).
Proof.
  split; [|split].
  - destruct body as [|title].
    + split; [discriminate|]. intros (title & E & _). discriminate E.
    + rewrite post_habits_400_iff. split.
      * intros H. now exists title.
      * intros (title' & E & H). now injection E as ->.
  - intros H400. pose proof (post_habits_400_state M body now s H400) as E.
    split; [exact E|]. now rewrite E.
  - intros H. rewrite (post_habits_throws M body now s H).
    split; reflexivity.
Qed.

(** ** C7: creation *)

Lemma trim_nonempty (t : jsstring) : trim t <> [] -> t <> [].
Proof. intros Hne ->. apply Hne, trim_nil. Qed.

Lemma post_habits_memory {DB O : Type} (M : Mongoose DB O) (t : jsstring)
  (now : Z) (s : server DB) :
  trim t <> [] -> isConnected s = false ->
  post_habits M (Body (Some (JString t))) now s =
    (Response 201
       (OneHabit (with_id inl (Habit (habitId s) (trim t) [] [] now))),
     Server false (habits s ++ [Habit (habitId s) (trim t) [] [] now])
       (habitId s + 1) (db s)).
Proof.
  intros Hne Hc. unfold post_habits. simpl.
  destruct (jsstring_eqb t []) eqn:Et;
    [apply jsstring_eqb_nil in Et; now apply trim_nonempty in Hne|].
  destruct (jsstring_eqb (trim t) []) eqn:Ett;
    [apply jsstring_eqb_nil in Ett; contradiction|].
  simpl. rewrite Hc. reflexivity.
Qed.

Lemma post_habits_database {DB O : Type} (M : Mongoose DB O) (t : jsstring)
  (now : Z) (s : server DB) (savedHabit : habit O) (d : DB) :
  trim t <> [] -> isConnected s = true ->
  model_save M (Habit tt (trim t) [] [] now) (db s)
    = (Resolved savedHabit, d) ->
  post_habits M (Body (Some (JString t))) now s =
    (Response 201 (OneHabit (with_id inr savedHabit)), set_db s d).
Proof.
  intros Hne Hc Hs. unfold post_habits. simpl.
  destruct (jsstring_eqb t []) eqn:Et;
    [apply jsstring_eqb_nil in Et; now apply trim_nonempty in Hne|].
  destruct (jsstring_eqb (trim t) []) eqn:Ett;
    [apply jsstring_eqb_nil in Ett; contradiction|].
  simpl. rewrite Hc, Hs. reflexivity.
Qed.

(** C7. Create postcondition: for a title that is not empty after trimming,
    the in-memory branch answers 201 with a habit whose title is the
    trimmed input, whose days and history are empty, whose [createdAt] is
    the current time and whose id is the counter, an id no habit of the
    list has; the list that follows is the former list with that one habit
    appended.  The database branch saves a document with the same title,
    days, history and [createdAt] and answers 201 with what the save
    resolved to. *)
Theorem create_postcondition (DB O : Type) (M : Mongoose DB O)
  (ToNumber : jsstring -> option Z) (es : list event) (d0 : DB)
  (t : jsstring) (now : Z) :
  trim t <> [] ->
  let s := run M ToNumber es (startup d0) in
  let created := Habit (habitId s) (trim t) [] [] now in
  (isConnected s = false ->
   post_habits M (Body (Some (JString t))) now s =
     (Response 201 (OneHabit (with_id inl created)),
      Server false (habits s ++ [created]) (habitId s + 1) (db s)) /\
   ~ In (_id created) (map _id (habits s)) /\
   fst (get_habits M (snd (post_habits M (Body (Some (JString t))) now s))) =
     Response 200
       (Habits (map (with_id inl) (habits s) ++ [with_id inl created]))) /\
  (forall (savedHabit : habit O) (d : DB),
     isConnected s = true ->
     model_save M (Habit tt (trim t) [] [] now) (db s)
       = (Resolved savedHabit, d) ->
     post_habits M (Body (Some (JString t))) now s =
       (Response 201 (OneHabit (with_id inr savedHabit)), set_db s d)).
Proof.
  intros Hne. cbv zeta. split.
  - intros Hc. rewrite (post_habits_memory M t now _ Hne Hc).
    split; [reflexivity|]. split.
    + destruct (run_ok M ToNumber es _ (startup_ok d0)) as (_ & Hb & _).
      simpl. intros Hin. apply in_map_iff in Hin.
      destruct Hin as (x & E & Hx).
      rewrite Forall_forall in Hb. specialize (Hb x Hx). lia.
    + cbn [snd]. rewrite get_habits_memory by reflexivity.
      cbn [fst habits]. unfold with_id at 3. cbn [map].
      rewrite map_app. reflexivity.
  - intros savedHabit d Hc Hs. now apply post_habits_database.
Qed.

(** ** C8: deletion *)

Lemma find_findIndex {A} (p : A -> bool) (arr : list A) :
  find p arr = None <-> findIndex p arr = -1.
Proof.
  rewrite findIndex_none. unfold find. split.
  - intros Hf y Hy. now apply (find_none _ _ Hf).
  - intros Hall. destruct (List.find p arr) as [x|] eqn:Ef; auto.
    apply find_some in Ef. destruct Ef as [Hx Px].
    rewrite (Hall x Hx) in Px. discriminate.
Qed.

(** C8. Delete contract.  In-memory branch: when no habit of the list
    matches the id, the answer is 404 and the state, hence the listing, is
    unchanged; when one does, the answer is 200 and the first match is
    removed from the list, after which (ids being distinct) no habit
    matches the id.  Database branch: the answer is 404 when the driver
    finds no document, and 200 when it deleted one. *)
Theorem delete_contract (DB O : Type) (M : Mongoose DB O)
  (ToNumber : jsstring -> option Z) (s : server DB) (id : jsstring) :
  (isConnected s = false ->
   ((forall h, In h (habits s) -> id_matches ToNumber id h = false) ->
    delete_habit M ToNumber id s =
      (Response 404 (ErrorBody "Habit not found"), s) /\
    fst (get_habits M (snd (delete_habit M ToNumber id s))) =
      fst (get_habits M s)) /\
   (forall h, find (id_matches ToNumber id) (habits s) = Some h ->
    exists l1 l2,
      habits s = l1 ++ h :: l2 /\
      delete_habit M ToNumber id s =
        (Response 200 (MessageBody "Habit deleted successfully"),
         Server false (l1 ++ l2) (habitId s) (db s)) /\
      (NoDup (map _id (habits s)) ->
       forall y, In y (l1 ++ l2) -> id_matches ToNumber id y = false))) /\
  (isConnected s = true ->
   (findByIdAndDelete M id (db s) = (Resolved None, db s) ->
    delete_habit M ToNumber id s =
      (Response 404 (ErrorBody "Habit not found"), s)) /\
   (forall deletedHabit d,
    findByIdAndDelete M id (db s) = (Resolved (Some deletedHabit), d) ->
    delete_habit M ToNumber id s =
      (Response 200 (MessageBody "Habit deleted successfully"),
       set_db s d))).
Proof.
  split.
  - intros Hc. split.
    + intros Hno. apply findIndex_none in Hno.
      assert (delete_habit M ToNumber id s =
                (Response 404 (ErrorBody "Habit not found"), s)) as E.
      { unfold delete_habit. rewrite Hc, Hno. reflexivity. }
      rewrite E. split; reflexivity.
    + intros h Hf.
      assert (findIndex (id_matches ToNumber id) (habits s) <> -1) as Hne.
      { intros E. apply find_findIndex in E. congruence. }
      destruct (find_mutate_first _ (fun x => x) _ _ Hf)
        as (l1 & l2 & E & Hl1 & Hh & _).
      exists l1, l2. split; [exact E|]. split.
      * unfold delete_habit. rewrite Hc.
        destruct (_ =? -1) eqn:Ei; [apply Z.eqb_eq in Ei; contradiction|].
        rewrite splice_findIndex by assumption.
        rewrite E, drop_first_split by assumption. reflexivity.
      * intros Hnd y Hy.
        destruct (id_matches ToNumber id y) eqn:Ey; auto. exfalso.
        unfold id_matches in Hh, Ey.
        destruct (ToNumber id) as [k|]; [|discriminate].
        apply Z.eqb_eq in Hh, Ey.
        rewrite E, map_app in Hnd. simpl in Hnd.
        apply NoDup_remove_2 in Hnd. apply Hnd.
        rewrite <- map_app. apply in_map_iff. exists y. split; congruence.
  - intros Hc. split.
    + intros Hd. unfold delete_habit. rewrite Hc, Hd.
      destruct s; reflexivity.
    + intros deletedHabit d Hd. unfold delete_habit. now rewrite Hc, Hd.
Qed.

(** ** C9: the motivation endpoint *)

(** *** Rounding to a double *)

Lemma round53_small (x : Z) : x < 2 ^ 53 -> round53 x = x.
Proof.
  intros H. unfold round53.
  destruct (Z.ltb_spec x (2 ^ 53)); [reflexivity | lia].
Qed.

Lemma pow2_pos (k : Z) : 0 <= k -> 0 < 2 ^ k.
Proof. intros. apply Z.pow_pos_nonneg; lia. Qed.

Lemma pow2_split (a b : Z) : 0 <= a -> 0 <= b -> 2 ^ (a + b) = 2 ^ a * 2 ^ b.
Proof. intros. apply Z.pow_add_r; lia. Qed.

(** The parts of a rounding: the shift [s], the 53-bit quotient [q] and
    the remainder [r], and the side to which the number goes. *)
Lemma round53_large (x : Z) :
  2 ^ 53 <= x ->
  exists s q r,
    s = Z.log2 x - 52 /\ 1 <= s /\ x = q * 2 ^ s + r /\ 0 <= r < 2 ^ s /\
    2 ^ s = 2 * 2 ^ (s - 1) /\ 2 ^ 52 <= q < 2 ^ 53 /\
    ((round53 x = q * 2 ^ s /\
      (r < 2 ^ (s - 1) \/ (r = 2 ^ (s - 1) /\ Z.odd q = false))) \/
     (round53 x = (q + 1) * 2 ^ s /\
      (2 ^ (s - 1) < r \/ (r = 2 ^ (s - 1) /\ Z.odd q = true)))).
Proof.
  intros Hx.
  assert (53 <= Z.log2 x) as Hl.
  { apply Z.log2_le_pow2; lia. }
  set (s := Z.log2 x - 52).
  assert (1 <= s) as Hs by (unfold s; lia).
  pose proof (pow2_pos s ltac:(lia)) as Hp.
  assert (2 ^ s = 2 * 2 ^ (s - 1)) as Hh.
  { replace s with (1 + (s - 1)) at 1 by lia.
    rewrite pow2_split by lia. reflexivity. }
  exists s, (x / 2 ^ s), (x mod 2 ^ s).
  pose proof (Z.div_mod x (2 ^ s) ltac:(lia)) as Hdm.
  pose proof (Z.mod_pos_bound x (2 ^ s) Hp) as Hm.
  pose proof (Z.log2_spec x ltac:(lia)) as [Hlo Hhi].
  assert (2 ^ Z.log2 x = 2 ^ 52 * 2 ^ s) as E1.
  { rewrite <- pow2_split by lia. f_equal. unfold s. lia. }
  assert (2 ^ Z.succ (Z.log2 x) = 2 ^ 53 * 2 ^ s) as E2.
  { rewrite <- pow2_split by lia. f_equal. unfold s. lia. }
  rewrite E1 in Hlo. rewrite E2 in Hhi.
  assert (2 ^ 52 <= x / 2 ^ s < 2 ^ 53) as Hq.
  { split.
    - apply Z.div_le_lower_bound; lia.
    - apply Z.div_lt_upper_bound; lia. }
  repeat split; try lia.
  unfold round53. destruct (Z.ltb_spec x (2 ^ 53)); [lia|].
  fold s. cbv zeta.
  destruct (Z.ltb_spec (2 ^ (s - 1)) (x mod 2 ^ s)); cbn [orb].
  - right. split; [reflexivity | lia].
  - destruct (Z.eqb_spec (x mod 2 ^ s) (2 ^ (s - 1))); cbn [andb].
    + destruct (Z.odd (x / 2 ^ s)) eqn:Eo.
      * right. split; [reflexivity | right; split; [assumption|reflexivity]].
      * left. split; [reflexivity | right; split; [assumption|reflexivity]].
    + left. split; [reflexivity | lia].
Qed.

Lemma round53_nonneg (x : Z) : 0 <= x -> 0 <= round53 x.
Proof.
  intros Hx. destruct (Z_lt_le_dec x (2 ^ 53)) as [Hs | Hl].
  - now rewrite round53_small.
  - destruct (round53_large x Hl)
      as (s & q & r & _ & Hs & _ & _ & _ & Hq & [[-> _] | [-> _]]);
      apply Z.mul_nonneg_nonneg; try lia; apply Z.pow_nonneg; lia.
Qed.

(** Rounding moves a number by at most half a unit of its last place,
    which is at most one part in 2^53 of it. *)
Lemma round53_error (x : Z) :
  0 <= x -> - x <= 2 ^ 53 * (round53 x - x) <= x.
Proof.
  intros Hx. destruct (Z_lt_le_dec x (2 ^ 53)) as [Hs | Hl].
  - rewrite round53_small by assumption. lia.
  - destruct (round53_large x Hl)
      as (s & q & r & Es & Hs & Ex & Hr & Hh & Hq & Hcase).
    pose proof (pow2_pos (s - 1) ltac:(lia)) as Hp.
    assert (2 ^ 53 * 2 ^ (s - 1) <= x) as Hulp.
    { rewrite Ex, Hh.
      assert (2 ^ 53 = 2 * 2 ^ 52) as -> by reflexivity. nia. }
    destruct Hcase as [[-> Hle] | [-> Hge]]; nia.
Qed.

(** A number rounds to 2^k or above exactly from half a unit of the last
    place below 2^k on: the 53-bit number just below 2^k is odd, so that
    the tie goes to 2^k. *)
Lemma round53_reaches_pow2 (x k : Z) :
  54 <= k -> 0 <= x ->
  (2 ^ k <= round53 x <-> 2 ^ k - 2 ^ (k - 54) <= x).
Proof.
  intros Hk Hx.
  pose proof (pow2_pos (k - 54) ltac:(lia)) as Hh.
  assert (2 ^ k = 2 ^ 54 * 2 ^ (k - 54)) as Ek.
  { rewrite <- pow2_split by lia. f_equal. lia. }
  assert (2 ^ 53 <= 2 ^ k) as H53.
  { apply Z.pow_le_mono_r; lia. }
  destruct (Z_lt_le_dec x (2 ^ 53)) as [Hs | Hl].
  { rewrite round53_small by assumption.
    assert (2 ^ 54 = 2 * 2 ^ 53) as E54 by reflexivity. nia. }
  destruct (round53_large x Hl)
    as (s & q & r & Es & Hs & Ex & Hr & Hhalf & Hq & Hcase).
  pose proof (pow2_pos (s - 1) ltac:(lia)) as Hp.
  pose proof (Z.log2_spec x ltac:(lia)) as [Hlo Hhi].
  assert (2 ^ 54 = 4 * 2 ^ 52) as E54 by reflexivity.
  assert (2 ^ 53 = 2 * 2 ^ 52) as E53 by reflexivity.
  destruct (Z.lt_trichotomy (s - 1) (k - 54)) as [Hlt | [Heq | Hgt]].
  - (* below 2^(k-1): the result stays at or below 2^(k-1) *)
    assert (2 ^ (k - 54) = 2 ^ (k - 54 - (s - 1)) * 2 ^ (s - 1)) as Ekk.
    { rewrite <- pow2_split by lia. f_equal. lia. }
    assert (2 <= 2 ^ (k - 54 - (s - 1))) as H2.
    { change 2 with (2 ^ 1) at 1. apply Z.pow_le_mono_r; lia. }
    split; intros H; exfalso.
    + destruct Hcase as [[Er _] | [Er _]]; rewrite Er in H; nia.
    + nia.
  - (* between 2^(k-1) and 2^k *)
    rewrite <- Heq in *. split; intros H.
    + destruct Hcase as [[Er _] | [Er Hup]]; rewrite Er in H.
      * nia.
      * assert (q = 2 ^ 53 - 1) as Eq by nia. nia.
    + assert (q = 2 ^ 53 - 1) as Eq by nia.
      destruct Hcase as [[Er Hdown] | [Er _]]; rewrite Er.
      * exfalso. destruct Hdown as [Hd | [_ Hodd]]; [nia|].
        rewrite Eq in Hodd. discriminate Hodd.
      * nia.
  - (* at 2^k or above *)
    assert (2 ^ (s - 1) = 2 ^ (s - 1 - (k - 54)) * 2 ^ (k - 54)) as Ess.
    { rewrite <- pow2_split by lia. f_equal. lia. }
    assert (2 <= 2 ^ (s - 1 - (k - 54))) as H2.
    { change 2 with (2 ^ 1) at 1. apply Z.pow_le_mono_r; lia. }
    split; intros _.
    + nia.
    + destruct Hcase as [[-> _] | [-> _]]; nia.
Qed.

Lemma random_index_range (random : unit_double) (n : Z) :
  is_unit_double random -> 1 <= n -> 0 <= random_index random n < n.
Proof.
  intros (Hm & He & Hlt) Hn. unfold random_index.
  set (P := 2 ^ (1074 - expo random)).
  pose proof (pow2_pos (1074 - expo random) ltac:(lia)) as HP. fold P in HP.
  pose proof (pow2_pos 1074 ltac:(lia)) as HT.
  assert (2 ^ 1074 = 2 ^ expo random * P) as ET.
  { unfold P. rewrite <- pow2_split by lia. f_equal. lia. }
  assert (0 <= mant random * n * P) as HN by nia.
  pose proof (round53_nonneg _ HN) as H0.
  pose proof (round53_error _ HN) as [_ Herr].
  split.
  - apply Z.div_pos; lia.
  - apply Z.div_lt_upper_bound; [lia|].
    rewrite ET.
    assert ((2 ^ 53 + 1) * mant random < 2 ^ 53 * 2 ^ expo random) as Hkey.
    { destruct (Z_le_gt_dec (expo random) 53) as [Hle | Hgt].
      - assert (2 ^ expo random <= 2 ^ 53)
          by (apply Z.pow_le_mono_r; lia). nia.
      - assert (2 ^ 54 <= 2 ^ expo random)
          by (apply Z.pow_le_mono_r; lia).
        assert (2 ^ 54 = 2 * 2 ^ 53) as E54 by reflexivity. nia. }
    set (R := round53 (mant random * n * P)) in *.
    assert (2 ^ 53 * R <= (2 ^ 53 + 1) * (mant random * n * P)) by lia.
    assert (0 < 2 ^ 53) by reflexivity.
    nia.
Qed.

(** The reads of [arr[Math.floor(Math.random() * arr.length)]] at draws
    whose product with the length is not a double: the product is rounded
    up to the next whole number. *)
Example random_index_rounds_up :
  is_unit_double (UnitDouble 6004799503160661 53) /\
  6004799503160661 * 3 < 2 * 2 ^ 53 /\
  random_index (UnitDouble 6004799503160661 53) 3 = 2 /\
  is_unit_double (UnitDouble 2573485501354569 52) /\
  2573485501354569 * 7 < 4 * 2 ^ 52 /\
  random_index (UnitDouble 2573485501354569 52) 7 = 4.
Proof. unfold is_unit_double. repeat split; vm_compute; congruence. Qed.

(** The element read at the random index of a non-empty array. *)
Lemma random_element_at {A : Type} (random : unit_double) (arr : list A) :
  is_unit_double random -> arr <> [] ->
  0 <= random_index random (Z.of_nat (length arr)) < Z.of_nat (length arr) /\
  exists x,
    nth_error arr (Z.to_nat (random_index random (Z.of_nat (length arr))))
      = Some x /\
    random_element random arr = Some x /\ In x arr.
Proof.
  intros Hr Hne.
  assert (1 <= Z.of_nat (length arr)) as Hn.
  { destruct arr; [contradiction | simpl; lia]. }
  pose proof (random_index_range random _ Hr Hn) as Hi.
  split; [exact Hi|]. unfold random_element.
  set (i := random_index random (Z.of_nat (length arr))) in *.
  destruct (Z.ltb_spec i 0) as [Hlt | _]; [lia|].
  destruct (nth_error arr (Z.to_nat i)) as [x|] eqn:Ex.
  - exists x. repeat split. eapply nth_error_In; eauto.
  - exfalso. apply nth_error_None in Ex. lia.
Qed.

Lemma random_element_nil {A : Type} (random : unit_double) :
  random_element random (@nil A) = None.
Proof.
  unfold random_element. destruct (_ <? 0); [reflexivity|].
  destruct (Z.to_nat _); reflexivity.
Qed.

Lemma fallbackQuotes_are_quotes (q : json) :
  In q fallbackQuotes -> is_quote (Some q) = true.
Proof. intros [<- | [<- | [<- | []]]]; reflexivity. Qed.

(** A fetched list may be empty, and its elements are sent as they are:
    the answer is then [undefined], or an object whose author is [null]. *)
Lemma motivation_passes_fetched_list_through :
  let anonymous := JObject [(str "text", JString (str "Carpe diem."));
                            (str "author", JNull)] in
  let key := fun (_ : json) (_ : unit_double) => str "0" in
  let zero := UnitDouble 0 0 in
  is_unit_double zero /\
  get_motivation key (Parsed (JArray [])) zero zero = (200, None) /\
  is_quote None = false /\
  get_motivation key (Parsed (JArray [anonymous])) zero zero =
    (200, Some anonymous) /\
  is_quote (Some anonymous) = false.
Proof.
  cbv zeta. unfold is_unit_double.
  repeat split; vm_compute; congruence.
Qed.

(** C9 (amended). For draws in [0, 1) the handler always answers 200.
    When the fetch fails (network error, timeout, or a body that does not
    parse), and when the body parses to [null], the value sent is the
    built-in quote at the random index of the second draw, and each of the
    three built-in quotes has a non-empty text and author.  When the body
    parses to a non-empty list the value sent is the element of that list
    at the random index of the first draw, as fetched; it is [undefined]
    for the empty list, a boolean or a number, and for a string the
    character at the random index.  An object gives its property [NaN]
    when it has no property [length], and else the property that the
    index computed from its [length] names.  The random index of a draw
    and a length is the floor of their product rounded to a double. *)
Theorem motivation_fallback (index_key : json -> unit_double -> jsstring)
  (f : fetched) (random fallbackRandom : unit_double) :
  is_unit_double random -> is_unit_double fallbackRandom ->
  fst (get_motivation index_key f random fallbackRandom) = 200 /\
  (getQuotes f = None \/ f = Parsed JNull ->
   0 <= random_index fallbackRandom 3 < 3 /\
   exists q,
     nth_error fallbackQuotes (Z.to_nat (random_index fallbackRandom 3))
       = Some q /\
     snd (get_motivation index_key f random fallbackRandom) = Some q /\
     In q fallbackQuotes /\ is_quote (Some q) = true) /\
  (forall quotes, f = Parsed (JArray quotes) -> quotes <> [] ->
   0 <= random_index random (Z.of_nat (length quotes))
     < Z.of_nat (length quotes) /\
   exists q,
     nth_error quotes
       (Z.to_nat (random_index random (Z.of_nat (length quotes)))) = Some q /\
     snd (get_motivation index_key f random fallbackRandom) = Some q /\
     In q quotes) /\
  (f = Parsed (JArray []) \/ (exists b, f = Parsed (JBool b)) \/
   (exists x, f = Parsed (JNumber x)) ->
   snd (get_motivation index_key f random fallbackRandom) = None) /\
  (forall s, f = Parsed (JString s) ->
   snd (get_motivation index_key f random fallbackRandom) =
     option_map (fun c => JString [c])
       (nth_error s
          (Z.to_nat (random_index random (Z.of_nat (length s)))))) /\
  (forall props, f = Parsed (JObject props) ->
   snd (get_motivation index_key f random fallbackRandom) =
     match get_prop (str "length") props with
     | None => get_prop (str "NaN") props
     | Some v => get_prop (index_key v random) props
     end).
Proof.
  intros Hr Hfr. split; [|split; [|split; [|split; [|split]]]].
  - unfold get_motivation. destruct (getQuotes f) as [quotes|];
      [destruct (random_quote index_key quotes random)|]; reflexivity.
  - intros Hf.
    destruct (random_element_at fallbackRandom fallbackQuotes Hfr)
      as (Hi & q & Enth & Eq & Hq); [discriminate|].
    split; [exact Hi|]. exists q. split; [exact Enth|].
    split; [|split; [exact Hq | now apply fallbackQuotes_are_quotes]].
    unfold get_motivation. destruct Hf as [-> | ->]; exact Eq.
  - intros quotes -> Hne.
    destruct (random_element_at random quotes Hr Hne)
      as (Hi & q & Enth & Eq & Hq).
    split; [exact Hi|]. exists q. repeat split; assumption.
  - intros [-> | [(b & ->) | (x & ->)]]; try reflexivity.
    unfold get_motivation. cbn [getQuotes random_quote snd].
    apply random_element_nil.
  - intros s ->. unfold get_motivation. cbn [getQuotes random_quote snd].
    destruct s as [|c s].
    { rewrite random_element_nil. destruct (Z.to_nat _); reflexivity. }
    destruct (random_element_at random (c :: s) Hr)
      as (_ & x & Enth & Ex & _); [discriminate|].
    now rewrite Ex, Enth.
  - intros props ->. unfold get_motivation.
    cbn [getQuotes random_quote].
    destruct (get_prop (str "length") props); reflexivity.
Qed.

(** ** The theorems at concrete inputs *)

Lemma toggle_step_contract_witness :
  let h := Habit 1 (str "Read") [] [] 0 in
  let s := Server false [h] 2 (Double.Collection [] []) in
  let doc := Habit (str "65a1") (str "Run") [] [] 0 in
  let c := Double.Collection [doc] [] in
  let today := str "2024-01-01" in
  toggle_contract today 1 h (toggle today 1 h) /\
  (exists l1 l2,
     habits s = l1 ++ h :: l2 /\
     (forall y, In y l1 -> id_matches Double.decimal (str "1") y = false) /\
     patch_toggle Double.mongoose Double.decimal (str "1") today 1 s =
       (Response 200 (OneHabit (with_id inl (toggle today 1 h))),
        Server false (l1 ++ toggle today 1 h :: l2) (habitId s) (db s))) /\
  patch_toggle Double.mongoose Double.decimal (str "65a1") today 1
    (Server true [] 1 c) =
    (Response 200 (OneHabit (with_id inr (toggle today 1 doc))),
     set_db (Server true [] 1 c)
       (Double.Collection [toggle today 1 doc] [])).
Proof.
  cbv zeta. split; [|split].
  - apply (proj1 toggle_step_contract).
  - apply (proj1 (proj2 toggle_step_contract)); reflexivity.
  - apply (proj2 (proj2 toggle_step_contract)
             _ _ Double.mongoose Double.decimal
             (Server true [] 1
                (Double.Collection
                   [Habit (str "65a1") (str "Run") [] [] 0] []))
             (str "65a1") (str "2024-01-01") 1
             (Habit (str "65a1") (str "Run") [] [] 0));
      reflexivity.
Defined.

Lemma toggle_no_duplicates_witness :
  let created := Habit 1 (str "Read") [] [] 1000 in
  let today := str "2024-01-01" in
  let h := toggle today 1 created in
  let h2 := toggle today 1 (toggle today 1 h) in
  (NoDup (days h) /\ NoDup (history h)) /\
  (NoDup (days h2) /\ NoDup (history h2)) /\
  (toggled_from_creation h /\ NoDup (days h) /\ NoDup (history h)).
Proof.
  cbv zeta.
  assert (toggled_from_creation
            (toggle (str "2024-01-01") 1
               (Habit 1 (str "Read") [] [] 1000))) as Ht
    by apply tfc_toggled, tfc_created.
  split; [|split].
  - apply (proj1 toggle_no_duplicates _ _ Ht).
  - apply (proj1 (proj2 toggle_no_duplicates) Z (str "2024-01-01") 1).
    exact Ht.
  - apply (proj2 (proj2 toggle_no_duplicates)
             _ _ Double.mongoose Double.decimal
             [Serve (POST_habits (Body (Some (JString (str "Read")))) 1000);
              Serve (PATCH_toggle (str "1") (str "2024-01-01") 1)]
             (Double.Collection [] [])).
    left. reflexivity.
Defined.

Lemma create_validation_witness :
  let s := startup (Double.Collection [] []) in
  let blank := Body (Some (JString (str "  "))) in
  let five := Body (Some (JNumber (5 # 1))) in
  (snd (post_habits Double.mongoose blank 0 s) = s /\
   fst (get_habits Double.mongoose
          (snd (post_habits Double.mongoose blank 0 s))) =
     fst (get_habits Double.mongoose s)) /\
  (post_habits Double.mongoose five 0 s =
     (Response 500 (ErrorBody "Failed to create habit"), s) /\
   fst (get_habits Double.mongoose
          (snd (post_habits Double.mongoose five 0 s))) =
     fst (get_habits Double.mongoose s)) /\
  (post_habits Double.mongoose NoBody 0 s =
     (Response 500 (ErrorBody "Failed to create habit"), s) /\
   fst (get_habits Double.mongoose
          (snd (post_habits Double.mongoose NoBody 0 s))) =
     fst (get_habits Double.mongoose s)).
Proof.
  cbv zeta. split; [|split].
  - apply (proj1 (proj2 (create_validation _ _ _ _ _ _))). reflexivity.
  - apply (proj2 (proj2 (create_validation _ _ _ _ _ _))). right.
    exists (Some (JNumber (5 # 1))).
    split; [reflexivity|]. split; [reflexivity|]. discriminate.
  - apply (proj2 (proj2 (create_validation _ _ _ _ _ _))). left.
    reflexivity.
Defined.

Lemma create_postcondition_witness :
  let s := startup (Double.Collection [] []) in
  let created := Habit 1 (str "Read") [] [] 1000 in
  let title := Body (Some (JString (str "  Read "))) in
  let c := Double.Collection [] [str "65a1"] in
  let saved := Habit (str "65a1") (str "Read") [] [] 1000 in
  (post_habits Double.mongoose title 1000 s =
     (Response 201 (OneHabit (with_id inl created)),
      Server false [created] 2 (Double.Collection [] [])) /\
   ~ In 1 (map _id (habits s)) /\
   fst (get_habits Double.mongoose
          (snd (post_habits Double.mongoose title 1000 s))) =
     Response 200 (Habits [with_id inl created])) /\
  post_habits Double.mongoose title 1000 (Server true [] 1 c) =
    (Response 201 (OneHabit (with_id inr saved)),
     Server true [] 1 (Double.Collection [saved] [])).
Proof.
  cbv zeta. split.
  - apply (proj1 (create_postcondition _ _ Double.mongoose Double.decimal []
                    (Double.Collection [] []) (str "  Read ") 1000
                    ltac:(vm_compute; discriminate))).
    reflexivity.
  - apply (proj2 (create_postcondition _ _ Double.mongoose Double.decimal
                    [Connected] (Double.Collection [] [str "65a1"])
                    (str "  Read ") 1000
                    ltac:(vm_compute; discriminate))
             (Habit (str "65a1") (str "Read") [] [] 1000)
             (Double.Collection
                [Habit (str "65a1") (str "Read") [] [] 1000] []));
      reflexivity.
Defined.

Lemma delete_contract_witness :
  let h := Habit 1 (str "Read") [] [] 0 in
  let s := Server false [h] 2 (Double.Collection [] []) in
  (delete_habit Double.mongoose Double.decimal (str "7") s =
     (Response 404 (ErrorBody "Habit not found"), s) /\
   fst (get_habits Double.mongoose
          (snd (delete_habit Double.mongoose Double.decimal (str "7") s))) =
     fst (get_habits Double.mongoose s)) /\
  (exists l1 l2,
     habits s = l1 ++ h :: l2 /\
     delete_habit Double.mongoose Double.decimal (str "1") s =
       (Response 200 (MessageBody "Habit deleted successfully"),
        Server false (l1 ++ l2) (habitId s) (db s)) /\
     (forall y, In y (l1 ++ l2) ->
                id_matches Double.decimal (str "1") y = false)) /\
  delete_habit Double.mongoose Double.decimal (str "65a1")
    (Server true [] 1 (Double.Collection [] [])) =
    (Response 404 (ErrorBody "Habit not found"),
     Server true [] 1 (Double.Collection [] [])).
Proof.
  cbv zeta.
  pose proof (delete_contract _ _ Double.mongoose Double.decimal
                (Server false [Habit 1 (str "Read") [] [] 0] 2
                   (Double.Collection [] []))) as Hmem.
  split; [|split].
  - apply (proj1 (proj1 (Hmem (str "7")) eq_refl)).
    intros h [<- | []]. reflexivity.
  - destruct (proj2 (proj1 (Hmem (str "1")) eq_refl) _ eq_refl)
      as (l1 & l2 & E & Ed & Hno).
    exists l1, l2. split; [exact E|]. split; [exact Ed|].
    apply Hno. simpl. constructor; [intros [] | constructor].
  - apply (proj1 (proj2 (delete_contract _ _ Double.mongoose Double.decimal
                           (Server true [] 1 (Double.Collection [] []))
                           (str "65a1")) eq_refl)).
    reflexivity.
Defined.

Lemma motivation_fallback_witness :
  let fetched := [quote "Carpe diem." "Horace";
                  quote "Festina lente." "Augustus"] in
  let key := fun (_ : json) (_ : unit_double) => str "0" in
  let half := UnitDouble 1 1 in
  let low := UnitDouble 6004799503160661 54 in
  (fst (get_motivation key RequestTimeout half low) = 200 /\
   snd (get_motivation key RequestTimeout half low) =
     nth_error fallbackQuotes 1) /\
  (exists q, nth_error fetched 1 = Some q /\
             snd (get_motivation key (Parsed (JArray fetched)) half low)
               = Some q /\
             In q fetched).
Proof.
  cbv zeta.
  assert (is_unit_double (UnitDouble 1 1)) as Hh.
  { unfold is_unit_double. repeat split; vm_compute; congruence. }
  assert (is_unit_double (UnitDouble 6004799503160661 54)) as Hl.
  { unfold is_unit_double. repeat split; vm_compute; congruence. }
  split.
  - destruct (motivation_fallback (fun _ _ => str "0") RequestTimeout
                _ _ Hh Hl) as (Hs & Hf & _).
    split; [exact Hs|].
    destruct (Hf (or_introl eq_refl)) as (_ & q & Enth & Eq & _).
    rewrite Eq, <- Enth. reflexivity.
  - destruct (motivation_fallback (fun _ _ => str "0")
                (Parsed (JArray [quote "Carpe diem." "Horace";
                                 quote "Festina lente." "Augustus"]))
                _ _ Hh Hl) as (_ & _ & Hq & _).
    destruct (Hq _ eq_refl ltac:(discriminate)) as (_ & q & Enth & Eq & Hin).
    exists q. repeat split; assumption.
Defined.

(** * Further properties of the handlers *)

(** ** Requests that are refused *)

Ltac settle_status :=
  solve [split;
         [auto
         | intros Hc Hst; first [discriminate Hc | discriminate Hst]]].

Section NotFound.
Context {DB O : Type}.
Variable M : Mongoose DB O.
Variable ToNumber : jsstring -> option Z.

Lemma patch_toggle_no_match (s : server DB) (id today : jsstring)
  (dayOfWeek : Z) :
  isConnected s = false ->
  (forall h, In h (habits s) -> id_matches ToNumber id h = false) ->
  patch_toggle M ToNumber id today dayOfWeek s =
    (Response 404 (ErrorBody "Habit not found"), s).
Proof.
  intros Hc Hno. unfold patch_toggle. rewrite Hc.
  assert (find (id_matches ToNumber id) (habits s) = None) as E.
  { apply find_findIndex, findIndex_none, Hno. }
  rewrite E. reflexivity.
Qed.

Lemma delete_habit_no_match (s : server DB) (id : jsstring) :
  isConnected s = false ->
  (forall h, In h (habits s) -> id_matches ToNumber id h = false) ->
  delete_habit M ToNumber id s =
    (Response 404 (ErrorBody "Habit not found"), s).
Proof.
  intros Hc Hno. unfold delete_habit. rewrite Hc.
  apply findIndex_none in Hno. rewrite Hno. reflexivity.
Qed.

Lemma delete_habit_match (s : server DB) (id : jsstring) :
  isConnected s = false ->
  findIndex (id_matches ToNumber id) (habits s) <> -1 ->
  delete_habit M ToNumber id s =
    (Response 200 (MessageBody "Habit deleted successfully"),
     Server false (drop_first (id_matches ToNumber id) (habits s))
       (habitId s) (db s)).
Proof.
  intros Hc Hne. unfold delete_habit. rewrite Hc.
  destruct (_ =? -1) eqn:Ei; [apply Z.eqb_eq in Ei; contradiction|].
  now rewrite splice_findIndex.
Qed.

End NotFound.

Section Refusals.
Context {DB O : Type}.
Variable M : Mongoose DB O.
Variable ToNumber : jsstring -> option Z.

(** X1. A toggle of an id that no habit has is answered 404 and changes
    nothing: in memory when no listed habit matches, in the database
    branch when the lookup resolves to null (nothing is saved). *)
Theorem toggle_unknown_id (s : server DB) (id today : jsstring)
  (dayOfWeek : Z) :
  (if isConnected s
   then findById M id (db s) = Resolved None
   else forall h, In h (habits s) -> id_matches ToNumber id h = false) ->
  patch_toggle M ToNumber id today dayOfWeek s =
    (Response 404 (ErrorBody "Habit not found"), s).
Proof.
  destruct (isConnected s) eqn:Ec.
  - intros Hf. unfold patch_toggle. rewrite Ec, Hf. reflexivity.
  - intros Hno. now apply patch_toggle_no_match.
Qed.

Lemma statuses_and_memory_500 (r : request) (s : server DB) :
  let st := status (fst (handle M ToNumber r s)) in
  match r with
  | GET_habits => st = 200 \/ st = 500
  | POST_habits _ _ => st = 201 \/ st = 400 \/ st = 500
  | PATCH_toggle _ _ _ => st = 200 \/ st = 404 \/ st = 500
  | DELETE_habit _ => st = 200 \/ st = 404 \/ st = 500
  end /\
  (isConnected s = false -> st = 500 ->
   exists body now,
     r = POST_habits body now /\
     (body = NoBody \/
      exists title, body = Body title /\ truthy title = true /\
                    forall t, title <> Some (JString t))).
Proof.
  cbv zeta. destruct r as [|[|title] now|id today dayOfWeek|id]; simpl.
  - unfold get_habits. destruct (isConnected s); simpl.
    + destruct (find_sort_createdAt_desc M (db s)); simpl; settle_status.
    + settle_status.
  - split; [auto|]. intros _ _. exists NoBody, now. auto.
  - unfold post_habits. destruct (truthy title) eqn:Et; simpl;
      [|settle_status].
    destruct title as [[|b|x|t|l|l]|]; simpl in Et |- *;
      try discriminate Et;
      try solve [split; [auto | intros _ _; eexists _, _;
                                split; [reflexivity | right; eexists;
                                split; [reflexivity | split; [exact Et|]]];
                                intros t0; discriminate]].
    destruct (jsstring_eqb (trim t) []); simpl; [settle_status|].
    destruct (isConnected s); simpl.
    + destruct (model_save M _ (db s)) as [[u|] d]; simpl; settle_status.
    + settle_status.
  - unfold patch_toggle. destruct (isConnected s); simpl.
    + destruct (findById M id (db s)) as [[h|]|]; simpl;
        try settle_status.
      destruct (document_save M _ (db s)) as [[u|] d]; simpl; settle_status.
    + destruct (find _ (habits s)); simpl; settle_status.
  - unfold delete_habit. destruct (isConnected s); simpl.
    + destruct (findByIdAndDelete M id (db s)) as [[[h|]|] d]; simpl;
        settle_status.
    + destruct (_ =? -1); simpl; settle_status.
Qed.

(** X2. The statuses each route can answer with; and while the in-memory
    list is in use a request is answered 500 exactly when it is a creation
    without a parsed body, or with a title that is truthy and not a
    string. *)
Theorem handler_statuses (r : request) (s : server DB) :
  let st := status (fst (handle M ToNumber r s)) in
  match r with
  | GET_habits => st = 200 \/ st = 500
  | POST_habits _ _ => st = 201 \/ st = 400 \/ st = 500
  | PATCH_toggle _ _ _ => st = 200 \/ st = 404 \/ st = 500
  | DELETE_habit _ => st = 200 \/ st = 404 \/ st = 500
  end /\
  (isConnected s = false ->
   (st = 500 <->
    exists body now,
      r = POST_habits body now /\
      (body = NoBody \/
       exists title, body = Body title /\ truthy title = true /\
                     forall t, title <> Some (JString t)))).
Proof.
  cbv zeta. destruct (statuses_and_memory_500 r s) as [Hall H500].
  split; [exact Hall|]. intros Hc. split; [now apply H500|].
  intros (body & now & -> & Hb). cbn [handle].
  now rewrite (post_habits_throws M body now s Hb).
Qed.

(** X3. A request that is not answered 2xx leaves the in-memory list, the
    counter and the connection flag as they were, and in memory mode the
    whole state; a listing never changes the state. *)
Theorem refusal_changes_nothing (r : request) (s : server DB) :
  (succeeded (fst (handle M ToNumber r s)) = false ->
   habits (snd (handle M ToNumber r s)) = habits s /\
   habitId (snd (handle M ToNumber r s)) = habitId s /\
   isConnected (snd (handle M ToNumber r s)) = isConnected s /\
   (isConnected s = false -> snd (handle M ToNumber r s) = s)) /\
  (r = GET_habits -> snd (handle M ToNumber r s) = s).
Proof.
  split; [|intros ->; apply get_habits_state].
  destruct r as [|[|title] now|id today dayOfWeek|id]; simpl.
  - rewrite get_habits_state. auto.
  - auto.
  - unfold post_habits. destruct (truthy title); simpl; auto.
    destruct title as [[| | |t| |]|]; simpl; auto.
    destruct (jsstring_eqb (trim t) []); simpl; auto.
    destruct (isConnected s) eqn:Ec; simpl.
    + destruct (model_save M _ (db s)) as [[u|] d]; simpl;
        intros _; repeat split; auto; discriminate.
    + unfold succeeded; simpl. discriminate.
  - unfold patch_toggle. destruct (isConnected s) eqn:Ec; simpl.
    + destruct (findById M id (db s)) as [[h|]|]; simpl; auto.
      destruct (document_save M _ (db s)) as [[u|] d]; simpl;
        intros _; repeat split; auto; discriminate.
    + destruct (find _ (habits s)); simpl; auto.
      unfold succeeded; simpl. discriminate.
  - unfold delete_habit. destruct (isConnected s) eqn:Ec; simpl.
    + destruct (findByIdAndDelete M id (db s)) as [[[h|]|] d]; simpl;
        intros _; repeat split; auto; discriminate.
    + destruct (_ =? -1); simpl; auto.
      unfold succeeded; simpl. discriminate.
Qed.

End Refusals.

(** ** Lists under the handlers' updates *)

Section UpdateFacts.
Context {A : Type}.

Lemma mutate_first_In (p : A -> bool) (f : A -> A) (arr : list A) (y : A) :
  In y (mutate_first p f arr) -> exists x, In x arr /\ (y = x \/ y = f x).
Proof.
  induction arr as [|z arr IH]; simpl; [intros []|].
  destruct (p z); simpl.
  - intros [E | Hy].
    + exists z; auto.
    + exists y; auto.
  - intros [E | Hy].
    + exists y; auto.
    + destruct (IH Hy) as (x & Hx & E). exists x; auto.
Qed.

Lemma mutate_first_keeps (p : A -> bool) (f : A -> A) (arr : list A)
  (x : A) :
  In x arr -> In x (mutate_first p f arr) \/ In (f x) (mutate_first p f arr).
Proof.
  induction arr as [|z arr IH]; simpl; [intros []|].
  destruct (p z); simpl.
  - intros [<- | Hx]; auto.
  - intros [<- | Hx]; auto. destruct (IH Hx); auto.
Qed.

Lemma mutate_first_nth (p : A -> bool) (f : A -> A) (arr : list A)
  (i : nat) (x : A) :
  nth_error arr i = Some x -> p x = false ->
  nth_error (mutate_first p f arr) i = Some x.
Proof.
  revert i. induction arr as [|z arr IH]; intros [|i]; simpl;
    try discriminate.
  - intros [= ->] Hp. now rewrite Hp.
  - intros Hn Hp. destruct (p z); simpl; auto.
Qed.

Lemma mutate_first_length (p : A -> bool) (f : A -> A) (arr : list A) :
  length (mutate_first p f arr) = length arr.
Proof.
  induction arr as [|z arr IH]; simpl; auto.
  destruct (p z); simpl; congruence.
Qed.

Lemma mutate_first_twice (p : A -> bool) (f g : A -> A) (arr : list A) :
  (forall x, p x = true -> p (f x) = true) ->
  mutate_first p g (mutate_first p f arr)
    = mutate_first p (fun x => g (f x)) arr.
Proof.
  intros Hp. induction arr as [|z arr IH]; simpl; auto.
  destruct (p z) eqn:Ez; simpl.
  - now rewrite (Hp z Ez).
  - now rewrite Ez, IH.
Qed.

Lemma mutate_first_fixed (p : A -> bool) (f : A -> A) (arr : list A)
  (x : A) :
  find p arr = Some x -> f x = x -> mutate_first p f arr = arr.
Proof.
  unfold find. induction arr as [|z arr IH]; simpl; auto.
  destruct (p z).
  - intros [= ->] ->. reflexivity.
  - intros Hf Hx. now rewrite IH.
Qed.

Lemma find_mutate_first_found (p : A -> bool) (f : A -> A) (arr : list A)
  (x : A) :
  find p arr = Some x -> p (f x) = true ->
  find p (mutate_first p f arr) = Some (f x).
Proof.
  unfold find. induction arr as [|z arr IH]; simpl; [discriminate|].
  destruct (p z) eqn:Ez; simpl.
  - intros [= ->] Hp. now rewrite Hp.
  - intros Hf Hp. rewrite Ez. auto.
Qed.

Lemma StronglySorted_push (R : A -> A -> Prop) (arr : list A) (x : A) :
  StronglySorted R arr -> Forall (fun y => R y x) arr ->
  StronglySorted R (arr ++ [x]).
Proof.
  induction 1 as [|z arr Hs IH Hz]; intros Hall; simpl.
  - repeat constructor.
  - inversion Hall as [|? ? Hzx Hrest]; subst.
    constructor; auto. apply Forall_app; split; auto.
Qed.

End UpdateFacts.

Lemma drop_first_map_sorted {A B : Type} (R : B -> B -> Prop)
  (p : A -> bool) (g : A -> B) (arr : list A) :
  StronglySorted R (map g arr) -> StronglySorted R (map g (drop_first p arr)).
Proof.
  induction arr as [|z arr IH]; simpl; auto.
  intros Hs. inversion Hs as [|? ? Hrest Hz]; subst.
  destruct (p z); simpl; auto.
  constructor; auto.
  rewrite Forall_forall in *. intros b Hb. apply Hz.
  eapply drop_first_map_incl; eauto.
Qed.

Lemma toggle_identity {I} (today : jsstring) (dayOfWeek : Z) (h : habit I) :
  identity (toggle today dayOfWeek h) = identity h.
Proof. unfold toggle, identity. destruct (_ =? _); reflexivity. Qed.

Lemma id_matches_toggle (ToNumber : jsstring -> option Z)
  (id today : jsstring) (dayOfWeek : Z) (h : habit Z) :
  id_matches ToNumber id (toggle today dayOfWeek h) = id_matches ToNumber id h.
Proof. unfold id_matches. now rewrite toggle_id. Qed.

Lemma drop_first_no_match (ToNumber : jsstring -> option Z) (id : jsstring)
  (arr : list (habit Z)) :
  NoDup (map _id arr) ->
  forall y, In y (drop_first (id_matches ToNumber id) arr) ->
            id_matches ToNumber id y = false.
Proof.
  induction arr as [|z arr IH]; simpl; [intros _ y []|].
  intros Hnd. inversion Hnd as [|? ? Hz Hrest]; subst.
  destruct (id_matches ToNumber id z) eqn:Ez.
  - intros y Hy. destruct (id_matches ToNumber id y) eqn:Ey; auto.
    exfalso. apply Hz. apply in_map_iff. exists y. split; auto.
    unfold id_matches in Ez, Ey.
    destruct (ToNumber id) as [k|]; [|discriminate].
    apply Z.eqb_eq in Ez, Ey. congruence.
  - intros y [<- | Hy]; auto.
Qed.

(** ** The in-memory list over a run *)

Section Runs.
Context {DB O : Type}.
Variable M : Mongoose DB O.
Variable ToNumber : jsstring -> option Z.

Lemma run_cons (e : event) (es : list event) (s : server DB) :
  run M ToNumber (e :: es) s = run M ToNumber es (step M ToNumber e s).
Proof. reflexivity. Qed.

Lemma run_preserves (P : server DB -> Prop) :
  (forall e s, P s -> P (step M ToNumber e s)) ->
  forall es s, P s -> P (run M ToNumber es s).
Proof.
  intros Hstep es. induction es as [|e es IH]; intros s Hs; auto.
  rewrite run_cons. apply IH, Hstep, Hs.
Qed.

(** How a step changes the list: it is left alone, gets one habit with the
    counter as id pushed, has its first match toggled in place, or has
    its first match removed. *)
Lemma step_habits (e : event) (s : server DB) :
  (habits (step M ToNumber e s) = habits s /\
   habitId (step M ToNumber e s) = habitId s) \/
  (isConnected s = false /\
   exists t now,
     habits (step M ToNumber e s)
       = habits s ++ [Habit (habitId s) (trim t) [] [] now] /\
     trim t <> [] /\
     habitId (step M ToNumber e s) = habitId s + 1) \/
  (isConnected s = false /\
   exists id today dayOfWeek,
     e = Serve (PATCH_toggle id today dayOfWeek) /\
     habits (step M ToNumber e s)
       = mutate_first (id_matches ToNumber id) (toggle today dayOfWeek)
           (habits s) /\
     habitId (step M ToNumber e s) = habitId s) \/
  (isConnected s = false /\
   exists id,
     e = Serve (DELETE_habit id) /\
     habits (step M ToNumber e s)
       = drop_first (id_matches ToNumber id) (habits s) /\
     habitId (step M ToNumber e s) = habitId s).
Proof.
  destruct e as [[|[|title] now|id today dayOfWeek|id]|]; simpl; auto.
  - rewrite get_habits_state. auto.
  - unfold post_habits. destruct (truthy title); simpl; auto.
    destruct title as [[| | |t| |]|]; simpl; auto.
    destruct (jsstring_eqb (trim t) []) eqn:Et; simpl; auto.
    destruct (isConnected s) eqn:Ec; simpl.
    + destruct (model_save M _ (db s)) as [[u|] d]; simpl; auto.
    + right; left. split; auto. exists t, now. repeat split.
      intros E. apply jsstring_eqb_nil in E. congruence.
  - unfold patch_toggle. destruct (isConnected s) eqn:Ec; simpl.
    + destruct (findById M id (db s)) as [[h|]|]; simpl; auto.
      destruct (document_save M _ (db s)) as [[u|] d]; simpl; auto.
    + destruct (find _ (habits s)) eqn:Ef; simpl; auto.
      right; right; left. split; auto. exists id, today, dayOfWeek. auto.
  - unfold delete_habit. destruct (isConnected s) eqn:Ec; simpl.
    + destruct (findByIdAndDelete M id (db s)) as [[[h|]|] d]; simpl; auto.
    + destruct (_ =? -1) eqn:Ei; simpl; auto.
      apply Z.eqb_neq in Ei. rewrite splice_findIndex by assumption.
      right; right; right. split; auto. exists id. auto.
Qed.

(** X4. The in-memory list is always in the order of creation: the ids
    increase strictly along it. *)
Theorem memory_list_ids_ascend (es : list event) (d : DB) :
  StronglySorted Z.lt (map _id (habits (run M ToNumber es (startup d)))).
Proof.
  cut (store_ok (run M ToNumber es (startup d)) /\
       StronglySorted Z.lt (map _id (habits (run M ToNumber es (startup d))))).
  { tauto. }
  apply (run_preserves
           (fun s => store_ok s /\ StronglySorted Z.lt (map _id (habits s)))).
  - intros e s [Hok Hs]. split; [now apply step_ok|].
    destruct (step_habits e s)
      as [[E _] | [(_ & t & now & E & _) | [(_ & id & today & dw & _ & E & _)
                                          | (_ & id & _ & E & _)]]];
      rewrite E.
    + exact Hs.
    + rewrite map_app. apply StronglySorted_push; auto.
      destruct Hok as (_ & Hb & _).
      rewrite Forall_forall in *. intros k Hk.
      apply in_map_iff in Hk. destruct Hk as (x & <- & Hx).
      simpl. apply (Hb x Hx).
    + rewrite mutate_first_map; auto. intros x; apply toggle_id.
    + now apply drop_first_map_sorted.
  - split; [apply startup_ok | simpl; constructor].
Qed.

(** X5. A toggle changes at most the habit whose id matches: the ids, titles
    and creation times of the list stay as they were, position by
    position, and every habit that does not match stays as it is, where
    it is. *)
Theorem toggle_touches_one_habit (s : server DB) (id today : jsstring)
  (dayOfWeek : Z) :
  let s' := snd (patch_toggle M ToNumber id today dayOfWeek s) in
  map identity (habits s') = map identity (habits s) /\
  habitId s' = habitId s /\
  (forall i h, nth_error (habits s) i = Some h ->
               id_matches ToNumber id h = false ->
               nth_error (habits s') i = Some h).
Proof.
  cbv zeta. unfold patch_toggle. destruct (isConnected s) eqn:Ec; simpl.
  - destruct (findById M id (db s)) as [[h|]|]; simpl; auto.
    destruct (document_save M _ (db s)) as [[u|] d]; simpl; auto.
  - destruct (find _ (habits s)) as [found|]; simpl; auto.
    repeat split.
    + apply mutate_first_map. intros x; apply toggle_identity.
    + intros i h Hn Hp. now apply mutate_first_nth.
Qed.

(** X6. Id, title and creation time are for life, and ids are not handed out
    again: over any run, a listed habit either was listed at the start
    with the same id, title and creation time, or has an id not below the
    counter of the start. *)
Theorem identity_is_kept (es : list event) (s : server DB) (h' : habit Z) :
  In h' (habits (run M ToNumber es s)) ->
  (exists h, In h (habits s) /\ identity h = identity h') \/
  habitId s <= _id h'.
Proof.
  revert s. induction es as [|e es IH]; intros s Hin.
  - left. exists h'; auto.
  - rewrite run_cons in Hin.
    pose proof (step_counter_mono M ToNumber e s) as Hmono.
    destruct (IH _ Hin) as [(h1 & H1 & E1) | Hnew]; [|right; lia].
    destruct (step_habits e s)
      as [[E _] | [(_ & t & now & E & _) | [(_ & id & today & dw & _ & E & _)
                                          | (_ & id & _ & E & _)]]];
      rewrite E in H1.
    + left. exists h1; auto.
    + apply in_app_or in H1. destruct H1 as [H1 | [<- | []]].
      * left. exists h1; auto.
      * right. assert (_id h' = habitId s) as ->; [|lia].
        unfold identity in E1. simpl in E1. congruence.
    + apply mutate_first_In in H1. destruct H1 as (x & Hx & [-> | ->]).
      * left. exists x; auto.
      * left. exists x; split; auto.
        now rewrite <- E1, toggle_identity.
    + left. exists h1; split; auto. eapply drop_first_incl; eauto.
Qed.

(** X7. A habit stays in the list, with its id, title and creation time,
    through every run that has no [DELETE] for its id. *)
Theorem habit_stays_until_deleted (es : list event) (s : server DB)
  (h : habit Z) :
  In h (habits s) ->
  (forall e, In e es -> ~ deletes ToNumber (_id h) e) ->
  exists h', In h' (habits (run M ToNumber es s)) /\ identity h' = identity h.
Proof.
  revert s h. induction es as [|e es IH]; intros s h Hin Hno.
  - exists h; auto.
  - rewrite run_cons.
    assert (exists h1, In h1 (habits (step M ToNumber e s)) /\
                       identity h1 = identity h) as (h1 & H1 & E1).
    { destruct (step_habits e s)
        as [[E _] | [(_ & t & now & E & _) | [(_ & id & today & dw & _ & E & _)
                                            | (_ & id & Ee & E & _)]]];
        rewrite E.
      - exists h; auto.
      - exists h; split; auto. apply in_or_app; auto.
      - destruct (mutate_first_keeps (id_matches ToNumber id)
                    (toggle today dw) _ _ Hin) as [Hk | Hk].
        + exists h; auto.
        + eexists; split; [exact Hk | apply toggle_identity].
      - exists h; split; auto. apply drop_first_keeps; auto.
        specialize (Hno e (or_introl eq_refl)). subst e. simpl in Hno.
        unfold id_matches. destruct (ToNumber id) as [k|]; auto.
        apply Z.eqb_neq. congruence. }
    destruct (IH (step M ToNumber e s) h1 H1) as (h' & H' & E').
    + intros e' He'. assert (_id h1 = _id h) as ->.
      { unfold identity in E1. congruence. }
      apply Hno. now right.
    + exists h'; split; auto. congruence.
Qed.

End Runs.

(** ** How requests compose *)

Section Composition.
Context {DB O : Type}.
Variable M : Mongoose DB O.
Variable ToNumber : jsstring -> option Z.

(** X8. Once a habit is deleted from the in-memory list its id is gone for
    good: a second [DELETE] and a [PATCH] with that id are answered 404
    and change nothing. *)
Theorem deleted_id_is_gone (es : list event) (d : DB) (id : jsstring) :
  let s := run M ToNumber es (startup d) in
  isConnected s = false ->
  status (fst (delete_habit M ToNumber id s)) = 200 ->
  let s1 := snd (delete_habit M ToNumber id s) in
  delete_habit M ToNumber id s1 =
    (Response 404 (ErrorBody "Habit not found"), s1) /\
  (forall today dayOfWeek,
     patch_toggle M ToNumber id today dayOfWeek s1 =
       (Response 404 (ErrorBody "Habit not found"), s1)).
Proof.
  cbv zeta. set (s := run M ToNumber es (startup d)). intros Hc H200.
  destruct (run_ok M ToNumber es _ (startup_ok d)) as (_ & _ & Hnd & _).
  fold s in Hnd.
  assert (findIndex (id_matches ToNumber id) (habits s) <> -1) as Hne.
  { intros E. unfold delete_habit in H200. rewrite Hc, E in H200.
    simpl in H200. discriminate. }
  rewrite (delete_habit_match M ToNumber s id Hc Hne). cbn [snd].
  pose proof (drop_first_no_match ToNumber id (habits s) Hnd) as Hno.
  split; [|intros today dayOfWeek].
  - apply delete_habit_no_match; auto.
  - apply patch_toggle_no_match; auto.
Qed.

(** X9. Creating a habit in memory and deleting it by the id it was given
    brings the list back; the counter keeps its advance. *)
Theorem create_then_delete (es : list event) (d : DB) (t id : jsstring)
  (now : Z) :
  let s := run M ToNumber es (startup d) in
  trim t <> [] -> isConnected s = false ->
  ToNumber id = Some (habitId s) ->
  delete_habit M ToNumber id
    (snd (post_habits M (Body (Some (JString t))) now s)) =
    (Response 200 (MessageBody "Habit deleted successfully"),
     Server false (habits s) (habitId s + 1) (db s)).
Proof.
  cbv zeta. set (s := run M ToNumber es (startup d)). intros Hne Hc Hid.
  destruct (run_ok M ToNumber es _ (startup_ok d)) as (_ & Hb & _).
  fold s in Hb.
  rewrite (post_habits_memory M t now s Hne Hc). cbn [snd].
  set (created := Habit (habitId s) (trim t) [] [] now).
  assert (id_matches ToNumber id created = true) as Hm.
  { unfold id_matches. rewrite Hid. apply Z.eqb_refl. }
  assert (forall y, In y (habits s) -> id_matches ToNumber id y = false)
    as Hold.
  { intros y Hy. unfold id_matches. rewrite Hid. apply Z.eqb_neq.
    rewrite Forall_forall in Hb. specialize (Hb y Hy). lia. }
  rewrite delete_habit_match; cbn [isConnected habits habitId db]; auto.
  - rewrite drop_first_split, app_nil_r; auto.
  - intros E. rewrite findIndex_none in E.
    rewrite (E created) in Hm; [discriminate|].
    apply in_or_app; right; now left.
Qed.

(** X10. Two toggles, with the same date and weekday, of a listed habit that
    has neither in its arrays bring the whole state back, each answered
    200. *)
Theorem toggle_pair_restores_state (s : server DB) (id today : jsstring)
  (dayOfWeek : Z) (h : habit Z) :
  isConnected s = false ->
  find (id_matches ToNumber id) (habits s) = Some h ->
  ~ In today (history h) -> ~ In dayOfWeek (days h) ->
  let r1 := patch_toggle M ToNumber id today dayOfWeek s in
  let r2 := patch_toggle M ToNumber id today dayOfWeek (snd r1) in
  status (fst r1) = 200 /\ fst r2 = Response 200 (OneHabit (with_id inl h)) /\
  snd r2 = s.
Proof.
  intros Hc Hf Hn Hd. cbv zeta.
  assert (toggle today dayOfWeek (toggle today dayOfWeek h) = h) as Eh.
  { rewrite (toggle_add today dayOfWeek h Hn).
    rewrite toggle_remove by (simpl; apply in_or_app; right; now left).
    simpl.
    assert (includes (days h) dayOfWeek = false) as ->.
    { destruct (includes (days h) dayOfWeek) eqn:Ei; auto.
      apply includes_In in Ei. contradiction. }
    rewrite !remove_first_last by assumption. now destruct h. }
  assert (id_matches ToNumber id h = true) as Hm.
  { unfold find in Hf. apply find_some in Hf. tauto. }
  assert (patch_toggle M ToNumber id today dayOfWeek s =
            (Response 200
               (OneHabit (with_id inl (toggle today dayOfWeek h))),
             Server false
               (mutate_first (id_matches ToNumber id)
                  (toggle today dayOfWeek) (habits s))
               (habitId s) (db s))) as E1.
  { unfold patch_toggle. rewrite Hc, Hf. reflexivity. }
  rewrite E1. cbn [fst snd status]. split; [reflexivity|].
  unfold patch_toggle. cbn [isConnected habits habitId db].
  rewrite (find_mutate_first_found _ _ _ _ Hf)
    by (now rewrite id_matches_toggle).
  cbn [fst snd]. rewrite Eh. split; [reflexivity|].
  rewrite mutate_first_twice
    by (intros x Hx; now rewrite id_matches_toggle).
  rewrite (mutate_first_fixed _ _ _ _ Hf Eh).
  destruct s; simpl in *; congruence.
Qed.

End Composition.

(** ** The connection *)

Section Connection.
Context {DB O : Type}.

Lemma step_flag (M : Mongoose DB O) (ToNumber : jsstring -> option Z)
  (e : event) (s : server DB) :
  isConnected (step M ToNumber e s) =
    match e with Connected => true | Serve _ => isConnected s end.
Proof.
  destruct e as [[|[|title] now|id today dayOfWeek|id]|]; simpl; auto.
  - now rewrite get_habits_state.
  - unfold post_habits. destruct (truthy title); simpl; auto.
    destruct title as [[| | |t| |]|]; simpl; auto.
    destruct (jsstring_eqb (trim t) []); simpl; auto.
    destruct (isConnected s) eqn:Ec; simpl; auto.
    destruct (model_save M _ (db s)) as [[u|] d]; simpl; auto.
  - unfold patch_toggle. destruct (isConnected s) eqn:Ec; simpl.
    + destruct (findById M id (db s)) as [[h|]|]; simpl; auto.
      destruct (document_save M _ (db s)) as [[u|] d]; simpl; auto.
    + destruct (find _ (habits s)); simpl; auto.
  - unfold delete_habit. destruct (isConnected s) eqn:Ec; simpl.
    + destruct (findByIdAndDelete M id (db s)) as [[[h|]|] d]; simpl; auto.
    + destruct (_ =? -1); simpl; auto.
Qed.

(** X11. Once the connection is up it stays up, and the in-memory list and
    its counter are never written again; a listing then shows database
    documents only. *)
Theorem connection_is_final (M : Mongoose DB O)
  (ToNumber : jsstring -> option Z) (es : list event) (s : server DB) :
  isConnected s = true ->
  isConnected (run M ToNumber es s) = true /\
  habits (run M ToNumber es s) = habits s /\
  habitId (run M ToNumber es s) = habitId s /\
  (forall st l,
     fst (get_habits M (run M ToNumber es s)) = Response st (Habits l) ->
     forall h, In h l -> exists o, _id h = inr o).
Proof.
  intros Hc.
  assert (isConnected (run M ToNumber es s) = true /\
          habits (run M ToNumber es s) = habits s /\
          habitId (run M ToNumber es s) = habitId s) as (H1 & H2 & H3).
  { apply (run_preserves M ToNumber
             (fun s' => isConnected s' = true /\ habits s' = habits s /\
                        habitId s' = habitId s)); auto.
    intros e s' (Hc' & Hh & Hi). split.
    - rewrite step_flag. destruct e; auto.
    - destruct (step_habits M ToNumber e s')
        as [[E1 E2] | [(Hf & _) | [(Hf & _) | (Hf & _)]]];
        try congruence.
      split; congruence. }
  repeat split; auto.
  intros st l Hl h Hh. unfold get_habits in Hl. rewrite H1 in Hl.
  destruct (find_sort_createdAt_desc M (db _)) as [docs|];
    simpl in Hl; [|discriminate].
  injection Hl as _ <-. apply in_map_iff in Hh.
  destruct Hh as (x & <- & _). exists (_id x). reflexivity.
Qed.

Lemma handle_memory_any_driver (M1 M2 : Mongoose DB O)
  (ToNumber : jsstring -> option Z) (r : request) (s : server DB) :
  isConnected s = false ->
  handle M1 ToNumber r s = handle M2 ToNumber r s /\
  db (snd (handle M1 ToNumber r s)) = db s /\
  isConnected (snd (handle M1 ToNumber r s)) = false.
Proof.
  intros Hc. destruct r as [|[|title] now|id today dayOfWeek|id]; simpl.
  - unfold get_habits. rewrite Hc. simpl. auto.
  - auto.
  - unfold post_habits. rewrite Hc.
    destruct (truthy title); simpl; auto.
    destruct title as [[| | |t| |]|]; simpl; auto.
    destruct (jsstring_eqb (trim t) []); simpl; auto.
  - unfold patch_toggle. rewrite Hc.
    destruct (find _ (habits s)); simpl; auto.
  - unfold delete_habit. rewrite Hc.
    destruct (_ =? -1); simpl; auto.
Qed.

(** X12. As long as the connection does not come up the driver plays no part:
    the states and the responses of a run are the same whatever the
    driver does, and the collection is not touched. *)
Theorem memory_mode_ignores_driver (M1 M2 : Mongoose DB O)
  (ToNumber : jsstring -> option Z) (es : list event) (s : server DB) :
  isConnected s = false -> ~ In Connected es ->
  run M1 ToNumber es s = run M2 ToNumber es s /\
  trace M1 ToNumber es s = trace M2 ToNumber es s /\
  db (run M1 ToNumber es s) = db s /\
  isConnected (run M1 ToNumber es s) = false.
Proof.
  revert s. induction es as [|e es IH]; intros s Hc Hno; [simpl; auto|].
  destruct e as [r|]; [|exfalso; apply Hno; now left].
  destruct (handle_memory_any_driver M1 M2 ToNumber r s Hc) as (E & Ed & Ec).
  destruct (IH (snd (handle M1 ToNumber r s)) Ec) as (R & T & D & C).
  { intros Hin. apply Hno. now right. }
  rewrite !run_cons. simpl step. simpl trace. rewrite <- E.
  rewrite T. repeat split; auto; congruence.
Qed.

End Connection.

(** ** A toggle as a change of sets *)

Section ToggleSets.
Context {I : Type}.
Variables (today : jsstring) (dayOfWeek : Z).

(** X13. On a history without duplicates a toggle flips whether today is in
    it, and nothing else: every other date, and every other weekday,
    is in the arrays after the toggle exactly if it was before. *)
Theorem toggle_flips_today (h : habit I) :
  NoDup (history h) ->
  (In today (history (toggle today dayOfWeek h)) <->
   ~ In today (history h)) /\
  (forall d, d <> today ->
     (In d (history (toggle today dayOfWeek h)) <-> In d (history h))) /\
  (forall w, w <> dayOfWeek ->
     (In w (days (toggle today dayOfWeek h)) <-> In w (days h))).
Proof.
  intros Hnd.
  destruct (in_dec (list_eq_dec N.eq_dec) today (history h)) as [Hin | Hn].
  - rewrite toggle_remove by assumption. simpl. repeat split.
    + intros Hin'. now apply remove_first_NoDup_absent in Hin'.
    + intros Hn. contradiction.
    + now apply remove_first_In_other.
    + now apply remove_first_In_other.
    + now apply remove_first_In_other.
    + now apply remove_first_In_other.
  - rewrite toggle_add by assumption. simpl. repeat split; auto.
    + intros _. apply in_or_app; right; now left.
    + intros Hd. apply in_app_or in Hd.
      destruct Hd as [Hd | [<- | []]]; [auto | contradiction].
    + intros Hd. apply in_or_app; now left.
    + destruct (includes (days h) dayOfWeek); auto.
      intros Hw. apply in_app_or in Hw.
      destruct Hw as [Hw | [<- | []]]; [auto | contradiction].
    + destruct (includes (days h) dayOfWeek); auto.
      intros Hw. apply in_or_app; now left.
Qed.

(** X14. Two toggles on the same day give back the dates of a history without
    duplicates, up to their order. *)
Theorem toggle_twice_keeps_dates (h : habit I) :
  NoDup (history h) ->
  Permutation (history (toggle today dayOfWeek (toggle today dayOfWeek h)))
    (history h).
Proof.
  intros Hnd.
  destruct (in_dec (list_eq_dec N.eq_dec) today (history h)) as [Hin | Hn].
  - rewrite (toggle_remove today dayOfWeek h Hin).
    rewrite toggle_add
      by (cbn [history]; now apply remove_first_NoDup_absent).
    cbn [history].
    destruct (remove_first_split _ _ Hin) as (l1 & l2 & E & _ & Er).
    unfold jsstring in *. rewrite Er, E. rewrite <- app_assoc.
    apply Permutation_app_head. symmetry. apply Permutation_cons_append.
  - rewrite (toggle_add today dayOfWeek h Hn).
    rewrite toggle_remove by (simpl; apply in_or_app; right; now left).
    cbn [history]. now rewrite remove_first_last.
Qed.

End ToggleSets.

(** ** Titles *)

Lemma trimStart_head (s : jsstring) :
  match trimStart s with
  | [] => True
  | c :: _ => isWhiteSpace c = false
  end.
Proof.
  induction s as [|c s IH]; simpl; auto.
  destruct (isWhiteSpace c) eqn:Ec; auto.
Qed.

Lemma trimStart_fixed (c : N) (s : jsstring) :
  isWhiteSpace c = false -> trimStart (c :: s) = c :: s.
Proof. intros Hc. simpl. now rewrite Hc. Qed.

Lemma trimStart_idempotent (s : jsstring) :
  trimStart (trimStart s) = trimStart s.
Proof.
  pose proof (trimStart_head s) as Hh.
  destruct (trimStart s) as [|c u]; auto. now apply trimStart_fixed.
Qed.

Lemma trimStart_snoc (s : jsstring) (c : N) :
  isWhiteSpace c = false -> trimStart (s ++ [c]) = trimStart s ++ [c].
Proof.
  intros Hc. induction s as [|d s IH]; simpl.
  - now rewrite Hc.
  - destruct (isWhiteSpace d); auto.
Qed.

Lemma trimEnd_cons (c : N) (s : jsstring) :
  isWhiteSpace c = false -> trimEnd (c :: s) = c :: trimEnd s.
Proof.
  intros Hc. unfold trimEnd. simpl.
  rewrite trimStart_snoc by assumption.
  rewrite rev_app_distr. reflexivity.
Qed.

Lemma trimEnd_idempotent (s : jsstring) : trimEnd (trimEnd s) = trimEnd s.
Proof.
  unfold trimEnd. now rewrite rev_involutive, trimStart_idempotent.
Qed.

Lemma trimEnd_last (s : jsstring) (c : N) :
  trimEnd s <> [] -> isWhiteSpace (last (trimEnd s) c) = false.
Proof.
  unfold trimEnd. pose proof (trimStart_head (rev s)) as Hh.
  destruct (trimStart (rev s)) as [|d u]; [intros []; reflexivity|].
  intros _. simpl. now rewrite last_last.
Qed.

Lemma trim_trimmed (t : jsstring) : trimmed (trim t).
Proof.
  unfold trim. pose proof (trimStart_head t) as Hh.
  destruct (trimStart t) as [|c u] eqn:E; [exact I|].
  rewrite trimEnd_cons by assumption. unfold trimmed.
  split; [assumption|].
  rewrite <- trimEnd_cons by assumption.
  apply trimEnd_last. rewrite trimEnd_cons by assumption. discriminate.
Qed.

Lemma trim_idempotent (t : jsstring) : trim (trim t) = trim t.
Proof.
  unfold trim at 2 3. pose proof (trimStart_head t) as Hh.
  destruct (trimStart t) as [|c u] eqn:E; [reflexivity|].
  rewrite trimEnd_cons by assumption.
  unfold trim. rewrite trimStart_fixed by assumption.
  rewrite <- trimEnd_cons by assumption. apply trimEnd_idempotent.
Qed.

(** X15. Every title in the in-memory list is as [trim] leaves a string: not
    empty, free of white space at both ends, and unchanged by another
    [trim]. *)
Theorem stored_titles_are_trimmed (DB O : Type) (M : Mongoose DB O)
  (ToNumber : jsstring -> option Z) (es : list event) (d : DB)
  (h : habit Z) :
  In h (habits (run M ToNumber es (startup d))) ->
  title h <> [] /\ trimmed (title h) /\ trim (title h) = title h.
Proof.
  intros Hin.
  assert (Forall (fun h => exists t, title h = trim t /\ trim t <> [])
            (habits (run M ToNumber es (startup d)))) as Hall.
  { apply (run_preserves M ToNumber
             (fun s => Forall (fun h => exists t, title h = trim t /\
                                                  trim t <> [])
                         (habits s))); [|constructor].
    intros e s Hs.
    destruct (step_habits M ToNumber e s)
      as [[E _] | [(_ & t & now & E & Ht & _)
                  | [(_ & id & today & dw & _ & E & _)
                    | (_ & id & _ & E & _)]]];
      rewrite E; auto.
    - apply Forall_app. split; auto.
      constructor; [|constructor]. exists t; auto.
    - apply mutate_first_Forall; auto.
      intros x (t & Et & Hne). exists t.
      assert (title (toggle today dw x) = title x) as ->; auto.
      pose proof (toggle_identity today dw x) as Ei.
      unfold identity in Ei. congruence.
    - now apply drop_first_Forall. }
  rewrite Forall_forall in Hall. destruct (Hall h Hin) as (t & -> & Hne).
  split; [exact Hne|]. split; [apply trim_trimmed | apply trim_idempotent].
Qed.

(** ** The random index *)

Lemma random_index_reaches_pow2 (random : unit_double) (n a : Z) :
  is_unit_double random -> 0 <= n -> 0 <= a ->
  (2 ^ a <= random_index random n <->
   (2 ^ 54 - 1) * 2 ^ a * 2 ^ expo random <= mant random * n * 2 ^ 54).
Proof.
  intros (Hm & He & Hlt) Hn Ha. unfold random_index.
  set (P := 2 ^ (1074 - expo random)).
  pose proof (pow2_pos (1074 - expo random) ltac:(lia)) as HP. fold P in HP.
  pose proof (pow2_pos 1074 ltac:(lia)) as HT.
  pose proof (pow2_pos a Ha) as HA.
  pose proof (pow2_pos (expo random) ltac:(lia)) as HE.
  assert (2 ^ 1074 = 2 ^ expo random * P) as ET.
  { unfold P. rewrite <- pow2_split by lia. f_equal. lia. }
  assert (0 <= mant random * n * P) as HN by nia.
  set (N := mant random * n * P) in *.
  assert (2 ^ a <= round53 N / 2 ^ 1074 <-> 2 ^ (1074 + a) <= round53 N)
    as ->.
  { rewrite pow2_split by lia. split; intros H.
    - pose proof (Z.mul_div_le (round53 N) (2 ^ 1074) HT). nia.
    - apply Z.div_le_lower_bound; lia. }
  rewrite (round53_reaches_pow2 N (1074 + a)) by lia.
  replace (1074 + a - 54) with (1020 + a) by lia.
  assert (2 ^ (1074 + a) = 2 ^ 54 * 2 ^ (1020 + a)) as ->.
  { rewrite <- pow2_split by lia. f_equal. lia. }
  assert (2 ^ 54 * 2 ^ (1020 + a) = 2 ^ a * (2 ^ expo random * P)) as Ek.
  { rewrite <- ET, <- !pow2_split by lia. f_equal. lia. }
  pose proof (pow2_pos (1020 + a) ltac:(lia)) as Hh.
  set (h := 2 ^ (1020 + a)) in *. set (E := 2 ^ expo random) in *.
  set (A := 2 ^ a) in *. set (m := mant random) in *.
  assert (0 < 2 ^ 54) as H54 by reflexivity.
  set (c := 2 ^ 54) in *. unfold N.
  split; intros H.
  - assert ((c - 1) * A * E * P <= m * n * c * P) by nia.
    apply Z.mul_le_mono_pos_r with P; [lia|]. lia.
  - assert ((c - 1) * A * E * P <= m * n * c * P) by nia.
    nia.
Qed.

(** X16. When the fetch fails the three built-in quotes share the draws
    in thirds, up to the rounding of the product to a double: a draw [v]
    gets the first quote when [3 v < 1 - 2^-54], the second when
    [1 - 2^-54 <= 3 v < 2 - 2^-53], the third from there on.  (The double
    just below 1/3 gets the second quote and the one just below 2/3 the
    third.) *)
Theorem fallback_quote_by_thirds
  (index_key : json -> unit_double -> jsstring) (f : fetched)
  (random fallbackRandom : unit_double) :
  getQuotes f = None -> is_unit_double fallbackRandom ->
  snd (get_motivation index_key f random fallbackRandom) =
    nth_error fallbackQuotes
      (if 3 * mant fallbackRandom * 2 ^ 54
            <? (2 ^ 54 - 1) * 2 ^ expo fallbackRandom then 0%nat
       else if 3 * mant fallbackRandom * 2 ^ 53
                 <? (2 ^ 54 - 1) * 2 ^ expo fallbackRandom then 1%nat
       else 2%nat).
Proof.
  intros Hf Hr. unfold get_motivation. rewrite Hf. cbn [snd].
  unfold random_element.
  change (Z.of_nat (length fallbackQuotes)) with 3.
  pose proof (random_index_range fallbackRandom 3 Hr ltac:(lia)) as Hi.
  pose proof (random_index_reaches_pow2 fallbackRandom 3 0 Hr
                ltac:(lia) ltac:(lia)) as H1.
  pose proof (random_index_reaches_pow2 fallbackRandom 3 1 Hr
                ltac:(lia) ltac:(lia)) as H2.
  change (2 ^ 0) with 1 in H1. change (2 ^ 1) with 2 in H2.
  set (i := random_index fallbackRandom 3) in *.
  set (E := 2 ^ expo fallbackRandom) in *.
  set (m := mant fallbackRandom) in *.
  assert (2 ^ 54 = 2 * 2 ^ 53) as E54 by reflexivity.
  destruct (Z.ltb_spec i 0) as [Hneg | _]; [lia|].
  destruct (Z.ltb_spec (3 * m * 2 ^ 54) ((2 ^ 54 - 1) * E)) as [L1 | G1].
  - assert (i = 0) as -> by lia. reflexivity.
  - destruct (Z.ltb_spec (3 * m * 2 ^ 53) ((2 ^ 54 - 1) * E)) as [L2 | G2].
    + assert (i = 1) as -> by lia. reflexivity.
    + assert (i = 2) as -> by lia. reflexivity.
Qed.

(** ** The weekdays of a habit *)

Lemma weekdays_at_most_seven (l : list Z) :
  NoDup l -> Forall (fun w => 0 <= w <= 6) l -> (length l <= 7)%nat.
Proof.
  intros Hnd Hall.
  change 7%nat with (length [0; 1; 2; 3; 4; 5; 6]).
  apply NoDup_incl_length; auto.
  intros w Hw. rewrite Forall_forall in Hall. specialize (Hall w Hw).
  simpl. lia.
Qed.

Lemma toggle_days_in_range {I} (today : jsstring) (dayOfWeek : Z)
  (h : habit I) :
  0 <= dayOfWeek <= 6 ->
  Forall (fun w => 0 <= w <= 6) (days h) ->
  Forall (fun w => 0 <= w <= 6) (days (toggle today dayOfWeek h)).
Proof.
  intros Hr Hall.
  destruct (in_dec (list_eq_dec N.eq_dec) today (history h)) as [Hin | Hn].
  - rewrite toggle_remove by assumption. simpl.
    now apply drop_first_Forall.
  - rewrite toggle_add by assumption. simpl.
    destruct (includes (days h) dayOfWeek); auto.
    apply Forall_app. split; auto.
Qed.

(** X17. When every toggle comes with a weekday from 0 to 6, as [getDay]
    gives, the days of every habit in the in-memory list are weekdays
    from 0 to 6, at most seven of them. *)
Theorem days_hold_weekdays (DB O : Type) (M : Mongoose DB O)
  (ToNumber : jsstring -> option Z) (es : list event) (d : DB)
  (h : habit Z) :
  Forall weekday_in_range es ->
  In h (habits (run M ToNumber es (startup d))) ->
  Forall (fun w => 0 <= w <= 6) (days h) /\ (length (days h) <= 7)%nat.
Proof.
  intros Hes Hin.
  assert (forall es s,
            Forall weekday_in_range es ->
            Forall (fun h => Forall (fun w => 0 <= w <= 6) (days h))
              (habits s) ->
            Forall (fun h => Forall (fun w => 0 <= w <= 6) (days h))
              (habits (run M ToNumber es s))) as Hrun.
  { clear. intros es. induction es as [|e es IH]; intros s Hes Hs; auto.
    inversion Hes as [|? ? He Hrest]; subst.
    rewrite run_cons. apply IH; auto.
    destruct (step_habits M ToNumber e s)
      as [[E _] | [(_ & t & now & E & _)
                  | [(_ & id & today & dw & Ee & E & _)
                    | (_ & id & _ & E & _)]]];
      rewrite E; auto.
    - apply Forall_app. split; auto; repeat constructor.
    - subst e. simpl in He. apply mutate_first_Forall; auto.
      intros x Hx. now apply toggle_days_in_range.
    - now apply drop_first_Forall. }
  specialize (Hrun es (startup d) Hes (Forall_nil _)).
  rewrite Forall_forall in Hrun. specialize (Hrun h Hin).
  split; auto. apply weekdays_at_most_seven; auto.
  destruct (run_ok M ToNumber es _ (startup_ok d)) as (_ & _ & _ & Ht).
  rewrite Forall_forall in Ht.
  now apply toggled_from_creation_NoDup, Ht.
Qed.

(** ** The clock helpers *)

Section Clock.
Import Date.

Lemma DayFromYear_alt (y : Z) :
  DayFromYear y
  = 365 * y + (y - 1) / 4 - (y - 1) / 100 + (y - 1) / 400 - 719527.
Proof. unfold DayFromYear. Z.div_mod_to_equations; lia. Qed.

Lemma DayFromYear_next (y : Z) :
  DayFromYear (y + 1) = DayFromYear y + DaysInYear y.
Proof.
  rewrite !DayFromYear_alt. unfold DaysInYear.
  replace (y + 1 - 1) with y by lia.
  destruct (Z.eqb_spec (y mod 4) 0) as [E4|E4];
    destruct (Z.eqb_spec (y mod 100) 0) as [E100|E100];
    destruct (Z.eqb_spec (y mod 400) 0) as [E400|E400]; cbn [negb].
  all: Z.div_mod_to_equations.
  all: try lia.
Qed.

(** The year of a time starts on or before its day, and the next year
    after it. *)
Lemma YearFromTime_spec (t : Z) :
  DayFromYear (YearFromTime t) <= Day t < DayFromYear (YearFromTime t + 1).
Proof.
  unfold YearFromTime. set (d := Day t). clearbody d.
  cbv zeta.
  destruct (DayFromYear (1970 + 400 * d / 146097 + 1) <=? d) eqn:E1.
  - apply Z.leb_le in E1. split; auto.
    rewrite DayFromYear_alt. clear E1. Z.div_mod_to_equations; lia.
  - apply Z.leb_gt in E1.
    destruct (DayFromYear (1970 + 400 * d / 146097 + 1 - 1) <=? d) eqn:E2.
    + apply Z.leb_le in E2. split; auto.
      replace (1970 + 400 * d / 146097 + 1 - 1 + 1)
        with (1970 + 400 * d / 146097 + 1) by lia.
      auto.
    + apply Z.leb_gt in E2. split.
      * rewrite DayFromYear_alt. clear E1 E2. Z.div_mod_to_equations; lia.
      * replace (1970 + 400 * d / 146097 + 1 - 2 + 1)
          with (1970 + 400 * d / 146097 + 1 - 1) by lia.
        auto.
Qed.

Lemma DaysInYear_leap (t : Z) :
  DaysInYear (YearFromTime t) = 365 + InLeapYear t.
Proof.
  unfold InLeapYear, DaysInYear.
  destruct (negb _); [reflexivity|]. destruct (negb _); [reflexivity|].
  destruct (negb _); reflexivity.
Qed.

Lemma InLeapYear_bit (t : Z) : InLeapYear t = 0 \/ InLeapYear t = 1.
Proof. unfold InLeapYear. destruct (_ =? _); auto. Qed.

Lemma DayWithinYear_range (t : Z) : 0 <= DayWithinYear t < 365 + InLeapYear t.
Proof.
  unfold DayWithinYear. pose proof (YearFromTime_spec t) as H.
  rewrite DayFromYear_next, DaysInYear_leap in H. lia.
Qed.

Lemma date_of_day (t : Z) :
  0 <= MonthFromTime t <= 11 /\ 1 <= DateFromTime t <= 31 /\
  Day t = DayFromYear (YearFromTime t)
          + monthStart (MonthFromTime t) (InLeapYear t) + DateFromTime t - 1.
Proof.
  pose proof (DayWithinYear_range t) as Hr.
  pose proof (InLeapYear_bit t) as Hl.
  assert (Day t = DayFromYear (YearFromTime t) + DayWithinYear t) as ->
    by (unfold DayWithinYear; lia).
  unfold DateFromTime, MonthFromTime.
  set (d := DayWithinYear t) in *. set (l := InLeapYear t) in *.
  clearbody d l. cbv zeta.
  repeat match goal with
         | |- context [if ?a <? ?b then _ else _] =>
             destruct (Z.ltb_spec a b)
         end; cbn [monthStart]; lia.
Qed.

Lemma leap_step (t : Z) :
  let y := YearFromTime t in
  y / 4 - y / 100 + y / 400
  = (y - 1) / 4 - (y - 1) / 100 + (y - 1) / 400 + InLeapYear t.
Proof.
  cbv zeta. pose proof (DayFromYear_next (YearFromTime t)) as H.
  rewrite DaysInYear_leap, !DayFromYear_alt in H.
  replace (YearFromTime t + 1 - 1) with (YearFromTime t) in H by lia. lia.
Qed.

Lemma DayFromYear_mono (y1 y2 : Z) :
  y1 <= y2 -> DayFromYear y1 <= DayFromYear y2.
Proof.
  intros H. rewrite !DayFromYear_alt. Z.div_mod_to_equations; lia.
Qed.

(** So it is the largest year that starts on or before the day. *)
Lemma YearFromTime_largest (t y : Z) :
  DayFromYear y <= Day t <-> y <= YearFromTime t.
Proof.
  pose proof (YearFromTime_spec t) as [Hlo Hhi]. split.
  - intros Hy. destruct (Z_le_gt_dec y (YearFromTime t)) as [|Hgt]; auto.
    pose proof (DayFromYear_mono (YearFromTime t + 1) y ltac:(lia)). lia.
  - intros Hy. pose proof (DayFromYear_mono y (YearFromTime t) Hy). lia.
Qed.

Lemma four_digit_year_range (t : Z) :
  four_digit_year t -> 0 <= YearFromTime t <= 9999.
Proof.
  unfold four_digit_year. intros Ht.
  assert (DayFromYear 0 <= Day t) as H0.
  { unfold Day, msPerDay. change (DayFromYear 0) with (-719528).
    Z.div_mod_to_equations; lia. }
  assert (Day t < DayFromYear 10000) as H1.
  { unfold Day, msPerDay. change (DayFromYear 10000) with 2932897.
    Z.div_mod_to_equations; lia. }
  apply YearFromTime_largest in H0. split; auto.
  destruct (Z_le_gt_dec 10000 (YearFromTime t)) as [Hge|]; [|lia].
  apply YearFromTime_largest in Hge. lia.
Qed.

Lemma digit_of_pad (x : Z) : digit (Z.to_N (48 + x mod 10)) = x mod 10.
Proof.
  unfold digit. rewrite Z2N.id; [lia|].
  pose proof (Z.mod_pos_bound x 10 ltac:(lia)). lia.
Qed.

Lemma split_head_app (sep : N) (l1 l2 : jsstring) :
  Forall (fun c => N.eqb c sep = false) l1 ->
  split_head sep (l1 ++ l2) = l1 ++ split_head sep l2.
Proof.
  induction 1 as [|c l1 Hc Hl IH]; simpl; auto.
  now rewrite Hc, IH.
Qed.

Lemma pad_no_T (n : nat) (x : Z) :
  Forall (fun c => N.eqb c 84 = false) (pad n x).
Proof.
  revert x. induction n as [|n IH]; intros x; cbn [pad]; [constructor|].
  apply Forall_app. split; [apply IH|]. constructor; [|constructor].
  apply N.eqb_neq. pose proof (Z.mod_pos_bound x 10 ltac:(lia)) as Hm.
  intros E. apply (f_equal Z.of_N) in E. rewrite Z2N.id in E by lia.
  change (Z.of_N 84) with 84 in E. lia.
Qed.

Lemma getTodayString_date (t : Z) :
  four_digit_year t ->
  getTodayString t =
    pad 4 (YearFromTime t) ++ str "-" ++ pad 2 (MonthFromTime t + 1)
      ++ str "-" ++ pad 2 (DateFromTime t).
Proof.
  intros Ht. apply four_digit_year_range in Ht.
  unfold getTodayString, toISOString.
  replace ((0 <=? YearFromTime t) && (YearFromTime t <=? 9999)) with true
    by (symmetry; apply andb_true_iff; split; apply Z.leb_le; lia).
  rewrite split_head_app by apply pad_no_T.
  rewrite (split_head_app _ (str "-")) by (repeat constructor).
  rewrite split_head_app by apply pad_no_T.
  rewrite (split_head_app _ (str "-")) by (repeat constructor).
  rewrite split_head_app by apply pad_no_T.
  change (str "T") with [84%N]. cbn [app].
  cbn [split_head N.eqb Pos.eqb]. now rewrite app_nil_r.
Qed.

Lemma pad4_digits (y : Z) :
  0 <= y <= 9999 ->
  1000 * (y / 10 / 10 / 10 mod 10) + 100 * (y / 10 / 10 mod 10)
    + 10 * (y / 10 mod 10) + y mod 10 = y.
Proof. intros H. Z.div_mod_to_equations; lia. Qed.

Lemma pad2_digits (x : Z) :
  0 <= x <= 99 -> 10 * (x / 10 mod 10) + x mod 10 = x.
Proof. intros H. Z.div_mod_to_equations; lia. Qed.

Lemma isoWeekday_date (y m d : Z) :
  0 <= y <= 9999 -> 0 <= m <= 99 -> 0 <= d <= 99 ->
  isoWeekday (pad 4 y ++ str "-" ++ pad 2 m ++ str "-" ++ pad 2 d) =
    (let t := nth (Z.to_nat (m - 1)) [0; 3; 2; 5; 0; 3; 5; 1; 4; 6; 2; 4] 0 in
     let y := if m <? 3 then y - 1 else y in
     (y + y / 4 - y / 100 + y / 400 + t + d) mod 7).
Proof.
  intros Hy Hm Hd. cbn [pad app str map list_ascii_of_string].
  unfold isoWeekday. rewrite !digit_of_pad.
  rewrite (pad4_digits y Hy), (pad2_digits m Hm), (pad2_digits d Hd).
  reflexivity.
Qed.

(** The Gregorian weekday of the date string is the weekday of the
    time. *)
Lemma isoWeekday_today (t : Z) :
  four_digit_year t -> isoWeekday (getTodayString t) = WeekDay t.
Proof.
  intros Ht. rewrite (getTodayString_date t Ht).
  pose proof (four_digit_year_range t Ht) as Hy.
  destruct (date_of_day t) as (Hm & Hd & Eday).
  rewrite isoWeekday_date by lia.
  unfold WeekDay. rewrite Eday, DayFromYear_alt.
  pose proof (leap_step t) as Hl. cbv zeta in Hl.
  pose proof (InLeapYear_bit t) as Hb.
  set (y := YearFromTime t) in *. set (l := InLeapYear t) in *.
  set (m := MonthFromTime t) in *. set (d := DateFromTime t) in *.
  clearbody y l m d. clear Eday Ht.
  replace (m + 1 - 1) with m by lia.
  assert (m = 0 \/ m = 1 \/ m = 2 \/ m = 3 \/ m = 4 \/ m = 5 \/ m = 6 \/
          m = 7 \/ m = 8 \/ m = 9 \/ m = 10 \/ m = 11) as Hcase by lia.
  set (a := y / 4) in *. set (b := y / 100) in *. set (c := y / 400) in *.
  set (a1 := (y - 1) / 4) in *. set (b1 := (y - 1) / 100) in *.
  set (c1 := (y - 1) / 400) in *.
  destruct Hcase as [-> | [-> | [-> | [-> | [-> | [-> | [-> | [-> | [-> |
                    [-> | [-> | ->]]]]]]]]]]];
    match goal with
    | |- context [nth ?n ?tab ?z] =>
        let v := eval vm_compute in (nth n tab z) in
        change (nth n tab z) with v
    end;
    match goal with
    | |- context [?x <? 3] =>
        let v := eval vm_compute in (x <? 3) in change (x <? 3) with v
    end;
    cbv [monthStart]; fold a b c a1 b1 c1;
    clearbody a b c a1 b1 c1;
    Z.div_mod_to_equations; lia.
Qed.

Lemma getDayOfWeek_range (now localTZA : Z) :
  0 <= getDayOfWeek now localTZA <= 6.
Proof.
  unfold getDayOfWeek, WeekDay.
  pose proof (Z.mod_pos_bound (Day (now + localTZA) + 4) 7 ltac:(lia)). lia.
Qed.

(** X18. The weekday given to a toggle is the weekday of local time, the date
    that of UTC.  For a time whose year has four digits the weekday is the
    weekday of the date shifted by the days local time is ahead of UTC:
    the two agree when local time and UTC are on the same day, and differ
    when they are a day apart. *)
Theorem weekday_against_date (now localTZA : Z) :
  four_digit_year now ->
  getDayOfWeek now localTZA =
    (isoWeekday (getTodayString now) + (Day (now + localTZA) - Day now)) mod 7
  /\ (Day (now + localTZA) = Day now ->
      getDayOfWeek now localTZA = isoWeekday (getTodayString now))
  /\ (Day (now + localTZA) = Day now + 1 \/
      Day (now + localTZA) = Day now - 1 ->
      getDayOfWeek now localTZA <> isoWeekday (getTodayString now)).
Proof.
  intros Ht. rewrite (isoWeekday_today now Ht).
  unfold getDayOfWeek, WeekDay.
  set (d := Day now). set (d' := Day (now + localTZA)). clearbody d d'.
  repeat split.
  - Z.div_mod_to_equations; lia.
  - intros ->. reflexivity.
  - intros [-> | ->]; Z.div_mod_to_equations; lia.
Qed.

Lemma pad_digit_inj (a b : Z) :
  Z.to_N (48 + a mod 10) = Z.to_N (48 + b mod 10) -> a mod 10 = b mod 10.
Proof.
  intros E. apply (f_equal Z.of_N) in E.
  pose proof (Z.mod_pos_bound a 10 ltac:(lia)).
  pose proof (Z.mod_pos_bound b 10 ltac:(lia)).
  rewrite !Z2N.id in E by lia. lia.
Qed.

Lemma date_string_inj (y1 m1 d1 y2 m2 d2 : Z) :
  0 <= y1 <= 9999 -> 0 <= y2 <= 9999 ->
  0 <= m1 <= 99 -> 0 <= m2 <= 99 -> 0 <= d1 <= 99 -> 0 <= d2 <= 99 ->
  pad 4 y1 ++ str "-" ++ pad 2 m1 ++ str "-" ++ pad 2 d1 =
  pad 4 y2 ++ str "-" ++ pad 2 m2 ++ str "-" ++ pad 2 d2 ->
  y1 = y2 /\ m1 = m2 /\ d1 = d2.
Proof.
  intros Hy1 Hy2 Hm1 Hm2 Hd1 Hd2 E.
  cbn [pad app str map list_ascii_of_string] in E.
  injection E as E1 E2 E3 E4 E5 E6 E7 E8.
  apply pad_digit_inj in E1, E2, E3, E4, E5, E6, E7, E8.
  rewrite <- (pad4_digits y1 Hy1), <- (pad4_digits y2 Hy2).
  rewrite <- (pad2_digits m1 Hm1), <- (pad2_digits m2 Hm2).
  rewrite <- (pad2_digits d1 Hd1), <- (pad2_digits d2 Hd2).
  rewrite E1, E2, E3, E4, E5, E6, E7, E8. auto.
Qed.

Lemma getTodayString_same_day (t1 t2 : Z) :
  four_digit_year t1 -> four_digit_year t2 ->
  (getTodayString t1 = getTodayString t2 <-> Day t1 = Day t2).
Proof.
  intros H1 H2.
  rewrite (getTodayString_date t1 H1), (getTodayString_date t2 H2).
  split.
  - intros E.
    destruct (date_of_day t1) as (Hm1 & Hd1 & E1).
    destruct (date_of_day t2) as (Hm2 & Hd2 & E2).
    apply date_string_inj in E;
      try (apply four_digit_year_range; assumption); try lia.
    destruct E as (Ey & Em & Ed).
    assert (InLeapYear t1 = InLeapYear t2) as El
      by (unfold InLeapYear; now rewrite Ey).
    assert (MonthFromTime t1 = MonthFromTime t2) as Em' by lia.
    rewrite E1, E2, Ey, Em', El, Ed. reflexivity.
  - intros E.
    assert (YearFromTime t1 = YearFromTime t2) as Ey
      by (unfold YearFromTime; now rewrite E).
    assert (InLeapYear t1 = InLeapYear t2) as El
      by (unfold InLeapYear; now rewrite Ey).
    assert (DayWithinYear t1 = DayWithinYear t2) as Ew
      by (unfold DayWithinYear; now rewrite E, Ey).
    assert (MonthFromTime t1 = MonthFromTime t2) as Em
      by (unfold MonthFromTime; now rewrite Ew, El).
    assert (DateFromTime t1 = DateFromTime t2) as Ed
      by (unfold DateFromTime; now rewrite Ew, El, Em).
    now rewrite Ey, Em, Ed.
Qed.

(** X19. The date string stands for the UTC day: for times whose year has
    four digits, two requests get the same string exactly when they fall
    on the same UTC day. *)
Theorem today_string_names_utc_day (t1 t2 : Z) :
  four_digit_year t1 -> four_digit_year t2 ->
  (getTodayString t1 = getTodayString t2 <-> Day t1 = Day t2).
Proof. apply getTodayString_same_day. Qed.

(** X21. Two toggles by the clock, of a habit not yet done on the first day:
    on the same UTC day the second takes the first back, whatever the
    local times are; on different UTC days both dates are recorded, in
    the order of the requests. *)
Theorem toggles_by_the_clock (I : Type) (h : habit I) (t1 z1 t2 z2 : Z) :
  four_digit_year t1 -> four_digit_year t2 ->
  ~ In (getTodayString t1) (history h) ->
  (Day t1 = Day t2 ->
   history (toggle_at t2 z2 (toggle_at t1 z1 h)) = history h) /\
  (Day t1 <> Day t2 -> ~ In (getTodayString t2) (history h) ->
   history (toggle_at t2 z2 (toggle_at t1 z1 h))
     = history h ++ [getTodayString t1; getTodayString t2]).
Proof.
  intros H1 H2 Hn. unfold toggle_at.
  rewrite (toggle_add (getTodayString t1) (getDayOfWeek t1 z1) h Hn).
  split.
  - intros E. apply (getTodayString_same_day t1 t2 H1 H2) in E.
    rewrite <- E.
    rewrite toggle_remove by (simpl; apply in_or_app; right; now left).
    cbn [history]. now apply remove_first_last.
  - intros Hne Hn2.
    rewrite toggle_add.
    + cbn [history]. rewrite <- app_assoc. reflexivity.
    + cbn [history]. intros Hin. apply in_app_or in Hin.
      destruct Hin as [Hin | [E | []]]; [contradiction|].
      apply Hne. now apply (getTodayString_same_day t1 t2 H1 H2).
Qed.

End Clock.

(** ** The health check *)

Lemma run_flag {DB O : Type} (M : Mongoose DB O)
  (ToNumber : jsstring -> option Z) (es : list event) (s : server DB) :
  isConnected (run M ToNumber es s) = true <->
  isConnected s = true \/ In Connected es.
Proof.
  revert s. induction es as [|e es IH]; intros s.
  - simpl. tauto.
  - rewrite run_cons, IH, step_flag. simpl.
    destruct e as [r|]; split.
    + intros [H | H]; auto.
    + intros [H | [H | H]]; auto. discriminate H.
    + intros _. auto.
    + intros _. auto.
Qed.

(** X20. The health check names the database exactly when the connection has
    come up at some point of the run, whatever the driver has answered
    since; before that it names the in-memory list. *)
Theorem health_reports_connection (DB O : Type) (M : Mongoose DB O)
  (ToNumber : jsstring -> option Z) (es : list event) (d : DB) (now : Z) :
  let s := run M ToNumber es (startup d) in
  fst (fst (get_health now s)) = "OK"%string /\
  (snd (fst (get_health now s)) = "MongoDB"%string <-> In Connected es) /\
  (snd (fst (get_health now s)) = "In-Memory"%string <-> ~ In Connected es).
Proof.
  cbv zeta. unfold get_health. cbn [fst snd].
  pose proof (run_flag M ToNumber es (startup d)) as Hf.
  cbn [startup isConnected] in Hf.
  destruct (isConnected (run M ToNumber es (startup d))).
  - assert (In Connected es) as Hin.
    { destruct (proj1 Hf eq_refl) as [E | Hin]; [discriminate E | exact Hin]. }
    repeat split; auto; try discriminate. intros Hn. contradiction.
  - assert (~ In Connected es) as Hn.
    { intros Hin. assert (false = true) as E by (apply Hf; auto).
      discriminate E. }
    repeat split; auto; try discriminate. intros Hin. contradiction.
Qed.

(** ** The further properties at concrete inputs *)

Lemma toggle_unknown_id_witness :
  let s := Server false [Habit 1 (str "Read") [] [] 0] 2
             (Double.Collection [] []) in
  let s' := Server true [] 1 (Double.Collection [] []) in
  patch_toggle Double.mongoose Double.decimal (str "7") (str "2024-01-01") 1 s
    = (Response 404 (ErrorBody "Habit not found"), s) /\
  patch_toggle Double.mongoose Double.decimal (str "65a1") (str "2024-01-01")
    1 s' = (Response 404 (ErrorBody "Habit not found"), s').
Proof.
  cbv zeta. split.
  - apply toggle_unknown_id. cbn [isConnected habits].
    intros h [<- | []]. reflexivity.
  - apply toggle_unknown_id. reflexivity.
Defined.

Lemma handler_statuses_witness :
  let s := startup (Double.Collection [] []) in
  let five := POST_habits (Body (Some (JNumber (5 # 1)))) 0 in
  status (fst (handle Double.mongoose Double.decimal five s)) = 500 /\
  status (fst (handle Double.mongoose Double.decimal
                 (POST_habits NoBody 0) s)) = 500 /\
  exists body now,
    five = POST_habits body now /\
    (body = NoBody \/
     exists title, body = Body title /\ truthy title = true /\
                   forall t, title <> Some (JString t)).
Proof.
  cbv zeta. split; [|split].
  - apply (proj2 (handler_statuses Double.mongoose Double.decimal
                    (POST_habits (Body (Some (JNumber (5 # 1)))) 0)
                    (startup (Double.Collection [] []))) eq_refl).
    exists (Body (Some (JNumber (5 # 1)))), 0. split; [reflexivity|].
    right. exists (Some (JNumber (5 # 1))).
    split; [reflexivity|]. split; [reflexivity|]. discriminate.
  - apply (proj2 (handler_statuses Double.mongoose Double.decimal
                    (POST_habits NoBody 0)
                    (startup (Double.Collection [] []))) eq_refl).
    exists NoBody, 0. split; [reflexivity|]. left. reflexivity.
  - apply (proj2 (handler_statuses Double.mongoose Double.decimal
                    (POST_habits (Body (Some (JNumber (5 # 1)))) 0)
                    (startup (Double.Collection [] []))) eq_refl).
    reflexivity.
Defined.

Lemma refusal_changes_nothing_witness :
  let s := Server false [Habit 1 (str "Read") [] [] 0] 2
             (Double.Collection [] []) in
  let s1 := snd (handle Double.mongoose Double.decimal
                   (DELETE_habit (str "7")) s) in
  habits s1 = habits s /\ habitId s1 = habitId s /\
  isConnected s1 = isConnected s /\ (isConnected s = false -> s1 = s).
Proof.
  cbv zeta.
  apply (proj1 (refusal_changes_nothing Double.mongoose Double.decimal
                  (DELETE_habit (str "7")) _)).
  reflexivity.
Defined.

Lemma toggle_touches_one_habit_witness :
  let h1 := Habit 1 (str "Read") [] [] 0 in
  let h2 := Habit 2 (str "Run") [] [] 5 in
  let s := Server false [h1; h2] 3 (Double.Collection [] []) in
  nth_error
    (habits (snd (patch_toggle Double.mongoose Double.decimal (str "1")
                    (str "2024-01-01") 1 s))) 1 = Some h2.
Proof.
  cbv zeta.
  apply (proj2 (proj2 (toggle_touches_one_habit Double.mongoose
                         Double.decimal _ (str "1") (str "2024-01-01") 1)));
    reflexivity.
Defined.

Lemma identity_is_kept_witness :
  let h := Habit 1 (str "Read") [] [] 0 in
  let s := Server false [h] 2 (Double.Collection [] []) in
  let h' := toggle (str "2024-01-01") 1 h in
  (exists h0, In h0 (habits s) /\ identity h0 = identity h') \/
  habitId s <= _id h'.
Proof.
  cbv zeta.
  apply (identity_is_kept Double.mongoose Double.decimal
           [Serve (PATCH_toggle (str "1") (str "2024-01-01") 1)]).
  left. reflexivity.
Defined.

Lemma habit_stays_until_deleted_witness :
  let h := Habit 1 (str "Read") [] [] 0 in
  let s := Server false [h] 2 (Double.Collection [] []) in
  let es := [Serve (PATCH_toggle (str "1") (str "2024-01-01") 1);
             Serve (DELETE_habit (str "2"));
             Serve (POST_habits (Body (Some (JString (str "Run")))) 5)] in
  exists h', In h' (habits (run Double.mongoose Double.decimal es s)) /\
             identity h' = identity h.
Proof.
  cbv zeta. apply habit_stays_until_deleted.
  - left. reflexivity.
  - intros e [<- | [<- | [<- | []]]]; simpl; try tauto. discriminate.
Defined.

Lemma deleted_id_is_gone_witness :
  let s := run Double.mongoose Double.decimal
             [Serve (POST_habits (Body (Some (JString (str "Read")))) 0)]
             (startup (Double.Collection [] [])) in
  let s1 := snd (delete_habit Double.mongoose Double.decimal (str "1") s) in
  delete_habit Double.mongoose Double.decimal (str "1") s1 =
    (Response 404 (ErrorBody "Habit not found"), s1) /\
  (forall today dayOfWeek,
     patch_toggle Double.mongoose Double.decimal (str "1") today dayOfWeek s1
       = (Response 404 (ErrorBody "Habit not found"), s1)).
Proof.
  cbv zeta.
  apply (deleted_id_is_gone Double.mongoose Double.decimal
           [Serve (POST_habits (Body (Some (JString (str "Read")))) 0)]
           (Double.Collection [] []) (str "1"));
    reflexivity.
Defined.

Lemma create_then_delete_witness :
  let s := startup (Double.Collection [] []) in
  delete_habit Double.mongoose Double.decimal (str "1")
    (snd (post_habits Double.mongoose
            (Body (Some (JString (str " Read")))) 0 s)) =
    (Response 200 (MessageBody "Habit deleted successfully"),
     Server false [] 2 (Double.Collection [] [])).
Proof.
  cbv zeta.
  apply (create_then_delete Double.mongoose Double.decimal []
           (Double.Collection [] []) (str " Read") (str "1") 0);
    [vm_compute; discriminate | reflexivity | reflexivity].
Defined.

Lemma toggle_pair_restores_state_witness :
  let h := Habit 1 (str "Read") [] [] 0 in
  let s := Server false [h] 2 (Double.Collection [] []) in
  let r1 := patch_toggle Double.mongoose Double.decimal (str "1")
              (str "2024-01-01") 1 s in
  let r2 := patch_toggle Double.mongoose Double.decimal (str "1")
              (str "2024-01-01") 1 (snd r1) in
  status (fst r1) = 200 /\ fst r2 = Response 200 (OneHabit (with_id inl h)) /\
  snd r2 = s.
Proof.
  cbv zeta.
  apply (toggle_pair_restores_state Double.mongoose Double.decimal
           (Server false [Habit 1 (str "Read") [] [] 0] 2
              (Double.Collection [] []))
           (str "1") (str "2024-01-01") 1 (Habit 1 (str "Read") [] [] 0));
    try reflexivity; intros [].
Defined.

Lemma connection_is_final_witness :
  let s := Server true [Habit 1 (str "Read") [] [] 0] 2
             (Double.Collection [] [str "65a1"]) in
  let es := [Serve (POST_habits (Body (Some (JString (str "Run")))) 5);
             Serve (DELETE_habit (str "1"))] in
  isConnected (run Double.mongoose Double.decimal es s) = true /\
  habits (run Double.mongoose Double.decimal es s) = habits s /\
  habitId (run Double.mongoose Double.decimal es s) = habitId s /\
  (forall st l,
     fst (get_habits Double.mongoose
            (run Double.mongoose Double.decimal es s))
       = Response st (Habits l) ->
     forall h, In h l -> exists o, _id h = inr o).
Proof.
  cbv zeta. apply connection_is_final. reflexivity.
Defined.

Lemma memory_mode_ignores_driver_witness :
  let s := startup (Double.Collection [] [str "65a1"]) in
  let es := [Serve (POST_habits (Body (Some (JString (str "Read")))) 0);
             Serve (PATCH_toggle (str "1") (str "2024-01-01") 1);
             Serve GET_habits] in
  run Double.mongoose Double.decimal es s = run offline Double.decimal es s /\
  trace Double.mongoose Double.decimal es s
    = trace offline Double.decimal es s /\
  db (run Double.mongoose Double.decimal es s) = db s /\
  isConnected (run Double.mongoose Double.decimal es s) = false.
Proof.
  cbv zeta. apply memory_mode_ignores_driver; [reflexivity|].
  intros [E | [E | [E | []]]]; discriminate E.
Defined.

Lemma toggle_flips_today_witness :
  let h := Habit 1 (str "Read") [1] [str "2024-01-01"] 0 in
  let h' := toggle (str "2024-01-01") 1 h in
  (In (str "2024-01-01") (history h') <->
   ~ In (str "2024-01-01") (history h)) /\
  (forall d, d <> str "2024-01-01" ->
     (In d (history h') <-> In d (history h))) /\
  (forall w, w <> 1 -> (In w (days h') <-> In w (days h))).
Proof.
  cbv zeta. apply toggle_flips_today.
  cbn [history]. constructor; [intros [] | constructor].
Defined.

Lemma toggle_twice_keeps_dates_witness :
  let h := Habit 1 (str "Read") [1]
             [str "2024-01-08"; str "2024-01-01"] 0 in
  Permutation
    (history (toggle (str "2024-01-08") 1 (toggle (str "2024-01-08") 1 h)))
    (history h).
Proof.
  cbv zeta. apply toggle_twice_keeps_dates. cbn [history].
  constructor; [|constructor; [intros [] | constructor]].
  intros [E | []]. vm_compute in E. discriminate E.
Defined.

Lemma stored_titles_are_trimmed_witness :
  let h := Habit 1 (str "Read") [] [] 0 in
  title h <> [] /\ trimmed (title h) /\ trim (title h) = title h.
Proof.
  cbv zeta.
  apply (stored_titles_are_trimmed _ _ Double.mongoose Double.decimal
           [Serve (POST_habits (Body (Some (JString (str "  Read  ")))) 0)]
           (Double.Collection [] [])).
  left. reflexivity.
Defined.

Lemma fallback_quote_by_thirds_witness :
  let key := fun (_ : json) (_ : unit_double) => str "0" in
  let half := UnitDouble 1 1 in
  let below_two_thirds := UnitDouble 6004799503160661 53 in
  snd (get_motivation key RequestError half half) =
    Some (quote "Believe you can and you're halfway there."
            "Theodore Roosevelt") /\
  6004799503160661 * 3 < 2 * 2 ^ 53 /\
  snd (get_motivation key RequestError half below_two_thirds) =
    Some (quote "It always seems impossible until it's done."
            "Nelson Mandela").
Proof.
  cbv zeta. split; [|split; [reflexivity|]].
  - rewrite (fallback_quote_by_thirds (fun _ _ => str "0") RequestError
               (UnitDouble 1 1) (UnitDouble 1 1) eq_refl).
    + reflexivity.
    + unfold is_unit_double. repeat split; vm_compute; congruence.
  - rewrite (fallback_quote_by_thirds (fun _ _ => str "0") RequestError
               (UnitDouble 1 1) (UnitDouble 6004799503160661 53) eq_refl).
    + reflexivity.
    + unfold is_unit_double. repeat split; vm_compute; congruence.
Defined.

Lemma days_hold_weekdays_witness :
  let now := 1704151800000 in
  let es := [Serve (POST_habits (Body (Some (JString (str "Read")))) now);
             Serve (PATCH_toggle (str "1") (getTodayString now)
                      (getDayOfWeek now 3600000))] in
  let h := Habit 1 (str "Read") [2] [str "2024-01-01"] now in
  Forall (fun w => 0 <= w <= 6) (days h) /\ (length (days h) <= 7)%nat.
Proof.
  cbv zeta.
  apply (days_hold_weekdays _ _ Double.mongoose Double.decimal
           [Serve (POST_habits (Body (Some (JString (str "Read"))))
                     1704151800000);
            Serve (PATCH_toggle (str "1") (getTodayString 1704151800000)
                     (getDayOfWeek 1704151800000 3600000))]
           (Double.Collection [] [])).
  - constructor; [exact I|]. constructor; [|constructor].
    apply getDayOfWeek_range.
  - left. vm_compute. reflexivity.
Defined.

Lemma weekday_against_date_witness :
  let now := 1704151800000 in
  getTodayString now = str "2024-01-01" /\
  getDayOfWeek now 0 = isoWeekday (getTodayString now) /\
  getDayOfWeek now 3600000 <> isoWeekday (getTodayString now).
Proof.
  cbv zeta.
  assert (four_digit_year 1704151800000) as Hy by (unfold four_digit_year; lia).
  destruct (weekday_against_date 1704151800000 0 Hy) as (_ & Hsame & _).
  destruct (weekday_against_date 1704151800000 3600000 Hy) as (_ & _ & Hoff).
  split; [vm_compute; reflexivity|]. split.
  - apply Hsame. reflexivity.
  - apply Hoff. left. reflexivity.
Defined.

Lemma today_string_names_utc_day_witness :
  getTodayString 1704067200000 = getTodayString 1704151800000.
Proof.
  apply today_string_names_utc_day;
    [unfold four_digit_year; lia | unfold four_digit_year; lia | reflexivity].
Defined.

Lemma toggles_by_the_clock_witness :
  let h := Habit 1 (str "Read") [] [] 0 in
  history (toggle_at 1704153600000 0 (toggle_at 1704151800000 3600000 h))
    = [str "2024-01-01"; str "2024-01-02"] /\
  history (toggle_at 1704151800000 0 (toggle_at 1704067200000 0 h)) = [].
Proof.
  cbv zeta.
  assert (four_digit_year 1704151800000) as H1 by (unfold four_digit_year; lia).
  assert (four_digit_year 1704153600000) as H2 by (unfold four_digit_year; lia).
  assert (four_digit_year 1704067200000) as H3 by (unfold four_digit_year; lia).
  split.
  - rewrite (proj2 (toggles_by_the_clock Z (Habit 1 (str "Read") [] [] 0)
                      1704151800000 3600000 1704153600000 0 H1 H2
                      (fun x => x))).
    + vm_compute. reflexivity.
    + vm_compute. discriminate.
    + intros [].
  - apply (proj1 (toggles_by_the_clock Z (Habit 1 (str "Read") [] [] 0)
                    1704067200000 0 1704151800000 0 H3 H1 (fun x => x))).
    reflexivity.
Defined.
